(** * BossUp front end: session store, API client and authorization guard

    A shallow embedding of [ENIVE/frontend/assets/js/api.js]: the [TokenManager]
    object (the session store kept in [localStorage]), [API.request],
    [API.login], [API.signup], [redirectToDashboard] and [requireAuth],
    together with the part of the browser they run on: JavaScript values,
    truthiness, string conversion, [JSON.stringify], [JSON.parse],
    [localStorage], [fetch] and [window.location].

    Conventions of the model.
    - A JavaScript string is a [string]: the bytes of its UTF-8 form.
    - A number is an exact decimal [m * 10^e]; the rounding of literals to
      IEEE doubles is left out. The browser holds the same number, and
      prints, tests and compares it as the model does, when it is
      [double_exact]: zero, or at most 15 significant digits between
      1e-300 and 1e300. Statements that print or test a number the caller
      or the server chooses assume it.
    - An object is the list of its properties in the order they were
      written (the browser lists keys that look like array indices first).
    - The conversion of a value to a string throws a TypeError when it
      meets an object with a [toString] property of its own, which in a
      value read from JSON is never a function. [ToString] is the string
      of a conversion that returns, [convertible] tells whether it does,
      and [convert] is the conversion with its throw.
    - [localStorage] is a [gmap string string]; [getItem] of a missing key
      is [JNull].
    - An [async] function is run to completion against a [fetch] oracle
      that maps the request sent to the outcome of the network call; what
      it does to the browser is recorded in a [World]: the storage and the
      trace of page navigations, console errors, requests sent and bodies
      read. *)

From Stdlib Require Import ZArith NArith String Ascii List Bool Lia DecimalString.
From Stdlib Require DecimalN DecimalFacts.
From stdpp Require Import gmap strings list fin_maps.


(** ** JavaScript values *)

Module JS.

#[warnings="-register-all"]
Inductive jsval : Type :=
| JUndefined
| JNull
| JBool (b : bool)
| JNum (m e : Z)
| JStr (s : string)
| JArr (items : list jsval)
| JObj (fields : list (string * jsval)).

(** What a JavaScript function that can throw completes with. *)
Inductive exn : Type :=
| Error (message : string)          (* new Error(message) *)
| SyntaxError                       (* thrown by JSON.parse and response.json() *)
| TypeError                         (* property read on null or undefined,
                                       conversion to a string that throws *)
| NetworkFailure (message : string) (* fetch rejected *).

Inductive completion (A : Type) : Type :=
| Return (a : A)
| Throw (e : exn).
Arguments Return {A} a.
Arguments Throw {A} e.

(** The double quote, the backslash and the decimal digits. *)
Definition dquote : ascii := "034"%char.
Definition backslash : ascii := "092"%char.
Definition q : string := String dquote "".

Definition digits_of_N (n : N) : string :=
  NilZero.string_of_uint (N.to_uint n).

Definition digit_val (c : ascii) : option N :=
  let n := N_of_ascii c in
  if ((48 <=? n) && (n <=? 57))%N then Some (n - 48)%N else None.

Fixpoint repeat_char (c : ascii) (n : nat) : string :=
  match n with
  | O => ""
  | S k => String c (repeat_char c k)
  end.

Fixpoint string_rev_onto (s acc : string) : string :=
  match s with
  | "" => acc
  | String c s' => string_rev_onto s' (String c acc)
  end.

Definition string_rev (s : string) : string := string_rev_onto s "".

(** Leading ["0"] characters of [s] dropped: [(how many, the rest)]. *)
Fixpoint drop_zeros (s : string) : nat * string :=
  match s with
  | String "0"%char s' => let '(k, r) := drop_zeros s' in (S k, r)
  | _ => (O, s)
  end.

Definition string_take (n : nat) (s : string) : string := substring 0 n s.
Definition string_drop (n : nat) (s : string) : string :=
  substring n (String.length s - n) s.

(** The significant digits of [m * 10^e] (no trailing zero) and the
    position [n] of the decimal point: the value is [0.d1...dk * 10^n]. *)
Definition num_digits (m e : Z) : string * Z :=
  let ds := digits_of_N (Z.abs_N m) in
  let '(z, r) := drop_zeros (string_rev ds) in
  let sig := string_rev r in
  (sig, Z.of_nat (String.length sig) + Z.of_nat z + e)%Z.

(** Number::toString in radix 10. *)
Definition number_to_string (m e : Z) : string :=
  if (m =? 0)%Z then "0" else
  let '(ds, n) := num_digits m e in
  let k := Z.of_nat (String.length ds) in
  let body :=
    if ((k <=? n) && (n <=? 21))%Z then
      ds +:+ repeat_char "0" (Z.to_nat (n - k))
    else if ((0 <? n) && (n <=? 21))%Z then
      string_take (Z.to_nat n) ds +:+ "." +:+ string_drop (Z.to_nat n) ds
    else if ((-6 <? n) && (n <=? 0))%Z then
      "0." +:+ repeat_char "0" (Z.to_nat (- n)) +:+ ds
    else
      let ex := (n - 1)%Z in
      let mant :=
        match ds with
        | String d "" => ds
        | String d rest => String d ("." +:+ rest)
        | "" => ds
        end in
      mant +:+ "e" +:+ (if (ex <? 0)%Z then "-" else "+")
           +:+ digits_of_N (Z.abs_N ex) in
  if (m <? 0)%Z then "-" +:+ body else body.

(** ToBoolean. *)
Definition truthy (v : jsval) : bool :=
  match v with
  | JUndefined | JNull => false
  | JBool b => b
  | JNum m _ => negb (m =? 0)%Z
  | JStr "" => false
  | JStr _ => true
  | JArr _ | JObj _ => true
  end.

Fixpoint join (sep : string) (l : list string) : string :=
  match l with
  | [] => ""
  | [x] => x
  | x :: rest => x +:+ sep +:+ join sep rest
  end.

(** ToString: [String(v)], and what a template literal, [new Error(v)] and
    [localStorage.setItem(k, v)] make of [v], when the conversion returns
    (see [convertible] and [convert] below). *)
Fixpoint ToString (v : jsval) : string :=
  match v with
  | JUndefined => "undefined"
  | JNull => "null"
  | JBool true => "true"
  | JBool false => "false"
  | JNum m e => number_to_string m e
  | JStr s => s
  | JArr items =>
      join "," (List.map (fun x =>
                  match x with
                  | JUndefined | JNull => ""
                  | _ => ToString x
                  end) items)
  | JObj _ => "[object Object]"
  end.

Fixpoint assoc (k : string) (fields : list (string * jsval)) : option jsval :=
  match fields with
  | [] => None
  | (k', v) :: rest => if String.eqb k k' then Some v else assoc k rest
  end.

(** Whether the conversion of [v] to a string returns. An object is
    converted by its [toString]: that of [Object.prototype] unless the
    object has a property of that name, and such a property of a value
    read from JSON is no function, so that the conversion throws a
    TypeError (an own [valueOf] is no function either, and the inherited
    one gives back the object). An array is converted by joining the
    conversions of its items. *)
Fixpoint convertible (v : jsval) : bool :=
  match v with
  | JArr items => forallb convertible items
  | JObj fields =>
      match assoc "toString" fields with
      | Some _ => false
      | None => true
      end
  | _ => true
  end.

(** ToString with its throw. *)
Definition convert (v : jsval) : completion string :=
  if convertible v then Return (ToString v) else Throw TypeError.

(** A number that the browser's double holds, prints and tests as the
    model does: zero, or a decimal of at most 15 significant digits whose
    size is between 1e-300 and 1e300. *)
Definition double_exact (m e : Z) : bool :=
  (m =? 0)%Z
  || (let '(ds, n) := num_digits m e in
      (String.length ds <=? 15)%nat && (-300 <? n)%Z && (n <=? 300)%Z).

(** A value whose conversion returns the string [ToString] gives: its
    numbers are [double_exact] and its conversion does not throw. *)
Fixpoint printable (v : jsval) : bool :=
  match v with
  | JNum m e => double_exact m e
  | JArr items => forallb printable items
  | JObj fields =>
      match assoc "toString" fields with
      | Some _ => false
      | None => true
      end
  | _ => true
  end.

(** Reading the property [k] of a value that is not [null] or
    [undefined]: [JUndefined] when it has none. Of the values of this
    model only objects carry the properties the program reads
    ([access_token], [user_id], [role], [detail]). *)
Definition get_field (v : jsval) (k : string) : jsval :=
  match v with
  | JObj fields => default JUndefined (assoc k fields)
  | _ => JUndefined
  end.

(** [v.k]: a TypeError on [null] and [undefined]. *)
Definition get_prop (v : jsval) (k : string) : completion jsval :=
  match v with
  | JUndefined | JNull => Throw TypeError
  | _ => Return (get_field v k)
  end.

(** [v?.k]. *)
Definition get_prop_opt (v : jsval) (k : string) : jsval :=
  match v with
  | JUndefined | JNull => JUndefined
  | _ => get_field v k
  end.

(** SameValueZero, the comparison of [Array.prototype.includes]. Arrays and
    objects are compared by reference, and a value that [JSON.parse] has
    just built is a new reference: it is none of the caller's. *)
Definition same_value_zero (a b : jsval) : bool :=
  match a, b with
  | JUndefined, JUndefined => true
  | JNull, JNull => true
  | JBool x, JBool y => Bool.eqb x y
  | JNum m1 e1, JNum m2 e2 =>
      ((m1 =? 0)%Z && (m2 =? 0)%Z)
      || (Bool.eqb (m1 <? 0)%Z (m2 <? 0)%Z
          && bool_decide (num_digits m1 e1 = num_digits m2 e2))
  | JStr x, JStr y => String.eqb x y
  | _, _ => false
  end.

Definition includes (l : list jsval) (x : jsval) : bool :=
  existsb (fun y => same_value_zero y x) l.

End JS.

(** ** JSON.stringify and JSON.parse *)

Module JSON.
Import JS.

Definition hex_digit (n : N) : ascii :=
  if (n <? 10)%N then ascii_of_N (48 + n) else ascii_of_N (87 + n).

(** QuoteJSONString, one character at a time. *)
Definition escape_char (c : ascii) : string :=
  let n := N_of_ascii c in
  if (n =? 34)%N then String backslash q
  else if (n =? 92)%N then String backslash (String backslash "")
  else if (n =? 8)%N then String backslash "b"
  else if (n =? 12)%N then String backslash "f"
  else if (n =? 10)%N then String backslash "n"
  else if (n =? 13)%N then String backslash "r"
  else if (n =? 9)%N then String backslash "t"
  else if (n <? 32)%N then
    String backslash
      ("u00" +:+ String (hex_digit (n / 16)) (String (hex_digit (n mod 16)) ""))
  else String c "".

Fixpoint escape (s : string) : string :=
  match s with
  | "" => ""
  | String c s' => escape_char c +:+ escape s'
  end.

Definition quote (s : string) : string := q +:+ escape s +:+ q.

(** SerializeJSONProperty: [None] is JavaScript's [undefined]. A property
    whose value is [undefined] is left out of an object, and an element
    that is [undefined] is written [null] in an array. *)
Fixpoint stringify (v : jsval) : option string :=
  match v with
  | JUndefined => None
  | JNull => Some "null"
  | JBool true => Some "true"
  | JBool false => Some "false"
  | JNum m e => Some (number_to_string m e)
  | JStr s => Some (quote s)
  | JArr items =>
      Some ("[" +:+ join "," (List.map (fun x => default "null" (stringify x)) items)
                +:+ "]")
  | JObj fields =>
      Some ("{" +:+ join ","
              (omap (fun kv => match stringify (snd kv) with
                               | Some t => Some (quote (fst kv) +:+ ":" +:+ t)
                               | None => None
                               end) fields)
                +:+ "}")
  end.

(** The result of reading a value off the front of a text. [Exhausted] is
    the model's own: the recursion ran out of fuel (see [fuel_for]). *)
Inductive parsed (A : Type) : Type :=
| Parsed (a : A) (rest : string)
| Malformed
| Exhausted.
Arguments Parsed {A} a rest.
Arguments Malformed {A}.
Arguments Exhausted {A}.

Definition is_ws (c : ascii) : bool :=
  let n := N_of_ascii c in
  ((n =? 32) || (n =? 9) || (n =? 10) || (n =? 13))%N.

Fixpoint skip_ws (s : string) : string :=
  match s with
  | String c s' => if is_ws c then skip_ws s' else s
  | "" => ""
  end.

Definition hex_val (c : ascii) : option N :=
  let n := N_of_ascii c in
  if ((48 <=? n) && (n <=? 57))%N then Some (n - 48)%N
  else if ((97 <=? n) && (n <=? 102))%N then Some (n - 87)%N
  else if ((65 <=? n) && (n <=? 70))%N then Some (n - 55)%N
  else None.

Definition hex4 (a b c d : ascii) : option N :=
  match hex_val a, hex_val b, hex_val c, hex_val d with
  | Some x, Some y, Some z, Some w => Some (((x * 16 + y) * 16 + z) * 16 + w)%N
  | _, _, _, _ => None
  end.

(** The bytes of the code unit [n] of a [\uXXXX] escape (a surrogate
    that has no partner is kept as the three bytes of its own code
    unit). *)
Definition utf8_unit (n : N) : string :=
  if (n <? 128)%N then String (ascii_of_N n) ""
  else if (n <? 2048)%N then
    String (ascii_of_N (192 + n / 64)) (String (ascii_of_N (128 + n mod 64)) "")
  else
    String (ascii_of_N (224 + n / 4096))
      (String (ascii_of_N (128 + (n / 64) mod 64))
         (String (ascii_of_N (128 + n mod 64)) "")).

(** The two halves of a character beyond U+FFFF, and the four bytes of
    the character that the escapes of a high and a low surrogate written
    one after the other stand for. *)
Definition high_surrogate (n : N) : bool := ((55296 <=? n) && (n <=? 56319))%N.
Definition low_surrogate (n : N) : bool := ((56320 <=? n) && (n <=? 57343))%N.

Definition utf8_pair (hi lo : N) : string :=
  let n := (65536 + (hi - 55296) * 1024 + (lo - 56320))%N in
  String (ascii_of_N (240 + n / 262144))
    (String (ascii_of_N (128 + (n / 4096) mod 64))
       (String (ascii_of_N (128 + (n / 64) mod 64))
          (String (ascii_of_N (128 + n mod 64)) ""))).

Definition push (p : string) (r : option (string * string)) : option (string * string) :=
  match r with
  | Some (t, rest) => Some (p +:+ t, rest)
  | None => None
  end.

(** The character that a one-letter escape stands for. *)
Definition unescape (e : ascii) : option string :=
  if Ascii.eqb e dquote then Some q
  else if Ascii.eqb e backslash then Some (String backslash "")
  else
    match e with
    | "/"%char => Some "/"
    | "b"%char => Some (String "008" "")
    | "f"%char => Some (String "012" "")
    | "n"%char => Some (String "010" "")
    | "r"%char => Some (String "013" "")
    | "t"%char => Some (String "009" "")
    | _ => None
    end.

(** The characters of a string literal after its opening quote, up to the
    closing one: [(the string, the text after it)]. *)
Fixpoint parse_chars (s : string) : option (string * string) :=
  match s with
  | "" => None
  | String c s' =>
      if Ascii.eqb c dquote then Some ("", s')
      else if Ascii.eqb c backslash then
        match s' with
        | "" => None
        | String e s'' =>
            if Ascii.eqb e "u" then
              match s'' with
              | String h1 (String h2 (String h3 (String h4 r))) =>
                  match hex4 h1 h2 h3 h4 with
                  | Some n =>
                      let alone := push (utf8_unit n) (parse_chars r) in
                      if high_surrogate n then
                        match r with
                        | String b (String u (String l1 (String l2
                            (String l3 (String l4 r'))))) =>
                            if Ascii.eqb b backslash && Ascii.eqb u "u" then
                              match hex4 l1 l2 l3 l4 with
                              | Some lo =>
                                  if low_surrogate lo
                                  then push (utf8_pair n lo) (parse_chars r')
                                  else alone
                              | None => alone
                              end
                            else alone
                        | _ => alone
                        end
                      else alone
                  | None => None
                  end
              | _ => None
              end
            else
              match unescape e with
              | Some p => push p (parse_chars s'')
              | None => None
              end
        end
      else if (N_of_ascii c <? 32)%N then None
      else push (String c "") (parse_chars s')
  end.

Fixpoint take_digits (s : string) : string * string :=
  match s with
  | String c s' =>
      match digit_val c with
      | Some _ => let '(d, r) := take_digits s' in (String c d, r)
      | None => ("", s)
      end
  | "" => ("", "")
  end.

Fixpoint N_of_digits_from (acc : N) (s : string) : N :=
  match s with
  | "" => acc
  | String c s' => N_of_digits_from (10 * acc + default 0%N (digit_val c)) s'
  end.

Definition N_of_digits (s : string) : N := N_of_digits_from 0 s.

(** The number [m * 10^e] in the form the model keeps: no trailing zero in
    the mantissa, and zero as [JNum 0 0]. *)
Definition mk_num (m e : Z) : jsval :=
  if (m =? 0)%Z then JNum 0 0 else
  let '(ds, n) := num_digits m e in
  let a := Z.of_N (N_of_digits ds) in
  JNum (if (m <? 0)%Z then - a else a) (n - Z.of_nat (String.length ds)).

Definition parse_sign (s : string) : bool * string :=
  match s with
  | String "-"%char r => (true, r)
  | _ => (false, s)
  end.

Definition parse_frac (s : string) : option (string * string) :=
  match s with
  | String "."%char r =>
      match take_digits r with
      | ("", _) => None
      | (fp, rest) => Some (fp, rest)
      end
  | _ => Some ("", s)
  end.

Definition parse_exp (s : string) : option (Z * string) :=
  match s with
  | String c r =>
      if Ascii.eqb c "e" || Ascii.eqb c "E" then
        let '(neg, r1) :=
          match r with
          | String "-"%char r' => (true, r')
          | String "+"%char r' => (false, r')
          | _ => (false, r)
          end in
        match take_digits r1 with
        | ("", _) => None
        | (ep, rest) =>
            let x := Z.of_N (N_of_digits ep) in
            Some (if neg then (- x)%Z else x, rest)
        end
      else Some (0%Z, s)
  | "" => Some (0%Z, s)
  end.

(** number = [ minus ] int [ frac ] [ exp ] *)
Definition parse_number (s : string) : option (jsval * string) :=
  let '(neg, s1) := parse_sign s in
  match take_digits s1 with
  | ("", _) => None
  | (String "0"%char (String _ _), _) => None
  | (ip, s2) =>
      match parse_frac s2 with
      | None => None
      | Some (fp, s3) =>
          match parse_exp s3 with
          | None => None
          | Some (ex, rest) =>
              let m := Z.of_N (N_of_digits (ip +:+ fp)) in
              Some (mk_num (if neg then (- m)%Z else m)
                           (ex - Z.of_nat (String.length fp)), rest)
          end
      end
  end.

Fixpoint strip_prefix (p s : string) : option string :=
  match p, s with
  | "", _ => Some s
  | String a p', String b s' => if Ascii.eqb a b then strip_prefix p' s' else None
  | String _ _, "" => None
  end.

Definition parse_literal (word : string) (v : jsval) (s : string) : parsed jsval :=
  match strip_prefix word s with
  | Some rest => Parsed v rest
  | None => Malformed
  end.

(** CreateDataProperty on the object being built: a key read twice keeps
    its place and takes the later value. *)
Fixpoint obj_set (k : string) (v : jsval) (fields : list (string * jsval))
  : list (string * jsval) :=
  match fields with
  | [] => [(k, v)]
  | (k', v') :: rest =>
      if String.eqb k k' then (k', v) :: rest else (k', v') :: obj_set k v rest
  end.

Definition of_option {A} (o : option (A * string)) : parsed A :=
  match o with
  | Some (a, rest) => Parsed a rest
  | None => Malformed
  end.

(** The text after the character [c], white space before it skipped. *)
Definition expect (c : ascii) (s : string) : option string :=
  match skip_ws s with
  | String c' r => if Ascii.eqb c' c then Some r else None
  | "" => None
  end.

(** value, elements (after an opening bracket or a comma) and members
    (after an opening brace or a comma). *)
Fixpoint parse_value (fuel : nat) (s : string) : parsed jsval :=
  match fuel with
  | O => Exhausted
  | S f =>
      match skip_ws s with
      | "" => Malformed
      | String c r =>
          if Ascii.eqb c "{" then
            match expect "}" r with
            | Some r' => Parsed (JObj []) r'
            | None => parse_members f [] r
            end
          else if Ascii.eqb c "[" then
            match expect "]" r with
            | Some r' => Parsed (JArr []) r'
            | None => parse_elements f [] r
            end
          else if Ascii.eqb c dquote then
            match parse_chars r with
            | Some (t, rest) => Parsed (JStr t) rest
            | None => Malformed
            end
          else if Ascii.eqb c "n" then parse_literal "null" JNull (String c r)
          else if Ascii.eqb c "t" then parse_literal "true" (JBool true) (String c r)
          else if Ascii.eqb c "f" then parse_literal "false" (JBool false) (String c r)
          else of_option (parse_number (String c r))
      end
  end
with parse_elements (fuel : nat) (acc : list jsval) (s : string) : parsed jsval :=
  match fuel with
  | O => Exhausted
  | S f =>
      match parse_value f s with
      | Parsed v r =>
          match expect "," r with
          | Some r' => parse_elements f (acc ++ [v]) r'
          | None =>
              match expect "]" r with
              | Some r' => Parsed (JArr (acc ++ [v])) r'
              | None => Malformed
              end
          end
      | Malformed => Malformed
      | Exhausted => Exhausted
      end
  end
with parse_members (fuel : nat) (acc : list (string * jsval)) (s : string)
  : parsed jsval :=
  match fuel with
  | O => Exhausted
  | S f =>
      match expect dquote s with
      | Some r =>
          match parse_chars r with
          | Some (k, r1) =>
              match expect ":" r1 with
              | Some r2 =>
                  match parse_value f r2 with
                  | Parsed v r3 =>
                      match expect "," r3 with
                      | Some r4 => parse_members f (obj_set k v acc) r4
                      | None =>
                          match expect "}" r3 with
                          | Some r4 => Parsed (JObj (obj_set k v acc)) r4
                          | None => Malformed
                          end
                      end
                  | Malformed => Malformed
                  | Exhausted => Exhausted
                  end
              | None => Malformed
              end
          | None => Malformed
          end
      | None => Malformed
      end
  end.

(** Fuel that no text uses up: a call on the way down reads a character
    at least every second step. *)
Definition fuel_for (s : string) : nat := 2 * String.length s + 2.

(** ParseJSONText: one value with white space around it. *)
Definition parse (s : string) : option jsval :=
  match parse_value (fuel_for s) s with
  | Parsed v rest =>
      match skip_ws rest with
      | "" => Some v
      | _ => None
      end
  | _ => None
  end.

(** [JSON.parse(text)] and [JSON.stringify(value)] as the program calls
    them. *)
Definition JSON_parse (text : jsval) : completion jsval :=
  match parse (ToString text) with
  | Some v => Return v
  | None => Throw SyntaxError
  end.

Definition JSON_stringify (v : jsval) : jsval :=
  match stringify v with
  | Some s => JStr s
  | None => JUndefined
  end.

End JSON.

(** ** The browser: localStorage, fetch, window.location, console *)

Module Browser.
Import JS JSON.

(** What [fetch(url, init)] is called with. *)
Record Request : Type := {
  url : string;
  method : option string;
  body : option string;
  headers : gmap string string
}.

Record Response : Type := {
  status : Z;
  body_text : string
}.

(** [response.ok] *)
Definition ok (r : Response) : bool :=
  ((200 <=? status r) && (status r <=? 299))%Z.

Inductive FetchOutcome : Type :=
| Responds (r : Response)
| Rejects (e : exn).

Inductive event : Type :=
| Navigate (href : string)                 (* window.location.href = href *)
| ConsoleError (label : string) (e : exn)  (* console.error(label, e) *)
| Fetch (req : Request)                    (* fetch(url, init) *)
| ReadBody                                 (* response.json() *).

Record World : Type := {
  localStorage : gmap string string;
  trace : list event
}.

Definition getItem (st : gmap string string) (k : string) : jsval :=
  match st !! k with
  | Some s => JStr s
  | None => JNull
  end.

(** The storage after [localStorage.setItem(k, v)] has returned. *)
Definition setItem (k : string) (v : jsval) (st : gmap string string)
  : gmap string string :=
  <[k := ToString v]> st.

Definition removeItem (k : string) (st : gmap string string)
  : gmap string string :=
  delete k st.

(** [{...target, ...src}] on objects with string values: the properties
    of [src] replace those of [target]. *)
Definition spread (target src : gmap string string) : gmap string string :=
  src ∪ target.

(** Code that reads and changes the world and may throw. *)
Definition M (A : Type) : Type := World -> completion A * World.

#[global] Instance M_ret : MRet M := fun A a w => (Return a, w).
#[global] Instance M_bind : MBind M := fun A B f m w =>
  match m w with
  | (Return a, w') => f a w'
  | (Throw e, w') => (Throw e, w')
  end.

Definition throw {A} (e : exn) : M A := fun w => (Throw e, w).

Definition lift {A} (c : completion A) : M A := fun w => (c, w).

(** [try { m } catch (error) { handler error }] *)
Definition try_catch {A} (m : M A) (handler : exn -> M A) : M A := fun w =>
  match m w with
  | (Throw e, w') => handler e w'
  | r => r
  end.

Definition storage_read {A} (f : gmap string string -> A) : M A :=
  fun w => (Return (f (localStorage w)), w).

(** A read of the storage that may throw. *)
Definition storage_call {A} (f : gmap string string -> completion A) : M A :=
  fun w => (f (localStorage w), w).

Definition storage_write (f : gmap string string -> gmap string string) : M unit :=
  fun w => (Return tt, {| localStorage := f (localStorage w); trace := trace w |}).

Definition emit (ev : event) : M unit :=
  fun w => (Return tt, {| localStorage := localStorage w; trace := trace w ++ [ev] |}).

Definition navigate (href : string) : M unit := emit (Navigate href).

Definition console_error (label : string) (e : exn) : M unit :=
  emit (ConsoleError label e).

(** [await fetch(url, init)] against the oracle [net]. *)
Definition fetch (net : Request -> FetchOutcome) (req : Request) : M Response :=
  emit (Fetch req);;
  match net req with
  | Responds r => mret r
  | Rejects e => throw e
  end.

(** [await response.json()] *)
Definition json (r : Response) : M jsval :=
  emit ReadBody;; lift (JSON_parse (JStr (body_text r))).

(** [new Error(v)] for a [v] that is not [undefined]: the error, or the
    TypeError of the conversion of [v] to its message. *)
Definition new_Error (v : jsval) : completion exn :=
  match convert v with
  | Return message => Return (Error message)
  | Throw e => Throw e
  end.

End Browser.

(** ** api.js *)

Import JS JSON Browser.

Definition API_BASE_URL : string := "http://localhost:8000".

Module TokenManager.

Definition getToken (st : gmap string string) : jsval :=
  getItem st "bossup_token".

(** The storage after [setToken(token)] has returned. *)
Definition setToken (token : jsval) (st : gmap string string)
  : gmap string string :=
  setItem "bossup_token" token st.

(** The call [TokenManager.setToken(token)]: [localStorage.setItem]
    converts the token to a string first and throws when that throws. *)
Definition setToken_call (token : jsval) : M unit :=
  if convertible token then storage_write (setToken token) else throw TypeError.

Definition removeToken (st : gmap string string) : gmap string string :=
  removeItem "bossup_token" st.

Definition getUserData (st : gmap string string) : completion jsval :=
  let data := getItem st "bossup_user" in
  if truthy data then JSON_parse data else Return JNull.

Definition setUserData (data : jsval) (st : gmap string string)
  : gmap string string :=
  setItem "bossup_user" (JSON_stringify data) st.

Definition clearAll (st : gmap string string) : gmap string string :=
  removeItem "bossup_user" (removeItem "bossup_token" st).

Definition isAuthenticated (st : gmap string string) : bool :=
  negb (negb (truthy (getToken st))).

End TokenManager.

(** The [options] argument of [API.request]; [None] is a property the
    caller did not give. *)
Record Options : Type := {
  opt_method : option string;
  opt_body : option string;
  opt_headers : option (gmap string string)
}.

Definition no_options : Options :=
  {| opt_method := None; opt_body := None; opt_headers := None |}.

Module API.

Section WithNetwork.

Variable net : Request -> FetchOutcome.

Definition request (endpoint : string) (options : Options) : M jsval :=
  let url := API_BASE_URL +:+ endpoint in
  token ← storage_read TokenManager.getToken;
  let headers :=
    spread {[ "Content-Type" := "application/json" ]}
           (default ∅ (opt_headers options)) in
  let headers :=
    if truthy token
    then <["Authorization" := "Bearer " +:+ ToString token]> headers
    else headers in
  try_catch
    (response ← fetch net {| url := url;
                             method := opt_method options;
                             body := opt_body options;
                             headers := headers |};
     if (status response =? 401)%Z then
       storage_write TokenManager.clearAll;;
       navigate "/login.html";;
       mret JNull
     else
       data ← json response;
       if negb (ok response) then
         detail ← lift (get_prop data "detail");
         error ← lift (new_Error (if truthy detail then detail
                                  else JStr "Request failed"));
         throw error
       else mret data)
    (fun error => console_error "API Error:" error;; throw error).

Definition signup (email password role country fullName : jsval) : M jsval :=
  let fullName := match fullName with JUndefined => JNull | _ => fullName end in
  response ← request "/auth/signup"
    {| opt_method := Some "POST";
       opt_body := stringify (JObj [("email", email); ("password", password);
                                    ("role", role); ("country", country);
                                    ("full_name", fullName)]);
       opt_headers := None |};
  (if truthy response then
     access_token ← lift (get_prop response "access_token");
     TokenManager.setToken_call access_token;;
     user_id ← lift (get_prop response "user_id");
     role ← lift (get_prop response "role");
     storage_write
       (TokenManager.setUserData (JObj [("user_id", user_id); ("role", role)]))
   else mret tt);;
  mret response.

Definition login (email password : jsval) : M jsval :=
  response ← request "/auth/login"
    {| opt_method := Some "POST";
       opt_body := stringify (JObj [("email", email); ("password", password)]);
       opt_headers := None |};
  (if truthy response then
     access_token ← lift (get_prop response "access_token");
     TokenManager.setToken_call access_token;;
     user_id ← lift (get_prop response "user_id");
     role ← lift (get_prop response "role");
     storage_write
       (TokenManager.setUserData (JObj [("user_id", user_id); ("role", role)]))
   else mret tt);;
  mret response.

Definition getCurrentUser : M jsval := request "/auth/me" no_options.

End WithNetwork.

Definition logout : M unit :=
  storage_write TokenManager.clearAll;;
  navigate "/login.html".

End API.

Definition dashboard_of (role : jsval) : string :=
  match role with
  | JStr r =>
      if String.eqb r "INVESTOR" then "/investor-dashboard.html"
      else if String.eqb r "BUSINESS_OWNER" then "/business-dashboard.html"
      else if String.eqb r "ADMIN" then "/admin.html"
      else "/index.html"
  | _ => "/index.html"
  end.

Definition redirectToDashboard (role : jsval) : M unit :=
  navigate (dashboard_of role).

(** [allowedRoles] is an array of roles, or [None] for the default
    [null]. *)
Definition requireAuth (allowedRoles : option (list jsval)) : M bool :=
  authenticated ← storage_read TokenManager.isAuthenticated;
  if negb authenticated then
    navigate "/login.html";;
    mret false
  else
    userData ← storage_call TokenManager.getUserData;
    match allowedRoles with
    | Some roles =>
        if negb (includes roles (get_prop_opt userData "role")) then
          redirectToDashboard (get_prop_opt userData "role");;
          mret false
        else mret true
    | None => mret true
    end.

(** ** Vocabulary of the statements *)

(** The operations of the session store that change it. *)
Inductive store_op : Type :=
| OpSetToken (token : jsval)
| OpSetUserData (data : jsval)
| OpRemoveToken
| OpClearAll.

(** The store after the call [op], whether it returned or threw:
    [setToken] with a token that has no string form throws and leaves the
    store as it was, and no other call throws. *)
Definition run_op (op : store_op) (st : gmap string string) : gmap string string :=
  match op with
  | OpSetToken token => if convertible token then TokenManager.setToken token st else st
  | OpSetUserData data => TokenManager.setUserData data st
  | OpRemoveToken => TokenManager.removeToken st
  | OpClearAll => TokenManager.clearAll st
  end.

Definition run_ops (ops : list store_op) (st : gmap string string)
  : gmap string string :=
  fold_left (fun s op => run_op op s) ops st.


(** The requests and the page navigations recorded in a trace. *)
Definition requests_sent (tr : list event) : list Request :=
  omap (fun ev => match ev with Fetch req => Some req | _ => None end) tr.

Definition navigations (tr : list event) : list string :=
  omap (fun ev => match ev with Navigate href => Some href | _ => None end) tr.

(** The identity [signup] and [login] keep: [{user_id: U, role: R}]. *)
Definition identity (U R : string) : jsval :=
  JObj [("user_id", JStr U); ("role", JStr R)].

Definition world (st : gmap string string) (tr : list event) : World :=
  {| localStorage := st; trace := tr |}.

(** A server that answers every request with the same response. *)
Definition answers (r : Response) : Request -> FetchOutcome :=
  fun _ => Responds r.

(** The text of a JSON object with the members given, in that order. *)
Definition object_text (members : list (string * string)) : string :=
  "{" +:+ join "," (List.map (fun kv => quote (fst kv) +:+ ":" +:+ snd kv) members)
      +:+ "}".

(** Values built from [null], booleans, strings, arrays and objects
    whose keys differ: what [JSON.stringify] writes of them, [JSON.parse]
    reads back. *)
Fixpoint distinct (ks : list string) : bool :=
  match ks with
  | [] => true
  | k :: rest => negb (existsb (String.eqb k) rest) && distinct rest
  end.

Fixpoint plain (v : jsval) : bool :=
  match v with
  | JUndefined | JNum _ _ => false
  | JNull | JBool _ | JStr _ => true
  | JArr items => forallb plain items
  | JObj fields =>
      forallb (fun kv => plain (snd kv)) fields && distinct (List.map fst fields)
  end.

(** Fuel that reads the text of [v]. *)
Fixpoint weight (v : jsval) : nat :=
  match v with
  | JArr items => S (list_sum (List.map (fun x => S (weight x)) items))
  | JObj fields => S (list_sum (List.map (fun kv => S (weight (snd kv))) fields))
  | _ => 1
  end.

(** The text [JSON.stringify] writes for [v]. *)
Definition json_text (v : jsval) : string := default "null" (stringify v).

Definition member_text (kv : string * jsval) : string :=
  quote (fst kv) +:+ ":" +:+ json_text (snd kv).

(** A text that opens a value other than a number. *)
Definition opens_value (t : string) : Prop :=
  exists c t', t = String c t'
    /\ (c = "n" \/ c = "t" \/ c = "f" \/ c = dquote \/ c = "[" \/ c = "{")%char.

(** What the round trip says of one value. *)
Definition reads_back (v : jsval) : Prop :=
  forall f rest, weight v <= f -> parse_value f (json_text v +:+ rest) = Parsed v rest.

(** A result that did not run out of fuel and, when it read a value, left
    less text than it was given. *)
Definition within {A} (s : string) (p : parsed A) : Prop :=
  p <> Exhausted /\ forall v r, p = Parsed v r -> String.length r < String.length s.

(** The request [API.request] hands to [fetch]. *)
Definition outgoing (endpoint : string) (options : Options)
  (st : gmap string string) : Request :=
  let token := TokenManager.getToken st in
  let headers :=
    spread {[ "Content-Type" := "application/json" ]}
           (default ∅ (opt_headers options)) in
  {| url := API_BASE_URL +:+ endpoint;
     method := opt_method options;
     body := opt_body options;
     headers := if truthy token
                then <["Authorization" := "Bearer " +:+ ToString token]> headers
                else headers |}.

(** What [API.request] throws for the body [data] of an answer that is
    no success. *)
Definition failure (data : jsval) : exn :=
  match get_prop data "detail" with
  | Throw e => e
  | Return detail =>
      if truthy detail then
        if convertible detail then Error (ToString detail) else TypeError
      else Error "Request failed"
  end.

(** What [API.request] does once the response is there. *)
Definition settle (r : Response) (st : gmap string string) (tr : list event)
  : completion jsval * World :=
  if (status r =? 401)%Z then
    (Return JNull, world (TokenManager.clearAll st) (tr ++ [Navigate "/login.html"]))
  else
    match parse (body_text r) with
    | None =>
        (Throw SyntaxError,
         world st (tr ++ [ReadBody; ConsoleError "API Error:" SyntaxError]))
    | Some data =>
        if ok r then (Return data, world st (tr ++ [ReadBody]))
        else
          (Throw (failure data),
           world st (tr ++ [ReadBody; ConsoleError "API Error:" (failure data)]))
    end.

(** ** Inputs of the examples *)

(** A store after a login, and the same token beside an identity that
    [setUserData(undefined)] wrote. *)
Definition session_store : gmap string string :=
  run_ops [OpSetToken (JStr "tok-1"); OpSetUserData (identity "u1" "INVESTOR")] ∅.


(** Responses: a 401, an empty 200, a 404 with a message, a 400 whose
    [detail] is the empty string and a 422 whose [detail] is a list of
    validation errors. *)
Definition expired : Response := {| status := 401; body_text := "Unauthorized" |}.

Definition ok_empty : Response := {| status := 200; body_text := "{}" |}.

Definition not_found : Response :=
  {| status := 404;
     body_text := object_text [("detail", quote "Campaign not found")] |}.

Definition empty_detail : Response :=
  {| status := 400; body_text := object_text [("detail", quote "")] |}.

Definition validation_errors : Response :=
  {| status := 422;
     body_text :=
       object_text
         [("detail", "[" +:+ object_text [("msg", quote "field required")] +:+ "]")] |}.

(** What the server answers to a login or a signup that succeeds. *)
Definition login_response (T U R : string) : jsval :=
  JObj [("access_token", JStr T); ("user_id", JStr U); ("role", JStr R)].

Definition login_ok (T U R : string) : Response :=
  {| status := 200; body_text := json_text (login_response T U R) |}.

(** A caller that sends plain text. *)
Definition plain_text_options : Options :=
  {| opt_method := Some "POST";
     opt_body := Some "hello";
     opt_headers := Some {[ "Content-Type" := "text/plain" ]} |}.

(** ** URLSearchParams *)

Module URLSearchParams.

(** The bytes the application/x-www-form-urlencoded serializer leaves as
    they are: ASCII letters and digits, [*], [-], [.] and [_]. *)
Definition unreserved (c : ascii) : bool :=
  let n := N_of_ascii c in
  (((48 <=? n) && (n <=? 57)) || ((65 <=? n) && (n <=? 90))
   || ((97 <=? n) && (n <=? 122))
   || (n =? 42) || (n =? 45) || (n =? 46) || (n =? 95))%N.

Definition upper_hex (n : N) : ascii :=
  if (n <? 10)%N then ascii_of_N (48 + n) else ascii_of_N (55 + n).

Definition encode_byte (c : ascii) : string :=
  let n := N_of_ascii c in
  if unreserved c then String c ""
  else if (n =? 32)%N then "+"
  else String "%" (String (upper_hex (n / 16)) (String (upper_hex (n mod 16)) "")).

Fixpoint encode (s : string) : string :=
  match s with
  | "" => ""
  | String c s' => encode_byte c +:+ encode s'
  end.

(** [params.append(name, value)] and [params.toString()]; the list is the
    list of pairs of the object. [append] converts the value to a string
    and throws when that throws. *)
Definition append (name : string) (value : jsval) (params : list (string * string))
  : completion (list (string * string)) :=
  match convert value with
  | Return text => Return (params ++ [(name, text)])
  | Throw e => Throw e
  end.

Definition toString (params : list (string * string)) : string :=
  join "&" (List.map (fun kv => encode (fst kv) +:+ "=" +:+ encode (snd kv)) params).

(** Reading a query back: [new URLSearchParams(text)]. *)
Fixpoint plus_to_space (s : string) : string :=
  match s with
  | "" => ""
  | String c s' =>
      String (if Ascii.eqb c "+" then " "%char else c) (plus_to_space s')
  end.

Fixpoint percent_decode (s : string) : string :=
  match s with
  | "" => ""
  | String c r =>
      if Ascii.eqb c "%" then
        match r with
        | String h1 (String h2 r') =>
            match hex_val h1, hex_val h2 with
            | Some a, Some b =>
                String (ascii_of_N (16 * a + b)) (percent_decode r')
            | _, _ => String c (percent_decode r)
            end
        | _ => String c (percent_decode r)
        end
      else String c (percent_decode r)
  end.

Definition decode (s : string) : string := percent_decode (plus_to_space s).

(** The pieces of [s] between occurrences of [c]. *)
Fixpoint split_on (c : ascii) (s : string) : list string :=
  match s with
  | "" => [""]
  | String x r =>
      if Ascii.eqb x c then "" :: split_on c r
      else
        match split_on c r with
        | h :: t => String x h :: t
        | [] => [String x ""]
        end
  end.

(** [s] cut at its first [c]: the part before, and the part after when
    there is a [c]. *)
Fixpoint cut_at (c : ascii) (s : string) : string * option string :=
  match s with
  | "" => ("", None)
  | String x r =>
      if Ascii.eqb x c then ("", Some r)
      else let '(a, b) := cut_at c r in (String x a, b)
  end.

Definition parse_pair (piece : string) : string * string :=
  let '(name, value) := cut_at "=" piece in
  (decode name, decode (default "" value)).

Definition parse (text : string) : list (string * string) :=
  let text := match text with String "?"%char r => r | _ => text end in
  List.map parse_pair
    (List.filter (fun piece => negb (String.eqb piece "")) (split_on "&" text)).

(** [params.get(name)] *)
Fixpoint get (name : string) (params : list (string * string)) : jsval :=
  match params with
  | [] => JNull
  | (k, v) :: rest => if String.eqb k name then JStr v else get name rest
  end.

End URLSearchParams.

(** ** api.js: the operations of the API object *)

Module Endpoints.

Section WithNetwork.

Variable net : Request -> FetchOutcome.

(** A parameter that defaults to [dflt] when the caller leaves it out. *)
Definition or_default (dflt v : jsval) : jsval :=
  match v with
  | JUndefined => dflt
  | _ => v
  end.

(** [if (filters.name) params.append(name, filters.name)] *)
Definition append_filter (name : string) (filters : jsval)
    (params : list (string * string)) : M (list (string * string)) :=
  value ← lift (get_prop filters name);
  if truthy value then lift (URLSearchParams.append name value params)
  else mret params.

(** [`${path}${query ? '?' + query : ''}`] *)
Definition with_query (path query : string) : string :=
  path +:+ (if truthy (JStr query) then "?" +:+ query else "").

Definition getCampaigns (filters : jsval) : M jsval :=
  let filters := or_default (JObj []) filters in
  params ← append_filter "status" filters [];
  params ← append_filter "country" filters params;
  params ← append_filter "limit" filters params;
  let query := URLSearchParams.toString params in
  API.request net (with_query "/campaigns" query) no_options.

(** The template literals convert what they hold to a string before
    [request] is called, and throw when that throws. *)
Definition getCampaign (campaignId : jsval) : M jsval :=
  id ← lift (convert campaignId);
  API.request net ("/campaigns/" +:+ id) no_options.

Definition getMyCampaigns : M jsval :=
  API.request net "/campaigns/my" no_options.

Definition createCampaign (data : jsval) : M jsval :=
  API.request net "/campaigns"
    {| opt_method := Some "POST"; opt_body := stringify data; opt_headers := None |}.

Definition updateCampaign (campaignId data : jsval) : M jsval :=
  id ← lift (convert campaignId);
  API.request net ("/campaigns/" +:+ id)
    {| opt_method := Some "PUT"; opt_body := stringify data; opt_headers := None |}.

Definition initiatePayment (campaignId amount currency : jsval) : M jsval :=
  let currency := or_default (JStr "USD") currency in
  API.request net "/payments/initiate"
    {| opt_method := Some "POST";
       opt_body := stringify (JObj [("campaign_id", campaignId); ("amount", amount);
                                    ("currency", currency)]);
       opt_headers := None |}.

Definition getMyTransactions : M jsval :=
  API.request net "/payments/my" no_options.

Definition getTransaction (transactionId : jsval) : M jsval :=
  id ← lift (convert transactionId);
  API.request net ("/payments/" +:+ id) no_options.

Definition getAdminStats : M jsval :=
  API.request net "/admin/stats" no_options.

Definition getPendingCampaigns : M jsval :=
  API.request net "/admin/campaigns/pending" no_options.

Definition getAllCampaigns (status : jsval) : M jsval :=
  let status := or_default JNull status in
  params ← (if truthy status
            then text ← lift (convert status); mret ("?status=" +:+ text)
            else mret "");
  API.request net ("/admin/campaigns/all" +:+ params) no_options.

Definition approveCampaign (campaignId : jsval) : M jsval :=
  id ← lift (convert campaignId);
  API.request net ("/admin/campaigns/" +:+ id +:+ "/approve")
    {| opt_method := Some "POST"; opt_body := None; opt_headers := None |}.

Definition rejectCampaign (campaignId reason : jsval) : M jsval :=
  id ← lift (convert campaignId);
  API.request net ("/admin/campaigns/" +:+ id +:+ "/reject")
    {| opt_method := Some "POST";
       opt_body := stringify (JObj [("reason", reason)]);
       opt_headers := None |}.

Definition getUsers (filters : jsval) : M jsval :=
  let filters := or_default (JObj []) filters in
  params ← append_filter "role" filters [];
  params ← append_filter "kyc_status" filters params;
  let query := URLSearchParams.toString params in
  API.request net (with_query "/admin/users" query) no_options.

Definition updateUserKYC (userId status : jsval) : M jsval :=
  id ← lift (convert userId);
  API.request net ("/admin/users/" +:+ id +:+ "/kyc")
    {| opt_method := Some "POST";
       opt_body := stringify (JObj [("status", status)]);
       opt_headers := None |}.

Definition getAuditLogs (filters : jsval) : M jsval :=
  let filters := or_default (JObj []) filters in
  params ← append_filter "action" filters [];
  params ← append_filter "user_id" filters params;
  params ← append_filter "limit" filters params;
  let query := URLSearchParams.toString params in
  API.request net (with_query "/admin/audit-logs" query) no_options.

End WithNetwork.

End Endpoints.

(** Every call a page can make of the [API] object. *)
Inductive operation : Type :=
| Signup (email password role country fullName : jsval)
| Login (email password : jsval)
| GetCurrentUser
| GetCampaigns (filters : jsval)
| GetCampaign (campaignId : jsval)
| GetMyCampaigns
| CreateCampaign (data : jsval)
| UpdateCampaign (campaignId data : jsval)
| InitiatePayment (campaignId amount currency : jsval)
| GetMyTransactions
| GetTransaction (transactionId : jsval)
| GetAdminStats
| GetPendingCampaigns
| GetAllCampaigns (status : jsval)
| ApproveCampaign (campaignId : jsval)
| RejectCampaign (campaignId reason : jsval)
| GetUsers (filters : jsval)
| UpdateUserKYC (userId status : jsval)
| GetAuditLogs (filters : jsval).

Definition perform (net : Request -> FetchOutcome) (op : operation) : M jsval :=
  match op with
  | Signup email password role country fullName =>
      API.signup net email password role country fullName
  | Login email password => API.login net email password
  | GetCurrentUser => API.getCurrentUser net
  | GetCampaigns filters => Endpoints.getCampaigns net filters
  | GetCampaign campaignId => Endpoints.getCampaign net campaignId
  | GetMyCampaigns => Endpoints.getMyCampaigns net
  | CreateCampaign data => Endpoints.createCampaign net data
  | UpdateCampaign campaignId data => Endpoints.updateCampaign net campaignId data
  | InitiatePayment campaignId amount currency =>
      Endpoints.initiatePayment net campaignId amount currency
  | GetMyTransactions => Endpoints.getMyTransactions net
  | GetTransaction transactionId => Endpoints.getTransaction net transactionId
  | GetAdminStats => Endpoints.getAdminStats net
  | GetPendingCampaigns => Endpoints.getPendingCampaigns net
  | GetAllCampaigns status => Endpoints.getAllCampaigns net status
  | ApproveCampaign campaignId => Endpoints.approveCampaign net campaignId
  | RejectCampaign campaignId reason => Endpoints.rejectCampaign net campaignId reason
  | GetUsers filters => Endpoints.getUsers net filters
  | UpdateUserKYC userId status => Endpoints.updateUserKYC net userId status
  | GetAuditLogs filters => Endpoints.getAuditLogs net filters
  end.

(** Whether a value put in a path or a query makes the operation throw:
    its conversion to a string does. *)
Definition inconvertible (v : jsval) : bool := negb (convertible v).

(** Whether reading the filters named [names] throws: the filters are
    [null], or one that is truthy has no string form. *)
Definition filter_throws (names : list string) (filters : jsval) : bool :=
  match filters with
  | JNull => true
  | _ =>
      existsb (fun name =>
                 let value := get_field filters name in
                 truthy value && inconvertible value) names
  end.

(** The operations that throw a TypeError before they send anything: a
    listing whose filters throw, and an operation whose path or query
    holds a value that has no string form. *)
Definition throws_early (op : operation) : bool :=
  match op with
  | GetCampaigns filters => filter_throws ["status"; "country"; "limit"] filters
  | GetUsers filters => filter_throws ["role"; "kyc_status"] filters
  | GetAuditLogs filters => filter_throws ["action"; "user_id"; "limit"] filters
  | GetCampaign id | UpdateCampaign id _ | GetTransaction id
  | ApproveCampaign id | RejectCampaign id _ | UpdateUserKYC id _ =>
      inconvertible id
  | GetAllCampaigns status => truthy status && inconvertible status
  | _ => false
  end.

(** The filters an operation keeps when reading them does not throw:
    those of [names] whose value is truthy, as strings. *)
Definition kept_filters (names : list string) (filters : jsval)
  : list (string * string) :=
  omap (fun name =>
          let value := get_field filters name in
          if truthy value then Some (name, ToString value) else None) names.

(** The parameters a listing has appended when reading its filters has
    not thrown. *)
Fixpoint appended (names : list string) (filters : jsval)
    (params : list (string * string)) : list (string * string) :=
  match names with
  | [] => params
  | name :: rest =>
      let value := get_field filters name in
      appended rest filters
        (if truthy value then params ++ [(name, ToString value)] else params)
  end.


(** One name and its value as the serializer writes them. *)
Definition piece (kv : string * string) : string :=
  URLSearchParams.encode (fst kv) +:+ "=" +:+ URLSearchParams.encode (snd kv).

(** The operations that write the session: [signup] and [login]. *)
Definition persists (op : operation) : bool :=
  match op with
  | Signup _ _ _ _ _ | Login _ _ => true
  | _ => false
  end.


(** What [signup] and [login] do with the response of their request. *)
Definition keep (response : jsval) : M unit :=
  if truthy response then
    access_token ← lift (get_prop response "access_token");
    TokenManager.setToken_call access_token;;
    user_id ← lift (get_prop response "user_id");
    role ← lift (get_prop response "role");
    storage_write
      (TokenManager.setUserData (JObj [("user_id", user_id); ("role", role)]))
  else mret tt.

(** The operations that list with filters: the path, the names of the
    filters in the order the code reads them, and the filters given. *)
Definition listing (op : operation) : option (string * list string * jsval) :=
  match op with
  | GetCampaigns filters => Some ("/campaigns", ["status"; "country"; "limit"], filters)
  | GetUsers filters => Some ("/admin/users", ["role"; "kyc_status"], filters)
  | GetAuditLogs filters =>
      Some ("/admin/audit-logs", ["action"; "user_id"; "limit"], filters)
  | _ => None
  end.

(** The value an operation hands to [JSON.stringify] for the body of its
    request. *)
Definition payload (op : operation) : option jsval :=
  match op with
  | Signup email password role country fullName =>
      Some (JObj [("email", email); ("password", password); ("role", role);
                  ("country", country);
                  ("full_name", Endpoints.or_default JNull fullName)])
  | Login email password => Some (JObj [("email", email); ("password", password)])
  | CreateCampaign data => Some data
  | UpdateCampaign _ data => Some data
  | InitiatePayment campaignId amount currency =>
      Some (JObj [("campaign_id", campaignId); ("amount", amount);
                  ("currency", Endpoints.or_default (JStr "USD") currency)])
  | RejectCampaign _ reason => Some (JObj [("reason", reason)])
  | UpdateUserKYC _ status => Some (JObj [("status", status)])
  | _ => None
  end.

(** What an operation hands to [request]: no headers, the payload as JSON
    for a body, and no body unless there is a method. *)
Definition shaped (op : operation) (options : Options) : Prop :=
  opt_headers options = None
  /\ opt_body options = match payload op with
                        | Some v => stringify v
                        | None => None
                        end
  /\ (opt_method options = None -> opt_body options = None).

(** How the outcome of an operation follows that of its request: the
    same trace; the same outcome unless the operation is one that persists
    and the request returned a response that is truthy; then the store
    holds the token and the identity of the response, unless the token
    has no string form: then [setToken] throws and nothing is stored. *)
Definition follows (op : operation) (out' out : completion jsval * World) : Prop :=
  trace (snd out') = trace (snd out)
  /\ (persists op = false -> out' = out)
  /\ (forall v, fst out = Return v -> truthy v = false -> out' = out)
  /\ (forall e, fst out = Throw e -> out' = out)
  /\ (forall v, persists op = true -> fst out = Return v -> truthy v = true ->
        if convertible (get_field v "access_token") then
          fst out' = Return v
          /\ localStorage (snd out')
             = TokenManager.setUserData
                 (JObj [("user_id", get_field v "user_id");
                        ("role", get_field v "role")])
                 (TokenManager.setToken (get_field v "access_token")
                    (localStorage (snd out)))
        else out' = (Throw TypeError, snd out)).

(** The session and the navigations of [w'] are those of [w]. *)
Definition unchanged (w w' : World) : Prop :=
  localStorage w' = localStorage w
  /\ navigations (trace w') = navigations (trace w).

(** The outcome [out] of a call begun in [w] ended the session: the result
    is [null], the store is cleared and the page goes to the login page. *)
Definition ended (w : World) (out : completion jsval * World) : Prop :=
  fst out = Return JNull
  /\ localStorage (snd out) = TokenManager.clearAll (localStorage w)
  /\ navigations (trace (snd out)) = navigations (trace w) ++ ["/login.html"].

(** ** api.js and main.js: the navigation bar and the text helpers *)

(** [v === s] for a string [s]. *)
Definition strict_equals_string (v : jsval) (s : string) : bool :=
  match v with
  | JStr x => String.eqb x s
  | _ => false
  end.

Definition newline : string := String "010"%char "".

(** A template literal of several lines. *)
Definition template (lines : list string) : string := join newline lines.

(** The links [updateNavigation] writes into the bar. *)
Definition nav_links (dashboardUrl : string) : string :=
  template [
    "";
    "            <a href=" +:+ q +:+ dashboardUrl +:+ q +:+ " class=" +:+ q
      +:+ "btn btn-outline" +:+ q +:+ ">Dashboard</a>";
    "            <button class=" +:+ q +:+ "btn btn-primary" +:+ q +:+ " onclick=" +:+ q
      +:+ "API.logout()" +:+ q +:+ ">Logout</button>";
    "        "].

(** [navAuth] is the [innerHTML] of the element [nav-auth], [None] when the
    page has no such element; the result is its [innerHTML] afterwards. *)
Definition updateNavigation (navAuth : option string) : M (option string) :=
  match navAuth with
  | None => mret None
  | Some innerHTML =>
      authenticated ← storage_read TokenManager.isAuthenticated;
      if authenticated : bool then
        userData ← storage_call TokenManager.getUserData;
        let dashboardUrl :=
          if strict_equals_string (get_prop_opt userData "role") "BUSINESS_OWNER"
          then "/business-dashboard.html"
          else if strict_equals_string (get_prop_opt userData "role") "ADMIN"
          then "/admin.html"
          else "/investor-dashboard.html" in
        mret (Some (nav_links dashboardUrl))
      else mret (Some innerHTML)
  end.

(** Text as JavaScript indexes it: a list of UTF-16 code units. *)
Definition substring {A} (text : list A) (indexStart indexEnd : Z) : list A :=
  let len := Z.of_nat (length text) in
  let clamp := fun i => Z.max 0 (Z.min i len) in
  let from := Z.min (clamp indexStart) (clamp indexEnd) in
  let to := Z.max (clamp indexStart) (clamp indexEnd) in
  firstn (Z.to_nat (to - from)) (skipn (Z.to_nat from) text).

Definition ellipsis : list N := [46; 46; 46]%N.

Definition truncateText (text : list N) (maxLength : Z) : list N :=
  match text with
  | [] => []
  | _ =>
      if (Z.of_nat (length text) <=? maxLength)%Z then text
      else substring text 0 maxLength ++ ellipsis
  end.

(** ** The page: the document beside the session *)

(** What an element shows: the markup an assignment to [innerHTML] left,
    or the text an assignment to [textContent] left. *)
Inductive content : Type :=
| Markup (html : string)
| Text (text : string).

(** The state of an element the pages read and write: its content,
    [style.display], [disabled], [value] and [checked]. *)
Record Element : Type := {
  el_content : content;
  el_display : string;
  el_disabled : bool;
  el_value : string;
  el_checked : bool
}.

(** The elements of the page by [id]; a part of an element (a control of a
    form, what [querySelector] finds inside a button) is looked up under
    the [id] of the element, a space and the name of the part. The
    elements are apart: none is inside another whose [innerHTML] the code
    writes. *)
Record Page : Type := {
  session : World;
  elements : gmap string Element
}.

Definition part (el name : string) : string := el +:+ " " +:+ name.

(** Code of a page: it reads and changes the session and the document,
    and may throw. *)
Definition PM (A : Type) : Type := Page -> completion A * Page.

#[global] Instance PM_ret : MRet PM := fun A a p => (Return a, p).
#[global] Instance PM_bind : MBind PM := fun A B f m p =>
  match m p with
  | (Return a, p') => f a p'
  | (Throw e, p') => (Throw e, p')
  end.

(** Code of the session run on a page. *)
Definition in_session {A} (m : M A) : PM A := fun p =>
  let '(r, w) := m (session p) in
  (r, {| session := w; elements := elements p |}).

Definition page_lift {A} (c : completion A) : PM A := fun p => (c, p).

(** [try { m } catch (error) { handler error }] *)
Definition page_try_catch {A} (m : PM A) (handler : exn -> PM A) : PM A := fun p =>
  match m p with
  | (Throw e, p') => handler e p'
  | r => r
  end.

(** [try { m } finally { cleanup }], for a [cleanup] that does not
    return from the function. *)
Definition page_finally {A} (m : PM A) (cleanup : PM unit) : PM A := fun p =>
  let '(r, p') := m p in
  match cleanup p' with
  | (Return _, p'') => (r, p'')
  | (Throw e, p'') => (Throw e, p'')
  end.

(** [document.getElementById(id)]: the element, named by its [id], or
    [None] for [null]. *)
Definition getElementById (id : string) : PM (option string) := fun p =>
  (Return (match elements p !! id with Some _ => Some id | None => None end), p).

(** [el.querySelector(selector)] and [form.name]. *)
Definition querySelector (el selector : string) : PM (option string) :=
  getElementById (part el selector).

Definition update (el : string) (f : Element -> Element) : PM unit := fun p =>
  (Return tt, {| session := session p; elements := alter f el (elements p) |}).

Definition set_innerHTML (el html : string) : PM unit :=
  update el (fun e => {| el_content := Markup html; el_display := el_display e;
                         el_disabled := el_disabled e; el_value := el_value e;
                         el_checked := el_checked e |}).

Definition set_textContent (el text : string) : PM unit :=
  update el (fun e => {| el_content := Text text; el_display := el_display e;
                         el_disabled := el_disabled e; el_value := el_value e;
                         el_checked := el_checked e |}).

Definition set_display (el display : string) : PM unit :=
  update el (fun e => {| el_content := el_content e; el_display := display;
                         el_disabled := el_disabled e; el_value := el_value e;
                         el_checked := el_checked e |}).

Definition set_disabled (el : string) (disabled : bool) : PM unit :=
  update el (fun e => {| el_content := el_content e; el_display := el_display e;
                         el_disabled := disabled; el_value := el_value e;
                         el_checked := el_checked e |}).

(** [el.value] and [el.checked] of an element that is there. *)
Definition get_value (el : string) : PM string := fun p =>
  (Return (from_option el_value "" (elements p !! el)), p).

Definition get_checked (el : string) : PM bool := fun p =>
  (Return (from_option el_checked false (elements p !! el)), p).

(** [if (el) m el] *)
Definition when_present (el : option string) (m : string -> PM unit) : PM unit :=
  match el with
  | Some el => m el
  | None => mret tt
  end.

(** ** api.js: the marketplace; main.js: the featured campaigns *)

Definition loading_spinner : string :=
  template [
    "";
    "        <div class=" +:+ q +:+ "loading-spinner" +:+ q +:+ ">";
    "            <div class=" +:+ q +:+ "spinner" +:+ q +:+ "></div>";
    "            <p>Loading campaigns...</p>";
    "        </div>";
    "    "].

Definition no_campaigns_found : string :=
  template [
    "";
    "                <div class=" +:+ q +:+ "empty-state" +:+ q +:+ ">";
    "                    <h3>No campaigns found</h3>";
    "                    <p>Try adjusting your filters or check back later.</p>";
    "                </div>";
    "            "].

Definition failed_to_load : string :=
  template [
    "";
    "            <div class=" +:+ q +:+ "error-state" +:+ q +:+ ">";
    "                <h3>Failed to load campaigns</h3>";
    "                <p>Please try again later.</p>";
    "                <button class=" +:+ q +:+ "btn btn-primary" +:+ q +:+ " onclick=" +:+ q
      +:+ "loadCampaigns()" +:+ q +:+ ">Retry</button>";
    "            </div>";
    "        "].

Definition no_campaigns_yet : string :=
  template [
    "";
    "                <div class=" +:+ q +:+ "empty-state" +:+ q +:+ ">";
    "                    <p>No campaigns available yet. Be the first to invest!</p>";
    "                    <a href=" +:+ q +:+ "signup.html?role=business" +:+ q +:+ " class=" +:+ q
      +:+ "btn btn-primary" +:+ q +:+ ">List Your Business</a>";
    "                </div>";
    "            "].

Definition failed_to_load_featured : string :=
  template [
    "";
    "            <div class=" +:+ q +:+ "error-state" +:+ q +:+ ">";
    "                <p>Failed to load campaigns. Please try again later.</p>";
    "            </div>";
    "        "].

(** [{...target, ...src}] for an object [src]: the properties of [src]
    replace those of [target] where they are, and follow them otherwise. *)
Definition spread_fields (target src : list (string * jsval)) : list (string * jsval) :=
  fold_left (fun acc kv => obj_set (fst kv) (snd kv) acc) src target.

(** The number of UTF-16 code units of a string kept as UTF-8 bytes: one
    for each byte that begins a character, two when the character takes
    four bytes. *)
Fixpoint utf16_length (s : string) : N :=
  match s with
  | "" => 0
  | String c s' =>
      let n := N_of_ascii c in
      ((if (n <? 128) || ((192 <=? n) && (n <? 240)) then 1
        else if 240 <=? n then 2 else 0) + utf16_length s')%N
  end.

(** [v.length] for a [v] that is not [null] or [undefined]. *)
Definition length_of (v : jsval) : jsval :=
  match v with
  | JArr items => JNum (Z.of_nat (length items)) 0
  | JStr s => JNum (Z.of_N (utf16_length s)) 0
  | _ => get_field v "length"
  end.

(** [a === b] when one of them is a number. *)
Definition strict_equals_number (a : jsval) (n : Z) : bool :=
  same_value_zero a (JNum n 0).

Section Campaigns.

Variable net : Request -> FetchOutcome.

(** [createCampaignCard]: the markup of one card. It rounds and formats
    numbers as the browser's locale has it, which the model leaves open: a
    function of the campaign that returns a string or throws. *)
Variable createCampaignCard : jsval -> completion string.

(** [items.map(campaign => createCampaignCard(campaign))] *)
Fixpoint map_cards (items : list jsval) : completion (list string) :=
  match items with
  | [] => Return []
  | campaign :: rest =>
      match createCampaignCard campaign with
      | Throw e => Throw e
      | Return card =>
          match map_cards rest with
          | Throw e => Throw e
          | Return cards => Return (card :: cards)
          end
      end
  end.

(** [campaigns.map(campaign => createCampaignCard(campaign)).join('')]:
    a TypeError when [campaigns] is no array, as a value read from JSON has
    no [map] to call then. *)
Definition render (campaigns : jsval) : completion string :=
  match campaigns with
  | JArr items =>
      match map_cards items with
      | Throw e => Throw e
      | Return cards => Return (join "" cards)
      end
  | _ => Throw TypeError
  end.

(** [!data || !data.campaigns || data.campaigns.length === 0] *)
Definition nothing_to_show (data : jsval) : bool :=
  if negb (truthy data) then true
  else if negb (truthy (get_field data "campaigns")) then true
  else strict_equals_number (length_of (get_field data "campaigns")) 0.

(** [filters] is the object the caller gives, [None] when it gives
    none. *)
Definition loadCampaigns (filters : option (list (string * jsval))) : PM unit :=
  let filters := default [] filters in
  container ← getElementById "campaigns-grid";
  countElement ← getElementById "campaigns-count";
  match container with
  | None => mret tt
  | Some container =>
      set_innerHTML container loading_spinner;;
      page_try_catch
        (data ← in_session
                  (Endpoints.getCampaigns net
                     (JObj (spread_fields [("status", JStr "LIVE")] filters)));
         if nothing_to_show data then
           set_innerHTML container no_campaigns_found;;
           when_present countElement (fun el => set_textContent el "0 campaigns")
         else
           let campaigns := get_field data "campaigns" in
           html ← page_lift (render campaigns);
           set_innerHTML container html;;
           when_present countElement (fun el =>
             set_textContent el
               (ToString (length_of campaigns) +:+ " campaign"
                +:+ (if negb (strict_equals_number (length_of campaigns) 1)
                     then "s" else "")
                +:+ " found")))
        (fun error =>
           in_session (console_error "Failed to load campaigns:" error);;
           set_innerHTML container failed_to_load)
  end.



Definition loadFeaturedCampaigns : PM unit :=
  container ← getElementById "featured-campaigns";
  match container with
  | None => mret tt
  | Some container =>
      page_try_catch
        (data ← in_session
                  (Endpoints.getCampaigns net
                     (JObj [("status", JStr "LIVE"); ("limit", JNum 6 0)]));
         if nothing_to_show data then
           set_innerHTML container no_campaigns_yet
         else
           html ← page_lift (render (get_field data "campaigns"));
           set_innerHTML container html)
        (fun error =>
           in_session (console_error "Failed to load campaigns:" error);;
           set_innerHTML container failed_to_load_featured)
  end.

End Campaigns.

(** The content of the element [id] of a page. *)
Definition shown (p : Page) (id : string) : option content :=
  el_content <$> elements p !! id.

(** The pages [p] and [p'] differ at most in the elements [ids]. *)
Definition same_but (ids : list string) (p p' : Page) : Prop :=
  forall id, ~ In id ids -> elements p' !! id = elements p !! id.

(** The digits of [s] that are not ["0"]. *)
Fixpoint nonzero_digits (s : string) : nat :=
  match s with
  | "" => O
  | String c s' => ((if Ascii.eqb c "0" then 0 else 1) + nonzero_digits s')%nat
  end.

(** What the counter of the marketplace says of [n] campaigns. *)
Definition campaigns_found (n : nat) : string :=
  ToString (JNum (Z.of_nat n) 0) +:+ " campaign"
  +:+ (if decide (n = 1%nat) then "" else "s") +:+ " found".

(** The path of the request of [loadCampaigns(filters)]. *)
Definition campaigns_path (filters : list (string * jsval)) : string :=
  Endpoints.with_query "/campaigns"
    (URLSearchParams.toString
       (kept_filters ["status"; "country"; "limit"]
          (JObj (spread_fields [("status", JStr "LIVE")] filters)))).

(** Whether the filters of [loadCampaigns(filters)] make [getCampaigns]
    throw before it sends its request: one of [status], [country] and
    [limit] is truthy and has no string form. *)
Definition filters_throw (filters : list (string * jsval)) : bool :=
  filter_throws ["status"; "country"; "limit"]
    (JObj (spread_fields [("status", JStr "LIVE")] filters)).

(** ** Inputs of the examples of the pages *)

Definition blank : Element :=
  {| el_content := Markup ""; el_display := ""; el_disabled := false;
     el_value := ""; el_checked := false |}.

Definition control (value : string) : Element :=
  {| el_content := Markup ""; el_display := ""; el_disabled := false;
     el_value := value; el_checked := false |}.

(** A card that is the title of the campaign. *)
Definition title_card (campaign : jsval) : completion string :=
  Return (ToString (get_field campaign "title")).

Definition marketplace : Page :=
  {| session := world session_store [];
     elements := {[ "campaigns-grid" := blank; "campaigns-count" := blank;
                    "filter-country" := control "South Africa";
                    "filter-category" := control "Energy" ]} |}.

Definition two_campaigns : Response :=
  {| status := 200;
     body_text :=
       json_text (JObj [("campaigns",
                         JArr [JObj [("title", JStr "Solar")];
                               JObj [("title", JStr "Mill")]])]) |}.

(** ** The login and signup page *)

Definition page_throw {A} (e : exn) : PM A := fun p => (Throw e, p).

(** [String.prototype.trim] on UTF-8 bytes. The white space and line
    terminators of JavaScript: U+0009 to U+000D, U+0020, U+00A0, U+1680,
    U+2000 to U+200A, U+2028, U+2029, U+202F, U+205F, U+3000 and U+FEFF. *)
Definition white_space1 (a : N) : bool :=
  ((9 <=? a) && (a <=? 13) || (a =? 32))%N.

Definition white_space2 (a b : N) : bool :=
  ((a =? 194) && (b =? 160))%N.

Definition white_space3 (a b c : N) : bool :=
  ((a =? 225) && (b =? 154) && (c =? 128)
   || (a =? 226) && (b =? 128)
      && ((128 <=? c) && (c <=? 138) || (c =? 168) || (c =? 169) || (c =? 175))
   || (a =? 226) && (b =? 129) && (c =? 159)
   || (a =? 227) && (b =? 128) && (c =? 128)
   || (a =? 239) && (b =? 187) && (c =? 191))%N.

Fixpoint trimStart (s : string) : string :=
  match s with
  | String a r1 =>
      if white_space1 (N_of_ascii a) then trimStart r1
      else
        match r1 with
        | String b r2 =>
            if white_space2 (N_of_ascii a) (N_of_ascii b) then trimStart r2
            else
              match r2 with
              | String c r3 =>
                  if white_space3 (N_of_ascii a) (N_of_ascii b) (N_of_ascii c)
                  then trimStart r3
                  else s
              | "" => s
              end
        | "" => s
        end
  | "" => ""
  end.

(** The same from the end, on the reversed string. *)
Fixpoint trimStart_reversed (s : string) : string :=
  match s with
  | String c r1 =>
      if white_space1 (N_of_ascii c) then trimStart_reversed r1
      else
        match r1 with
        | String b r2 =>
            if white_space2 (N_of_ascii b) (N_of_ascii c) then trimStart_reversed r2
            else
              match r2 with
              | String a r3 =>
                  if white_space3 (N_of_ascii a) (N_of_ascii b) (N_of_ascii c)
                  then trimStart_reversed r3
                  else s
              | "" => s
              end
        | "" => s
        end
  | "" => ""
  end.

Definition trimEnd (s : string) : string :=
  string_rev (trimStart_reversed (string_rev s)).

Definition trim (s : string) : string := trimEnd (trimStart s).

Section AuthPage.

Variable net : Request -> FetchOutcome.

(** [error.message]. The texts of the SyntaxError of [response.json()]
    and of the TypeError that a handler catches (a property read on
    [null], a conversion to a string that throws) are the engine's. *)
Variables syntax_error_message type_error_message : string.

Definition message (error : exn) : string :=
  match error with
  | Error text => text
  | NetworkFailure text => text
  | SyntaxError => syntax_error_message
  | TypeError => type_error_message
  end.

(** [btn] is [None] when the page has no such button: reading
    [btn.querySelector] throws then. *)
Definition setLoading (btn : option string) (loading : bool) : PM unit :=
  match btn with
  | None => page_throw TypeError
  | Some btn =>
      text ← querySelector btn ".btn-text";
      loader ← querySelector btn ".btn-loader";
      if loading then
        set_disabled btn true;;
        when_present text (fun el => set_display el "none");;
        when_present loader (fun el => set_display el "inline")
      else
        set_disabled btn false;;
        when_present text (fun el => set_display el "inline");;
        when_present loader (fun el => set_display el "none")
  end.

Definition showError (element : option string) (text : string) : PM unit :=
  when_present element (fun el =>
    set_textContent el text;;
    set_display el "block").

Definition hideError (element : option string) : PM unit :=
  when_present element (fun el => set_display el "none").

(** [form.name.value]: a TypeError when the form has no such control. *)
Definition control_value (form name : string) : PM string :=
  el ← querySelector form name;
  match el with
  | Some el => get_value el
  | None => page_throw TypeError
  end.

(** [error.message || fallback] *)
Definition message_or (error : exn) (fallback : string) : string :=
  if truthy (JStr (message error)) then message error else fallback.

(** The handler of [submit] that [initLoginForm] gives the form
    [login-form]; [errorDiv] and [submitBtn] are the elements
    [initLoginForm] looked up. *)
Definition login_submitted : PM unit :=
  errorDiv ← getElementById "login-error";
  submitBtn ← getElementById "login-btn";
  email ← control_value "login-form" "email";
  let email := trim email in
  password ← control_value "login-form" "password";
  setLoading submitBtn true;;
  hideError errorDiv;;
  page_finally
    (page_try_catch
       (response ← in_session (API.login net (JStr email) (JStr password));
        if truthy response then
          role ← page_lift (get_prop response "role");
          in_session (redirectToDashboard role)
        else mret tt)
       (fun error =>
          showError errorDiv
            (message_or error "Login failed. Please check your credentials.")))
    (setLoading submitBtn false).

(** [form.name?.value?.trim() || null] *)
Definition optional_trimmed (form name : string) : PM jsval :=
  el ← querySelector form name;
  match el with
  | Some el =>
      value ← get_value el;
      mret (if truthy (JStr (trim value)) then JStr (trim value) else JNull)
  | None => mret JNull
  end.

(** [form.name?.checked] as a condition. *)
Definition optional_checked (form name : string) : PM bool :=
  el ← querySelector form name;
  match el with
  | Some el => get_checked el
  | None => mret false
  end.

(** The handler of [submit] that [initSignupForm] gives the form
    [signup-form]; [errorDiv] and [submitBtn] are the elements
    [initSignupForm] looked up. *)
Definition signup_submitted : PM unit :=
  errorDiv ← getElementById "signup-error";
  submitBtn ← getElementById "signup-btn";
  email ← control_value "signup-form" "email";
  let email := trim email in
  password ← control_value "signup-form" "password";
  role ← control_value "signup-form" "role";
  country ← control_value "signup-form" "country";
  fullName ← optional_trimmed "signup-form" "full_name";
  if (utf16_length password <? 8)%N then
    showError errorDiv "Password must be at least 8 characters"
  else
    terms ← optional_checked "signup-form" "terms";
    if negb terms then
      showError errorDiv "You must agree to the Terms of Service"
    else
      setLoading submitBtn true;;
      hideError errorDiv;;
      page_finally
        (page_try_catch
           (response ← in_session
                         (API.signup net (JStr email) (JStr password) (JStr role)
                            (JStr country) fullName);
            if truthy response then
              role ← page_lift (get_prop response "role");
              in_session (redirectToDashboard role)
            else mret tt)
           (fun error =>
              showError errorDiv
                (message_or error "Registration failed. Please try again.")))
        (setLoading submitBtn false).

End AuthPage.

(** ** The campaign page: who may invest *)

Definition only_investors (dashboard : string) : string :=
  template [
    "";
    "                    <p>Only investors can invest in campaigns.</p>";
    "                    <a href=" +:+ q +:+ dashboard +:+ q +:+ " class=" +:+ q
      +:+ "btn btn-primary btn-block" +:+ q +:+ ">Go to Dashboard</a>";
    "                "].

(** [setupInvestmentForm(campaignId)]: the result says whether the form
    [invest-form] was given the handler of [submit] that starts a payment
    for the campaign. *)
Definition setupInvestmentForm : PM bool :=
  investmentForm ← getElementById "investment-form";
  loginPrompt ← getElementById "login-prompt";
  form ← getElementById "invest-form";
  authenticated ← in_session (storage_read TokenManager.isAuthenticated);
  if authenticated : bool then
    userData ← in_session (storage_call TokenManager.getUserData);
    if strict_equals_string (get_prop_opt userData "role") "INVESTOR" then
      when_present investmentForm (fun el => set_display el "block");;
      when_present loginPrompt (fun el => set_display el "none");;
      mret (match form with Some _ => true | None => false end)
    else
      when_present investmentForm (fun el => set_display el "none");;
      when_present loginPrompt (fun el =>
        set_innerHTML el
          (only_investors
             (if strict_equals_string (get_prop_opt userData "role") "BUSINESS_OWNER"
              then "business-dashboard.html" else "admin.html")));;
      mret false
  else
    when_present investmentForm (fun el => set_display el "none");;
    when_present loginPrompt (fun el => set_display el "block");;
    mret false.

(** The login page has its button and the two controls of its form. *)
Definition login_form_ready (p : Page) : Prop :=
  is_Some (elements p !! "login-btn")
  /\ is_Some (elements p !! part "login-form" "email")
  /\ is_Some (elements p !! part "login-form" "password").

(** What is typed into the control [name] of [form]. *)
Definition typed (p : Page) (form name : string) : string :=
  from_option el_value "" (elements p !! part form name).

(** [style.display] and [disabled] of the element [id]. *)
Definition display_of (p : Page) (id : string) : option string :=
  el_display <$> elements p !! id.

Definition disabled_of (p : Page) (id : string) : option bool :=
  el_disabled <$> elements p !! id.

(** The signup page has its button and the controls its handler reads. *)
Definition signup_form_ready (p : Page) : Prop :=
  is_Some (elements p !! "signup-btn")
  /\ is_Some (elements p !! part "signup-form" "email")
  /\ is_Some (elements p !! part "signup-form" "password")
  /\ is_Some (elements p !! part "signup-form" "role")
  /\ is_Some (elements p !! part "signup-form" "country").

(** [form.full_name?.value?.trim() || null] on the page [p]. *)
Definition full_name_given (p : Page) : jsval :=
  match elements p !! part "signup-form" "full_name" with
  | Some el => if truthy (JStr (trim (el_value el))) then JStr (trim (el_value el))
               else JNull
  | None => JNull
  end.

(** Whether the box [terms] is there and ticked. *)
Definition terms_accepted (p : Page) : bool :=
  from_option el_checked false (elements p !! part "signup-form" "terms").

(** ** Inputs of the examples of the login and signup page *)

Definition ticked : Element :=
  {| el_content := Markup ""; el_display := ""; el_disabled := false;
     el_value := "on"; el_checked := true |}.

Definition login_page : Page :=
  {| session := world ∅ [];
     elements := {[ "login-btn" := blank; "login-error" := blank;
                    part "login-form" "email" := control "  ada@example.com ";
                    part "login-form" "password" := control " secret " ]} |}.

Definition signup_page (password : string) : Page :=
  {| session := world ∅ [];
     elements := {[ "signup-btn" := blank; "signup-error" := blank;
                    part "signup-form" "email" := control "ada@example.com";
                    part "signup-form" "password" := control password;
                    part "signup-form" "role" := control "INVESTOR";
                    part "signup-form" "country" := control "KE";
                    part "signup-form" "terms" := ticked ]} |}.

(** The session is that of an investor: a token that is not empty and a
    stored identity that reads with the role INVESTOR. *)
Definition investor (st : gmap string string) : bool :=
  TokenManager.isAuthenticated st
  && match TokenManager.getUserData st with
     | Return userData =>
         strict_equals_string (get_prop_opt userData "role") "INVESTOR"
     | Throw _ => false
     end.

Definition campaign_page (st : gmap string string) : Page :=
  {| session := world st [];
     elements := {[ "investment-form" := blank; "login-prompt" := blank;
                    "invest-form" := blank ]} |}.

(** * Properties *)

(** ** The session store *)

Section Store.

Implicit Types st : gmap string string.

Lemma getItem_lookup st k :
  getItem st k = match st !! k with Some s => JStr s | None => JNull end.
Proof. reflexivity. Qed.

Lemma truthy_getItem st k :
  truthy (getItem st k) = true <-> exists s, st !! k = Some s /\ s <> "".
Proof.
  unfold getItem. destruct (st !! k) as [s|] eqn:E; simpl.
  - destruct s; simpl; split.
    + discriminate.
    + intros (s' & Hs & Hne). congruence.
    + intros _. eexists. split; [reflexivity | discriminate].
    + reflexivity.
  - split; [discriminate | intros (s & Hs & _); discriminate].
Qed.

Lemma clearAll_token st : TokenManager.clearAll st !! "bossup_token" = None.
Proof.
  unfold TokenManager.clearAll, removeItem.
  rewrite lookup_delete_ne by discriminate. apply lookup_delete_eq.
Qed.

Lemma clearAll_user st : TokenManager.clearAll st !! "bossup_user" = None.
Proof. unfold TokenManager.clearAll, removeItem. apply lookup_delete_eq. Qed.

Lemma clearAll_other st k :
  k <> "bossup_token" -> k <> "bossup_user" ->
  TokenManager.clearAll st !! k = st !! k.
Proof.
  intros H1 H2. unfold TokenManager.clearAll, removeItem.
  rewrite !lookup_delete_ne by congruence. reflexivity.
Qed.

Lemma isAuthenticated_truthy st :
  TokenManager.isAuthenticated st = truthy (TokenManager.getToken st).
Proof. unfold TokenManager.isAuthenticated. apply negb_involutive. Qed.

Lemma isAuthenticated_no_token st :
  st !! "bossup_token" = None -> TokenManager.isAuthenticated st = false.
Proof.
  intros H. rewrite isAuthenticated_truthy.
  unfold TokenManager.getToken, getItem. rewrite H. reflexivity.
Qed.

Lemma getUserData_no_value st :
  st !! "bossup_user" = None -> TokenManager.getUserData st = Return JNull.
Proof.
  intros H. unfold TokenManager.getUserData, getItem. rewrite H. reflexivity.
Qed.

Lemma getUserData_stored st s :
  st !! "bossup_user" = Some s ->
  TokenManager.getUserData st =
    match s with
    | "" => Return JNull
    | _ => match parse s with Some v => Return v | None => Throw SyntaxError end
    end.
Proof.
  intros H. unfold TokenManager.getUserData, getItem. rewrite H.
  destruct s; reflexivity.
Qed.

(** Each key is written and removed on its own. *)
Lemma setUserData_token st data :
  TokenManager.setUserData data st !! "bossup_token" = st !! "bossup_token".
Proof.
  unfold TokenManager.setUserData, setItem. apply lookup_insert_ne. discriminate.
Qed.

Lemma setToken_user st token :
  TokenManager.setToken token st !! "bossup_user" = st !! "bossup_user".
Proof.
  unfold TokenManager.setToken, setItem. apply lookup_insert_ne. discriminate.
Qed.

Lemma removeToken_user st :
  TokenManager.removeToken st !! "bossup_user" = st !! "bossup_user".
Proof.
  unfold TokenManager.removeToken, removeItem. apply lookup_delete_ne. discriminate.
Qed.

Lemma setToken_token st token :
  TokenManager.setToken token st !! "bossup_token" = Some (ToString token).
Proof. unfold TokenManager.setToken, setItem. apply lookup_insert_eq. Qed.

Lemma setUserData_user st data :
  TokenManager.setUserData data st !! "bossup_user"
  = Some (ToString (JSON_stringify data)).
Proof. unfold TokenManager.setUserData, setItem. apply lookup_insert_eq. Qed.

End Store.

(** ** JSON texts *)

Section Strings.

Lemma append_cons (x : ascii) (a b : string) :
  String x a +:+ b = String x (a +:+ b).
Proof. reflexivity. Qed.

Lemma append_nil_l (a : string) : "" +:+ a = a.
Proof. reflexivity. Qed.

Lemma append_assoc (a b c : string) : (a +:+ b) +:+ c = a +:+ (b +:+ c).
Proof.
  induction a as [|x a IH]; [reflexivity |].
  rewrite !append_cons, IH. reflexivity.
Qed.

Lemma append_nil_r (a : string) : a +:+ "" = a.
Proof.
  induction a as [|x a IH]; [reflexivity |].
  rewrite append_cons, IH. reflexivity.
Qed.

Lemma length_append (a b : string) :
  String.length (a +:+ b) = String.length a + String.length b.
Proof.
  induction a as [|x a IH]; [reflexivity |].
  rewrite append_cons. simpl. rewrite IH. reflexivity.
Qed.

End Strings.

Section StringLiterals.

(** Reading back one escaped character. *)
Lemma parse_chars_escape_char (c : ascii) (t : string) :
  parse_chars (escape_char c +:+ t) = push (String c "") (parse_chars t).
Proof.
  destruct c as [[] [] [] [] [] [] [] []]; reflexivity.
Qed.

Lemma parse_chars_escape (s rest : string) :
  parse_chars (escape s +:+ String dquote rest) = Some (s, rest).
Proof.
  induction s as [|c s IH]; cbn [escape].
  - reflexivity.
  - rewrite append_assoc, parse_chars_escape_char, IH. reflexivity.
Qed.

End StringLiterals.

(** ** The codec on examples *)

Section CodecExamples.

Example stringify_identity :
  stringify (identity "u1" "ADMIN")
  = Some (object_text [("user_id", quote "u1"); ("role", quote "ADMIN")]).
Proof. reflexivity. Qed.

Example stringify_drops_undefined :
  stringify (JObj [("user_id", JUndefined); ("role", JStr "ADMIN")])
  = Some (object_text [("role", quote "ADMIN")])
  /\ stringify JUndefined = None
  /\ stringify (JArr [JUndefined; JNull]) = Some "[null,null]".
Proof. repeat split. Qed.

Example parse_values :
  parse " [1, 2.50 ,-0, 1e3, 12E-2, [ ], { }, null, true] "
  = Some (JArr [JNum 1 0; JNum 25 (-1); JNum 0 0; JNum 1 3; JNum 12 (-2);
                JArr []; JObj []; JNull; JBool true]).
Proof. vm_compute. reflexivity. Qed.

Example parse_later_key_wins :
  parse (object_text [("a", "1"); ("b", "2"); ("a", "3")])
  = Some (JObj [("a", JNum 3 0); ("b", JNum 2 0)]).
Proof. vm_compute. reflexivity. Qed.

Example parse_rejects :
  parse "" = None /\ parse "undefined" = None /\ parse "{" = None
  /\ parse "[1,]" = None /\ parse "01" = None /\ parse "1." = None
  /\ parse "nul" = None /\ parse "null x" = None /\ parse "<html>" = None.
Proof. repeat split; vm_compute; reflexivity. Qed.

Example numbers_to_string :
  number_to_string 15 (-1) = "1.5"
  /\ number_to_string (-5) (-3) = "-0.005"
  /\ number_to_string 1 20 = "100000000000000000000"
  /\ number_to_string 1 21 = "1e+21"
  /\ number_to_string 12 (-8) = "1.2e-7".
Proof. repeat split; vm_compute; reflexivity. Qed.

Example array_of_objects_to_string :
  ToString (JArr [JObj [("msg", JStr "field required")]; JNull; JNum 3 0])
  = "[object Object],,3".
Proof. vm_compute. reflexivity. Qed.

End CodecExamples.

(** ** The parser: fuel and lengths *)

Section ParserLengths.

Lemma skip_ws_length s : String.length (skip_ws s) <= String.length s.
Proof.
  induction s as [|c s IH]; simpl; [lia |].
  destruct (is_ws c); simpl; lia.
Qed.

Lemma expect_length c s r :
  expect c s = Some r -> String.length r < String.length s.
Proof.
  unfold expect. pose proof (skip_ws_length s) as H.
  destruct (skip_ws s) as [|c' r']; [discriminate |].
  destruct (Ascii.eqb c' c); [|discriminate].
  intros [= <-]. simpl in H. lia.
Qed.

Lemma push_length p o t r n :
  push p o = Some (t, r) ->
  (forall t' r', o = Some (t', r') -> String.length r' < n) ->
  String.length r < n.
Proof.
  destruct o as [[t' r']|]; simpl; [|discriminate].
  intros [= _ <-] H. eapply H. reflexivity.
Qed.

Lemma parse_chars_length_bounded n :
  forall s t r, String.length s <= n ->
    parse_chars s = Some (t, r) -> String.length r < String.length s.
Proof.
  induction n as [|n IH]; intros s t r Hn.
  - destruct s; [discriminate | simpl in Hn; lia].
  - destruct s as [|c s]; [discriminate |]. simpl in Hn. simpl.
    destruct (Ascii.eqb c dquote).
    { intros [= _ <-]. lia. }
    destruct (Ascii.eqb c backslash).
    + destruct s as [|e s]; [discriminate |]. simpl in Hn.
      destruct (Ascii.eqb e "u").
      * destruct s as [|h1 [|h2 [|h3 [|h4 s]]]]; try discriminate.
        simpl in Hn. destruct (hex4 h1 h2 h3 h4) as [hi|]; [|discriminate].
        cbv zeta.
        assert (push (utf8_unit hi) (parse_chars s) = Some (t, r) ->
                String.length r
                < String.length (String c (String e (String h1 (String h2
                                   (String h3 (String h4 s))))))) as Halone.
        { intros H.
          eapply push_length in H;
            [|intros t' r' E; eapply IH in E; [exact E | lia]].
          simpl. lia. }
        destruct (high_surrogate hi); [|exact Halone].
        destruct s as [|b [|u [|l1 [|l2 [|l3 [|l4 s]]]]]]; try exact Halone.
        destruct (Ascii.eqb b backslash && Ascii.eqb u "u"); [|exact Halone].
        destruct (hex4 l1 l2 l3 l4) as [lo|]; [|exact Halone].
        destruct (low_surrogate lo); [|exact Halone].
        intros H.
        eapply push_length in H;
          [|intros t' r' E; eapply IH in E; [exact E | simpl in Hn; lia]].
        simpl. lia.
      * destruct (unescape e); [|discriminate].
        intros H. eapply push_length in H; [|intros t' r' E; eapply IH in E; [exact E | lia]].
        simpl. lia.
    + destruct (N_of_ascii c <? 32)%N; [discriminate |].
      intros H. eapply push_length in H; [|intros t' r' E; eapply IH in E; [exact E | lia]].
      lia.
Qed.

Lemma parse_chars_length s t r :
  parse_chars s = Some (t, r) -> String.length r < String.length s.
Proof. apply (parse_chars_length_bounded (String.length s)). lia. Qed.

Lemma take_digits_length s d r :
  take_digits s = (d, r) -> String.length s = String.length d + String.length r.
Proof.
  revert d r. induction s as [|c s IH]; intros d r; simpl.
  - intros [= <- <-]. reflexivity.
  - destruct (digit_val c).
    + destruct (take_digits s) as [d' r'] eqn:E. intros [= <- <-].
      simpl. rewrite (IH d' r' eq_refl). reflexivity.
    + intros [= <- <-]. reflexivity.
Qed.

Lemma parse_sign_length s neg r :
  parse_sign s = (neg, r) -> String.length r <= String.length s.
Proof.
  unfold parse_sign. destruct s as [|c s]; [intros [= _ <-]; lia |].
  destruct (Ascii.eqb_spec c "-") as [->|Hc].
  - intros [= _ <-]. simpl. lia.
  - intros H. assert (r = String c s) as ->.
    { destruct c as [[] [] [] [] [] [] [] []]; try congruence. }
    lia.
Qed.

Lemma parse_frac_length s fp r :
  parse_frac s = Some (fp, r) -> String.length r <= String.length s.
Proof.
  unfold parse_frac. destruct s as [|c s]; [intros [= _ <-]; lia |].
  destruct (Ascii.eqb_spec c ".") as [->|Hc].
  - destruct (take_digits s) as [d r'] eqn:E. apply take_digits_length in E.
    destruct d; [discriminate |]. intros [= _ <-]. simpl. lia.
  - intros H. assert (r = String c s) as ->.
    { destruct c as [[] [] [] [] [] [] [] []]; try congruence. }
    lia.
Qed.

Lemma parse_exp_length s ex r :
  parse_exp s = Some (ex, r) -> String.length r <= String.length s.
Proof.
  unfold parse_exp. destruct s as [|c s]; [intros [= _ <-]; lia |].
  destruct (Ascii.eqb c "e" || Ascii.eqb c "E"); [|intros [= _ <-]; lia].
  assert (exists neg r1, (match s with
                          | String "-"%char r' => (true, r')
                          | String "+"%char r' => (false, r')
                          | _ => (false, s)
                          end) = (neg, r1) /\ String.length r1 <= String.length s)
    as (neg & r1 & -> & Hr1).
  { destruct s as [|d s]; [eexists _, _; split; [reflexivity | lia] |].
    destruct d as [[] [] [] [] [] [] [] []];
      eexists _, _; (split; [reflexivity | simpl; lia]). }
  destruct (take_digits r1) as [d r'] eqn:E. apply take_digits_length in E.
  destruct d; [discriminate |]. intros [= _ <-]. simpl. lia.
Qed.

Lemma parse_number_length s v r :
  parse_number s = Some (v, r) -> String.length r < String.length s.
Proof.
  unfold parse_number.
  destruct (parse_sign s) as [neg s1] eqn:E1. apply parse_sign_length in E1.
  destruct (take_digits s1) as [ip s2] eqn:E2. apply take_digits_length in E2.
  intros H.
  assert (ip <> "" /\ exists fp s3 ex, parse_frac s2 = Some (fp, s3)
                        /\ parse_exp s3 = Some (ex, r)) as (Hip & fp & s3 & ex & E3 & E4).
  { destruct ip as [|a ip]; [discriminate |]. split; [discriminate |].
    destruct (parse_frac s2) as [[fp s3]|] eqn:E3.
    - destruct (parse_exp s3) as [[ex r']|] eqn:E4.
      + eexists _, _, _. split; [reflexivity |].
        destruct a as [[] [] [] [] [] [] [] []]; destruct ip;
          try discriminate; inversion H; subst; exact E4.
      + destruct a as [[] [] [] [] [] [] [] []]; destruct ip; discriminate.
    - destruct a as [[] [] [] [] [] [] [] []]; destruct ip; discriminate. }
  apply parse_frac_length in E3. apply parse_exp_length in E4.
  destruct ip; [congruence |]. simpl in E2. lia.
Qed.

Lemma strip_prefix_length p s r :
  strip_prefix p s = Some r -> String.length s = String.length p + String.length r.
Proof.
  revert s. induction p as [|a p IH]; intros s; simpl.
  - intros [= <-]. reflexivity.
  - destruct s as [|b s]; [discriminate |].
    destruct (Ascii.eqb a b); [|discriminate].
    intros H. simpl. rewrite (IH _ H). reflexivity.
Qed.

Lemma parse_literal_length word v s v' r :
  word <> "" -> parse_literal word v s = Parsed v' r ->
  String.length r < String.length s.
Proof.
  unfold parse_literal. intros Hw.
  destruct (strip_prefix word s) as [r'|] eqn:E; [|discriminate].
  intros [= _ <-]. apply strip_prefix_length in E.
  destruct word; [congruence |]. simpl in E. lia.
Qed.

End ParserLengths.

Section Fuel.

Lemma within_malformed {A} s : within s (@Malformed A).
Proof. split; [discriminate | discriminate]. Qed.

Lemma within_parsed {A} s (v : A) r :
  String.length r < String.length s -> within s (Parsed v r).
Proof. intros H. split; [discriminate | intros ? ? [= _ <-]; exact H]. Qed.

Lemma within_shorter {A} s s' (p : parsed A) :
  String.length s' <= String.length s -> within s' p -> within s p.
Proof. intros H [H1 H2]. split; [exact H1 | intros v r E; specialize (H2 v r E); lia]. Qed.

Lemma within_of_option {A} s (o : option (A * string)) :
  (forall v r, o = Some (v, r) -> String.length r < String.length s) ->
  within s (of_option o).
Proof.
  intros H. destruct o as [[v r]|]; simpl.
  - apply within_parsed. eapply H. reflexivity.
  - apply within_malformed.
Qed.

Lemma parse_fuel_enough f :
  (forall s, 2 * String.length s < f -> within s (parse_value f s))
  /\ (forall acc s, 2 * String.length s + 1 < f -> within s (parse_elements f acc s))
  /\ (forall acc s, 2 * String.length s + 1 < f -> within s (parse_members f acc s)).
Proof.
  induction f as [|f (IHv & IHe & IHm)].
  { repeat split; intros; lia. }
  split; [|split].
  - intros s Hf. simpl. pose proof (skip_ws_length s) as Hws.
    destruct (skip_ws s) as [|c r]; [apply within_malformed |].
    simpl in Hws.
    destruct (Ascii.eqb c "{").
    { destruct (expect "}" r) as [r'|] eqn:E.
      - apply expect_length in E. apply within_parsed. lia.
      - apply (within_shorter _ r); [lia |]. apply IHm. lia. }
    destruct (Ascii.eqb c "[").
    { destruct (expect "]" r) as [r'|] eqn:E.
      - apply expect_length in E. apply within_parsed. lia.
      - apply (within_shorter _ r); [lia |]. apply IHe. lia. }
    destruct (Ascii.eqb c dquote).
    { destruct (parse_chars r) as [[t rest]|] eqn:E; [|apply within_malformed].
      apply parse_chars_length in E. apply within_parsed. lia. }
    assert (forall word v, word <> "" ->
              within s (parse_literal word v (String c r))) as Hlit.
    { intros word v Hw. split.
      - unfold parse_literal. destruct (strip_prefix word (String c r)); discriminate.
      - intros v' r' E. apply parse_literal_length in E; [|exact Hw]. simpl in E. lia. }
    destruct (Ascii.eqb c "n"); [apply Hlit; discriminate |].
    destruct (Ascii.eqb c "t"); [apply Hlit; discriminate |].
    destruct (Ascii.eqb c "f"); [apply Hlit; discriminate |].
    apply within_of_option. intros v r' E.
    apply parse_number_length in E. simpl in E. lia.
  - intros acc s Hf. simpl.
    destruct (IHv s ltac:(lia)) as [Hne Hlen].
    destruct (parse_value f s) as [v r| |] eqn:E;
      [|apply within_malformed | congruence].
    specialize (Hlen v r eq_refl).
    destruct (expect "," r) as [r'|] eqn:E1.
    { apply expect_length in E1. apply (within_shorter _ r'); [lia |].
      apply IHe. lia. }
    destruct (expect "]" r) as [r'|] eqn:E2; [|apply within_malformed].
    apply expect_length in E2. apply within_parsed. lia.
  - intros acc s Hf. simpl.
    destruct (expect dquote s) as [r|] eqn:E0; [|apply within_malformed].
    apply expect_length in E0.
    destruct (parse_chars r) as [[k r1]|] eqn:E1; [|apply within_malformed].
    apply parse_chars_length in E1.
    destruct (expect ":" r1) as [r2|] eqn:E2; [|apply within_malformed].
    apply expect_length in E2.
    destruct (IHv r2 ltac:(lia)) as [Hne Hlen].
    destruct (parse_value f r2) as [v r3| |] eqn:E;
      [|apply within_malformed | congruence].
    specialize (Hlen v r3 eq_refl).
    destruct (expect "," r3) as [r4|] eqn:E3.
    { apply expect_length in E3. apply (within_shorter _ r4); [lia |].
      apply IHm. lia. }
    destruct (expect "}" r3) as [r4|] eqn:E4; [|apply within_malformed].
    apply expect_length in E4. apply within_parsed. lia.
Qed.

(** [fuel_for] is enough: the parser never stops for lack of fuel. *)
Lemma parse_value_not_exhausted s : parse_value (fuel_for s) s <> Exhausted.
Proof.
  destruct (parse_fuel_enough (fuel_for s)) as (H & _ & _).
  apply H. unfold fuel_for. lia.
Qed.

Lemma parse_fuel_stable f :
  (forall s f', f <= f' -> parse_value f s <> Exhausted ->
     parse_value f' s = parse_value f s)
  /\ (forall acc s f', f <= f' -> parse_elements f acc s <> Exhausted ->
        parse_elements f' acc s = parse_elements f acc s)
  /\ (forall acc s f', f <= f' -> parse_members f acc s <> Exhausted ->
        parse_members f' acc s = parse_members f acc s).
Proof.
  induction f as [|f (IHv & IHe & IHm)].
  { repeat split; intros; simpl in *; congruence. }
  split; [|split].
  - intros s [|f'] Hf; [lia |]. simpl.
    destruct (skip_ws s) as [|c r]; [reflexivity |].
    destruct (Ascii.eqb c "{").
    { destruct (expect "}" r); [reflexivity |]. intros H. apply IHm; [lia | exact H]. }
    destruct (Ascii.eqb c "[").
    { destruct (expect "]" r); [reflexivity |]. intros H. apply IHe; [lia | exact H]. }
    reflexivity.
  - intros acc s [|f'] Hf; [lia |]. simpl. intros H.
    assert (parse_value f s <> Exhausted) as Hv.
    { intros E. rewrite E in H. congruence. }
    rewrite (IHv s f' ltac:(lia) Hv).
    destruct (parse_value f s) as [v r| |]; [|reflexivity | congruence].
    destruct (expect "," r); [|reflexivity].
    apply IHe; [lia | exact H].
  - intros acc s [|f'] Hf; [lia |]. simpl. intros H.
    destruct (expect dquote s) as [r|]; [|reflexivity].
    destruct (parse_chars r) as [[k r1]|]; [|reflexivity].
    destruct (expect ":" r1) as [r2|]; [|reflexivity].
    assert (parse_value f r2 <> Exhausted) as Hv.
    { intros E. rewrite E in H. congruence. }
    rewrite (IHv r2 f' ltac:(lia) Hv).
    destruct (parse_value f r2) as [v r3| |]; [|reflexivity | congruence].
    destruct (expect "," r3); [|reflexivity].
    apply IHm; [lia | exact H].
Qed.

(** A value read with some fuel is the value [parse] reads. *)
Lemma parse_with_fuel f s v rest :
  parse_value f s = Parsed v rest -> skip_ws rest = "" -> parse s = Some v.
Proof.
  intros H Hrest. unfold parse.
  destruct (parse_fuel_stable f) as (Hf & _ & _).
  destruct (parse_fuel_stable (fuel_for s)) as (Hs & _ & _).
  assert (parse_value (fuel_for s) s = Parsed v rest) as ->.
  { destruct (Nat.le_ge_cases f (fuel_for s)) as [Hle|Hle].
    - rewrite (Hf s _ Hle); [exact H | congruence].
    - rewrite <- (Hs s _ Hle (parse_value_not_exhausted s)). exact H. }
  rewrite Hrest. reflexivity.
Qed.

End Fuel.

(** ** JSON.parse after JSON.stringify *)

Section RoundTrip.

Lemma list_sum_In (l : list nat) x : In x l -> x <= list_sum l.
Proof.
  induction l as [|y l IH]; simpl; [tauto |].
  intros [->|H]; [lia | specialize (IH H); lia].
Qed.

Lemma distinct_NoDup ks : distinct ks = true <-> NoDup ks.
Proof.
  induction ks as [|k ks IH]; simpl.
  - split; [constructor | reflexivity].
  - rewrite andb_true_iff, negb_true_iff, IH, NoDup_cons.
    assert (existsb (String.eqb k) ks = false <-> k ∉ ks) as ->; [|reflexivity].
    rewrite <- not_true_iff_false, existsb_exists.
    split; intros H.
    + intros Hin. apply H. exists k. split; [|apply String.eqb_refl].
      apply list_elem_of_In. exact Hin.
    + intros (x & Hx & E). apply String.eqb_eq in E. subst x.
      apply H. apply list_elem_of_In. exact Hx.
Qed.

Lemma obj_set_fresh k v acc :
  k ∉ List.map fst acc -> obj_set k v acc = acc ++ [(k, v)].
Proof.
  induction acc as [|[k' v'] acc IH]; simpl; intros H; [reflexivity |].
  destruct (String.eqb_spec k k') as [->|Hne].
  - exfalso. apply H. left.
  - rewrite IH; [reflexivity |]. intros Hin. apply H. right. exact Hin.
Qed.

Lemma plain_stringify v : plain v = true -> stringify v = Some (json_text v).
Proof.
  unfold json_text. destruct v as [| |[]| | | |]; simpl; try discriminate; reflexivity.
Qed.

Lemma text_array items :
  json_text (JArr items) = "[" +:+ join "," (List.map json_text items) +:+ "]".
Proof. reflexivity. Qed.

Lemma omap_members fields :
  forallb (fun kv => plain (snd kv)) fields = true ->
  omap (fun kv => match stringify (snd kv) with
                  | Some t => Some (quote (fst kv) +:+ ":" +:+ t)
                  | None => None
                  end) fields
  = List.map member_text fields.
Proof.
  induction fields as [|[k v] fields IH]; [reflexivity |].
  intros H. cbn [forallb snd] in H. apply andb_true_iff in H as [Hv Hrest].
  cbn [omap list_omap List.map fst snd]. rewrite (plain_stringify v Hv).
  fold (@omap list _ _ _
          (fun kv : string * jsval =>
             match stringify (snd kv) with
             | Some t => Some (quote (fst kv) +:+ ":" +:+ t)
             | None => None
             end) fields).
  rewrite (IH Hrest). reflexivity.
Qed.

Lemma text_object fields :
  forallb (fun kv => plain (snd kv)) fields = true ->
  json_text (JObj fields) = "{" +:+ join "," (List.map member_text fields) +:+ "}".
Proof.
  intros H. unfold json_text. cbn [stringify default].
  rewrite (omap_members fields H). reflexivity.
Qed.

Lemma plain_opens_value v : plain v = true -> opens_value (json_text v).
Proof.
  intros H. unfold opens_value.
  destruct v as [| |[]| |s|items|fields]; try discriminate.
  - exists "n"%char, "ull". split; [reflexivity | tauto].
  - exists "t"%char, "rue". split; [reflexivity | tauto].
  - exists "f"%char, "alse". split; [reflexivity | tauto].
  - exists dquote, (escape s +:+ q). split; [reflexivity | tauto].
  - eexists "["%char, _. rewrite text_array. split; [reflexivity | tauto].
  - simpl in H. apply andb_true_iff in H as [H _].
    eexists "{"%char, _. rewrite (text_object _ H). split; [reflexivity | tauto].
Qed.

Lemma opens_value_expect t rest c :
  opens_value t -> c = "]"%char \/ c = "}"%char \/ c = ","%char ->
  expect c (t +:+ rest) = None.
Proof.
  intros (a & t' & -> & Ha) Hc. rewrite append_cons. unfold expect.
  destruct Ha as [->|[->|[->|[->|[->| ->]]]]];
    destruct Hc as [->|[->| ->]]; reflexivity.
Qed.

Lemma expect_here c rest :
  is_ws c = false -> expect c (String c rest) = Some rest.
Proof.
  intros H. unfold expect. simpl. rewrite H, Ascii.eqb_refl. reflexivity.
Qed.

Lemma elements_read_back items :
  items <> [] ->
  Forall reads_back items ->
  forall acc f rest,
    list_sum (List.map (fun x => S (weight x)) items) <= f ->
    parse_elements f acc (join "," (List.map json_text items) +:+ "]" +:+ rest)
    = Parsed (JArr (acc ++ items)) rest.
Proof.
  induction items as [|x items IH]; [congruence |].
  intros _ Hall acc f rest Hf.
  apply Forall_cons in Hall as [Hx Hrest].
  destruct f as [|f]; [simpl in Hf; lia |].
  simpl in Hf. cbn [parse_elements].
  destruct items as [|y items].
  - cbn [List.map join]. rewrite (Hx f _ ltac:(lia)). reflexivity.
  - change (join "," (List.map json_text (x :: y :: items)))
      with (json_text x +:+ "," +:+ join "," (List.map json_text (y :: items))).
    rewrite !append_assoc. rewrite (Hx f _ ltac:(lia)).
    rewrite append_cons, append_nil_l, (expect_here "," _ eq_refl).
    rewrite (IH ltac:(discriminate) Hrest (acc ++ [x]) f rest ltac:(simpl in *; lia)).
    rewrite <- app_assoc. reflexivity.
Qed.

Lemma members_read_back fields :
  fields <> [] ->
  Forall (fun kv => reads_back (snd kv)) fields ->
  forall acc f rest,
    NoDup (List.map fst acc ++ List.map fst fields) ->
    list_sum (List.map (fun kv => S (weight (snd kv))) fields) <= f ->
    parse_members f acc (join "," (List.map member_text fields) +:+ "}" +:+ rest)
    = Parsed (JObj (acc ++ fields)) rest.
Proof.
  induction fields as [|[k v] fields IH]; [congruence |].
  intros _ Hall acc f rest Hnd Hf.
  apply Forall_cons in Hall as [Hv Hrest]. simpl in Hv.
  destruct f as [|f]; [simpl in Hf; lia |].
  simpl in Hf.
  assert (obj_set k v acc = acc ++ [(k, v)]) as Hset.
  { apply obj_set_fresh. simpl in Hnd. apply NoDup_app in Hnd as (_ & Hd & _).
    intros Hin. apply (Hd k Hin). left. }
  assert (forall tail, parse_members (S f) acc (member_text (k, v) +:+ tail)
            = match expect "," tail with
              | Some r4 => parse_members f (acc ++ [(k, v)]) r4
              | None => match expect "}" tail with
                        | Some r4 => Parsed (JObj (acc ++ [(k, v)])) r4
                        | None => Malformed
                        end
              end) as Hstep.
  { intros tail. cbn [parse_members]. unfold member_text, quote, q. cbn [fst snd].
    rewrite !append_assoc, append_cons, append_nil_l.
    rewrite (expect_here dquote _ eq_refl).
    rewrite append_cons, append_nil_l, parse_chars_escape.
    rewrite append_cons, append_nil_l, (expect_here ":" _ eq_refl).
    rewrite (Hv f _ ltac:(lia)), Hset. reflexivity. }
  destruct fields as [|kv fields].
  - cbn [List.map join]. rewrite Hstep.
    rewrite append_cons, append_nil_l. reflexivity.
  - change (join "," (List.map member_text ((k, v) :: kv :: fields)))
      with (member_text (k, v) +:+ "," +:+ join "," (List.map member_text (kv :: fields))).
    rewrite !append_assoc, Hstep.
    rewrite append_cons, append_nil_l, (expect_here "," _ eq_refl).
    rewrite (IH ltac:(discriminate) Hrest (acc ++ [(k, v)]) f rest).
    + rewrite <- app_assoc. reflexivity.
    + rewrite map_app, <- app_assoc. exact Hnd.
    + simpl in *. lia.
Qed.

Lemma plain_reads_back_bounded n :
  forall v, weight v <= n -> plain v = true -> reads_back v.
Proof.
  induction n as [|n IH]; intros v Hn Hp.
  { destruct v; simpl in Hn; lia. }
  intros f rest Hf.
  destruct v as [| |b| |s|items|fields]; try discriminate.
  - destruct f; [simpl in Hf; lia |]. reflexivity.
  - destruct f; [simpl in Hf; lia |]. destruct b; reflexivity.
  - destruct f; [simpl in Hf; lia |].
    change (json_text (JStr s)) with (q +:+ escape s +:+ q). unfold q.
    rewrite !append_assoc, append_cons, append_nil_l. cbn [parse_value skip_ws].
    change (is_ws dquote) with false. cbn iota.
    change (Ascii.eqb dquote "{") with false.
    change (Ascii.eqb dquote "[") with false.
    rewrite Ascii.eqb_refl. cbn iota.
    rewrite append_cons, append_nil_l, parse_chars_escape. reflexivity.
  - (* arrays *)
    simpl in Hp, Hn, Hf.
    destruct f as [|f]; [lia |].
    rewrite text_array, !append_assoc, append_cons, append_nil_l.
    cbn [parse_value skip_ws]. change (is_ws "[") with false. cbn iota.
    change (Ascii.eqb "[" "{") with false. rewrite Ascii.eqb_refl. cbn iota.
    destruct items as [|x items]; [reflexivity |].
    assert (Forall reads_back (x :: items)) as Hall.
    { apply Forall_forall. intros y Hy. apply IH.
      - apply list_elem_of_In, (in_map (fun x => S (weight x))), list_sum_In
          in Hy. lia.
      - rewrite forallb_forall in Hp. apply Hp, list_elem_of_In, Hy. }
    assert (opens_value (join "," (List.map json_text (x :: items)))) as Ho.
    { assert (opens_value (json_text x)) as (c & t' & E & Hc).
      { apply plain_opens_value. simpl in Hp. apply andb_true_iff in Hp. tauto. }
      destruct items; cbn [List.map join]; rewrite E, ?append_cons;
        eexists _, _; (split; [reflexivity | exact Hc]). }
    rewrite (opens_value_expect _ _ "]" Ho ltac:(tauto)).
    apply (elements_read_back (x :: items)); [discriminate | exact Hall | lia].
  - (* objects *)
    simpl in Hp, Hn, Hf. apply andb_true_iff in Hp as [Hp Hd].
    destruct f as [|f]; [lia |].
    rewrite (text_object _ Hp), !append_assoc, append_cons, append_nil_l.
    cbn [parse_value skip_ws]. change (is_ws "{") with false. cbn iota.
    rewrite Ascii.eqb_refl. cbn iota.
    destruct fields as [|kv fields]; [reflexivity |].
    assert (Forall (fun kv => reads_back (snd kv)) (kv :: fields)) as Hall.
    { apply Forall_forall. intros y Hy. apply IH.
      - apply list_elem_of_In, (in_map (fun kv => S (weight (snd kv)))),
          list_sum_In in Hy. lia.
      - rewrite forallb_forall in Hp. apply Hp, list_elem_of_In, Hy. }
    assert (opens_value (join "," (List.map member_text (kv :: fields)))) as Ho.
    { destruct fields; cbn [List.map join]; unfold member_text, quote, q;
        rewrite ?append_cons; eexists _, _; (split; [reflexivity | tauto]). }
    rewrite (opens_value_expect _ _ "}" Ho ltac:(tauto)).
    apply (members_read_back (kv :: fields)); [discriminate | exact Hall | | lia].
    apply distinct_NoDup. exact Hd.
Qed.

(** [JSON.parse(JSON.stringify(v))] is [v] again for a plain value. *)
Lemma parse_stringify v :
  plain v = true -> stringify v = Some (json_text v) /\ parse (json_text v) = Some v.
Proof.
  intros Hp. split; [apply plain_stringify, Hp |].
  apply (parse_with_fuel (weight v) _ v ""); [|reflexivity].
  rewrite <- (append_nil_r (json_text v)) at 1.
  apply (plain_reads_back_bounded (weight v)); [lia | exact Hp | lia].
Qed.

End RoundTrip.

(** A value that is [printable] is [convertible]. *)
Lemma printable_convertible v : printable v = true -> convertible v = true.
Proof.
  revert v. fix IH 1.
  intros [ | | b | m e | s | items | fields]; cbn [printable convertible];
    try reflexivity; [| trivial].
  induction items as [|x items IHitems]; [reflexivity |].
  cbn [forallb]. intros [Hx Hi]%andb_true_iff.
  rewrite (IH x Hx). exact (IHitems Hi).
Qed.

(** ** API.request, step by step *)

Section Request.

Variable net : Request -> FetchOutcome.

Lemma request_run endpoint options w :
  API.request net endpoint options w =
    let req := outgoing endpoint options (localStorage w) in
    match net req with
    | Rejects e =>
        (Throw e, world (localStorage w)
                    (trace w ++ [Fetch req; ConsoleError "API Error:" e]))
    | Responds r => settle r (localStorage w) (trace w ++ [Fetch req])
    end.
Proof.
  destruct w as [st tr].
  unfold API.request, outgoing, settle, failure, fetch, json, try_catch,
    storage_read, storage_write, navigate, console_error, emit, throw, lift,
    new_Error, convert, world, mbind, M_bind, mret, M_ret, JSON_parse.
  cbn [localStorage trace ToString].
  destruct (net _) as [r | e]; cbn [localStorage trace];
    [|rewrite <- app_assoc; reflexivity].
  destruct (status r =? 401)%Z; cbn [localStorage trace].
  { rewrite <- app_assoc. reflexivity. }
  destruct (parse (body_text r)) as [data|]; cbn [localStorage trace];
    [|rewrite <- !app_assoc; reflexivity].
  destruct (ok r); cbn [negb localStorage trace];
    [rewrite <- app_assoc; reflexivity |].
  destruct (get_prop data "detail") as [detail|e]; cbn [localStorage trace];
    [destruct (truthy detail); [destruct (convertible detail) |] |];
    cbn [convertible ToString localStorage trace]; rewrite <- !app_assoc;
    reflexivity.
Qed.
End Request.

Section RequestFacts.

Variable net : Request -> FetchOutcome.

Lemma requests_sent_app tr1 tr2 :
  requests_sent (tr1 ++ tr2) = requests_sent tr1 ++ requests_sent tr2.
Proof. unfold requests_sent. apply omap_app. Qed.

(** One call, one request. *)
Lemma request_sends_once endpoint options w :
  requests_sent (trace (snd (API.request net endpoint options w)))
  = requests_sent (trace w) ++ [outgoing endpoint options (localStorage w)].
Proof.
  rewrite request_run. cbv zeta.
  destruct (net _) as [r|e];
    [|cbn [snd world trace]; rewrite requests_sent_app; reflexivity].
  unfold settle.
  destruct (status r =? 401)%Z;
    [cbn [snd world trace]; rewrite <- app_assoc, requests_sent_app; reflexivity |].
  destruct (parse (body_text r)) as [data|];
    [destruct (ok r) |];
    cbn [snd world trace]; rewrite <- app_assoc, requests_sent_app; reflexivity.
Qed.

Lemma ok_not_401 r : ok r = true -> (status r =? 401)%Z = false.
Proof. unfold ok. lia. Qed.

Lemma request_success endpoint options w r data :
  net (outgoing endpoint options (localStorage w)) = Responds r ->
  ok r = true ->
  parse (body_text r) = Some data ->
  API.request net endpoint options w
  = (Return data,
     world (localStorage w)
       (trace w ++ [Fetch (outgoing endpoint options (localStorage w)); ReadBody])).
Proof.
  intros Hnet Hok Hp. rewrite request_run. cbv zeta. rewrite Hnet.
  unfold settle. rewrite (ok_not_401 r Hok), Hp, Hok, <- app_assoc. reflexivity.
Qed.

End RequestFacts.

Section Identity.

Implicit Types st : gmap string string.

(** The identity written is the identity read. *)
Lemma getUserData_setUserData d st :
  plain d = true ->
  TokenManager.getUserData (TokenManager.setUserData d st) = Return d.
Proof.
  intros Hp. destruct (parse_stringify d Hp) as [Hs Hparse].
  rewrite (getUserData_stored _ (json_text d)).
  - rewrite Hparse.
    destruct (plain_opens_value d Hp) as (c & t & -> & _). reflexivity.
  - rewrite setUserData_user. unfold JSON_stringify. rewrite Hs. reflexivity.
Qed.

(** What [login] and [signup] leave in the store. *)
Lemma persisted st T U R :
  T <> "" ->
  let st' := TokenManager.setUserData (identity U R)
               (TokenManager.setToken (JStr T) st) in
  TokenManager.isAuthenticated st' = true
  /\ TokenManager.getToken st' = JStr T
  /\ TokenManager.getUserData st' = Return (identity U R).
Proof.
  intros HT st'.
  assert (st' !! "bossup_token" = Some T) as Htok.
  { subst st'. rewrite setUserData_token. apply setToken_token. }
  split; [|split].
  - rewrite isAuthenticated_truthy. apply truthy_getItem. eauto.
  - unfold TokenManager.getToken, getItem. rewrite Htok. reflexivity.
  - apply getUserData_setUserData. reflexivity.
Qed.


End Identity.

(** * The claims *)

(** C1. For every call to [request], if the status of the response is 401
    then the session store is cleared (token and identity both removed),
    the page is sent to [/login.html] and the call returns [null]: the
    trace holds the request and the navigation only, so nothing is thrown
    or logged and the body is never read, whatever it is. *)
Theorem request_401_ends_session net endpoint options w r :
  net (outgoing endpoint options (localStorage w)) = Responds r ->
  status r = 401%Z ->
  API.request net endpoint options w
  = (Return JNull,
     world (TokenManager.clearAll (localStorage w))
       (trace w ++ [Fetch (outgoing endpoint options (localStorage w));
                    Navigate "/login.html"]))
  /\ TokenManager.clearAll (localStorage w) !! "bossup_token" = None
  /\ TokenManager.clearAll (localStorage w) !! "bossup_user" = None
  /\ TokenManager.isAuthenticated (TokenManager.clearAll (localStorage w)) = false.
Proof.
  intros Hnet Hst. rewrite request_run. cbv zeta. rewrite Hnet.
  unfold settle. rewrite Hst, Z.eqb_refl, <- app_assoc.
  repeat split.
  - apply clearAll_token.
  - apply clearAll_user.
  - apply isAuthenticated_no_token, clearAll_token.
Qed.

Lemma request_401_witness :
  answers expired (outgoing "/campaigns/my" no_options session_store)
  = Responds expired
  /\ status expired = 401%Z
  /\ API.request (answers expired) "/campaigns/my" no_options
       (world session_store [])
     = (Return JNull,
        world (TokenManager.clearAll session_store)
          ([] ++ [Fetch (outgoing "/campaigns/my" no_options session_store);
                  Navigate "/login.html"])).
Proof.
  split; [reflexivity | split; [reflexivity |]].
  apply (request_401_ends_session (answers expired) "/campaigns/my" no_options
           (world session_store []) expired); reflexivity.
Defined.



(** C3, amended. After [login] or [signup] returns a response whose
    [access_token] is a string [T] that is not empty, whose [user_id] is the
    string [U] and whose [role] is the string [R], the store has
    [isAuthenticated()] true, [getToken()] is [T] and [getUserData()] is
    [{user_id: U, role: R}]. *)
Theorem login_signup_persist net r response T U R
    (email password role country fullName : jsval) w :
  (forall req, net req = Responds r) ->
  ok r = true ->
  parse (body_text r) = Some response ->
  get_field response "access_token" = JStr T ->
  T <> "" ->
  get_field response "user_id" = JStr U ->
  get_field response "role" = JStr R ->
  forall call,
    call = API.login net email password
    \/ call = API.signup net email password role country fullName ->
    fst (call w) = Return response
    /\ TokenManager.isAuthenticated (localStorage (snd (call w))) = true
    /\ TokenManager.getToken (localStorage (snd (call w))) = JStr T
    /\ TokenManager.getUserData (localStorage (snd (call w)))
       = Return (identity U R).
Proof.
  intros Hnet Hok Hp HT Hne HU HR call Hcall.
  assert (exists fields, response = JObj fields) as [fields ->].
  { destruct response; try discriminate. eauto. }
  assert (exists tr,
             call w = (Return (JObj fields),
                       world (TokenManager.setUserData (identity U R)
                                (TokenManager.setToken (JStr T) (localStorage w)))
                             tr)) as [tr ->].
  { destruct Hcall as [-> | ->]; unfold API.login, API.signup;
      unfold mbind at 1; unfold M_bind at 1;
      erewrite request_success by (first [apply Hnet | exact Hok | exact Hp]);
      unfold storage_write, lift, mbind, M_bind, mret, M_ret;
      cbn [truthy get_prop localStorage trace world];
      rewrite HT, HU, HR; eexists; reflexivity. }
  cbn [fst snd world localStorage].
  split; [reflexivity |]. apply persisted. exact Hne.
Qed.

Lemma login_signup_persist_witness :
  let r := login_ok "tok-1" "u1" "ADMIN" in
  let response := login_response "tok-1" "u1" "ADMIN" in
  let w' := snd (API.login (answers r) (JStr "ada@example.com") (JStr "secret")
                   (world ∅ [])) in
  (forall req, answers r req = Responds r)
  /\ ok r = true
  /\ parse (body_text r) = Some response
  /\ get_field response "access_token" = JStr "tok-1"
  /\ "tok-1" <> ""
  /\ get_field response "user_id" = JStr "u1"
  /\ get_field response "role" = JStr "ADMIN"
  /\ TokenManager.isAuthenticated (localStorage w') = true
  /\ TokenManager.getToken (localStorage w') = JStr "tok-1"
  /\ TokenManager.getUserData (localStorage w') = Return (identity "u1" "ADMIN").
Proof.
  cbv zeta.
  split; [reflexivity | split; [reflexivity | split; [reflexivity |]]].
  split; [reflexivity | split; [discriminate |]].
  split; [reflexivity | split; [reflexivity |]].
  apply (login_signup_persist (answers (login_ok "tok-1" "u1" "ADMIN"))
           (login_ok "tok-1" "u1" "ADMIN") (login_response "tok-1" "u1" "ADMIN")
           "tok-1" "u1" "ADMIN" (JStr "ada@example.com") (JStr "secret")
           JNull JNull JNull (world ∅ []));
    try reflexivity; [discriminate | left; reflexivity].
Defined.

(** C3 as stated fails: a login that succeeds with an empty [access_token]
    returns the response and leaves [isAuthenticated()] false. *)
Lemma empty_access_token_not_authenticated :
  let r := login_ok "" "u1" "INVESTOR" in
  let out := API.login (answers r) (JStr "ada@example.com") (JStr "secret")
               (world ∅ []) in
  parse (body_text r) = Some (login_response "" "u1" "INVESTOR")
  /\ fst out = Return (login_response "" "u1" "INVESTOR")
  /\ TokenManager.getToken (localStorage (snd out)) = JStr ""
  /\ TokenManager.isAuthenticated (localStorage (snd out)) = false.
Proof. repeat split; vm_compute; reflexivity. Qed.

(** C4, amended. For a response whose status is not 401: a body that is
    not JSON makes [request] throw the SyntaxError of [response.json()];
    with a status in 200..299 [request] returns the parsed body; with any
    other status and a body that is a JSON object it throws an [Error]
    whose message is the body's [detail] when that is a string that is not
    empty, ["Request failed"] when the body has no [detail], and in general
    the string form of [detail] when it is truthy and ["Request failed"]
    when it is falsy (empty string, [null], [false], zero), for a [detail]
    whose numbers the browser holds exactly and whose conversion to a
    string returns. A truthy [detail] whose conversion throws (an object
    with a [toString] member, or an array that holds one) makes [request]
    throw that TypeError. A body that is JSON [null] gives the TypeError
    of reading [null.detail]; a body that is a boolean, a number, a
    string or an array has no [detail] and gives ["Request failed"]. *)
Theorem request_outcome net endpoint options w r :
  net (outgoing endpoint options (localStorage w)) = Responds r ->
  status r <> 401%Z ->
  let result := fst (API.request net endpoint options w) in
  (parse (body_text r) = None -> result = Throw SyntaxError)
  /\ (forall data, parse (body_text r) = Some data -> ok r = true ->
        result = Return data)
  /\ (forall fields, parse (body_text r) = Some (JObj fields) -> ok r = false ->
        (forall s, assoc "detail" fields = Some (JStr s) -> s <> "" ->
           result = Throw (Error s))
        /\ (assoc "detail" fields = None -> result = Throw (Error "Request failed"))
        /\ (forall d, assoc "detail" fields = Some d -> printable d = true ->
              result = Throw (Error (if truthy d then ToString d
                                     else "Request failed")))
        /\ (forall d, assoc "detail" fields = Some d -> truthy d = false ->
              result = Throw (Error "Request failed"))
        /\ (forall d, assoc "detail" fields = Some d -> truthy d = true ->
              convertible d = false -> result = Throw TypeError))
  /\ (parse (body_text r) = Some JNull -> ok r = false ->
        result = Throw TypeError)
  /\ (forall data, parse (body_text r) = Some data -> ok r = false ->
        match data with
        | JBool _ | JNum _ _ | JStr _ | JArr _ =>
            result = Throw (Error "Request failed")
        | _ => True
        end).
Proof.
  intros Hnet Hst result. subst result.
  rewrite request_run. cbv zeta. rewrite Hnet. unfold settle, failure.
  destruct (Z.eqb_spec (status r) 401) as [E|_]; [contradiction |].
  split; [|split; [|split; [|split]]].
  - intros ->. reflexivity.
  - intros data -> ->. reflexivity.
  - intros fields -> ->. cbn [fst get_prop get_field]. repeat split.
    + intros s -> Hs. cbn [default]. destruct s; [congruence | reflexivity].
    + intros ->. reflexivity.
    + intros d -> Hd. cbn [default]. unfold id.
      rewrite (printable_convertible _ Hd). destruct (truthy d); reflexivity.
    + intros d -> Hd. cbn [default]. unfold id. rewrite Hd. reflexivity.
    + intros d -> Hd Hc. cbn [default]. unfold id. rewrite Hd, Hc. reflexivity.
  - intros -> ->. reflexivity.
  - intros data -> ->. cbn [fst]. destruct data; first [exact I | reflexivity].
Qed.

Lemma request_outcome_witness :
  answers not_found (outgoing "/campaigns/42" no_options ∅) = Responds not_found
  /\ status not_found <> 401%Z
  /\ fst (API.request (answers not_found) "/campaigns/42" no_options (world ∅ []))
     = Throw (Error "Campaign not found").
Proof.
  split; [reflexivity | split; [discriminate |]].
  destruct (request_outcome (answers not_found) "/campaigns/42" no_options
              (world ∅ []) not_found eq_refl ltac:(discriminate))
    as (_ & _ & H & _).
  destruct (H [("detail", JStr "Campaign not found")] eq_refl eq_refl) as (H1 & _).
  apply H1; [reflexivity | discriminate].
Defined.

(** C4 as stated fails: a 400 whose body has [detail] present and equal to
    the empty string is thrown as ["Request failed"], and a 422 whose
    [detail] is a list of validation errors is thrown as
    ["[object Object]"]; neither message is the [detail] field. *)
Lemma falsy_or_structured_detail :
  parse (body_text empty_detail) = Some (JObj [("detail", JStr "")])
  /\ fst (API.request (answers empty_detail) "/payments/initiate" no_options
            (world ∅ []))
     = Throw (Error "Request failed")
  /\ parse (body_text validation_errors)
     = Some (JObj [("detail", JArr [JObj [("msg", JStr "field required")]])])
  /\ fst (API.request (answers validation_errors) "/payments/initiate" no_options
            (world ∅ []))
     = Throw (Error "[object Object]").
Proof. repeat split; vm_compute; reflexivity. Qed.

(** C5, amended. Every call to [request] sends one request. Its
    [Content-Type] is [application/json] unless the caller's headers give a
    [Content-Type] of their own, which is then the one sent. Its
    [Authorization] is [Bearer <token>], in place of any the caller gave,
    exactly when a token that is not empty is stored; with no token or an
    empty one the client adds none and the header is the caller's, if any.
    Every other header is the caller's. *)
Theorem request_headers net endpoint options w :
  let st := localStorage w in
  let caller : gmap string string := default ∅ (opt_headers options) in
  let req := outgoing endpoint options st in
  requests_sent (trace (snd (API.request net endpoint options w)))
  = requests_sent (trace w) ++ [req]
  /\ headers req !! "Content-Type"
     = Some (default "application/json" (caller !! "Content-Type"))
  /\ (forall t, st !! "bossup_token" = Some t -> t <> "" ->
        headers req !! "Authorization" = Some ("Bearer " +:+ t))
  /\ (st !! "bossup_token" = None \/ st !! "bossup_token" = Some "" ->
        headers req !! "Authorization" = caller !! "Authorization")
  /\ (forall k, k <> "Content-Type" -> k <> "Authorization" ->
        headers req !! k = caller !! k).
Proof.
  intros st caller req.
  assert (forall k, spread {[ "Content-Type" := "application/json" ]} caller !! k
                    = match caller !! k with
                      | Some v => Some v
                      | None => if decide (k = "Content-Type")
                                then Some "application/json" else None
                      end) as Hspread.
  { intros k. unfold spread. rewrite lookup_union.
    destruct (caller !! k) as [v|] eqn:E; simpl.
    - destruct ({[ "Content-Type" := "application/json" ]} !! k); reflexivity.
    - rewrite lookup_singleton. destruct (decide ("Content-Type" = k)) as [<-|Hne].
      + rewrite decide_True by reflexivity. reflexivity.
      + rewrite decide_False by congruence. reflexivity. }
  split; [apply request_sends_once |].
  subst req. unfold outgoing. cbn [headers]. fold caller.
  unfold TokenManager.getToken, getItem. fold st.
  split; [|split; [|split]].
  - destruct (st !! "bossup_token") as [[|c t]|]; cbn [truthy];
      rewrite ?lookup_insert_ne by discriminate; rewrite Hspread;
      destruct (caller !! "Content-Type"); reflexivity.
  - intros t Ht Hne. rewrite Ht. destruct t as [|c t]; [congruence |].
    cbn [truthy ToString]. apply lookup_insert_eq.
  - intros [Ht|Ht]; rewrite Ht; cbn [truthy]; rewrite Hspread;
      destruct (caller !! "Authorization"); reflexivity.
  - intros k Hct Hau.
    destruct (st !! "bossup_token") as [[|c t]|]; cbn [truthy];
      rewrite ?lookup_insert_ne by congruence; rewrite Hspread;
      destruct (caller !! k); try reflexivity;
      rewrite decide_False by assumption; reflexivity.
Qed.

(** C5 as stated fails: a caller that passes [Content-Type: text/plain]
    has that header sent, not [application/json]; and with the empty string
    stored as the token the request carries no [Authorization]. *)
Lemma caller_content_type_wins :
  (exists req,
      requests_sent
        (trace (snd (API.request (answers ok_empty) "/upload" plain_text_options
                       (world ∅ []))))
      = [req]
      /\ headers req !! "Content-Type" = Some "text/plain"
      /\ headers req !! "Content-Type" <> Some "application/json")
  /\ (exists req,
        requests_sent
          (trace (snd (API.request (answers ok_empty) "/auth/me" no_options
                         (world (TokenManager.setToken (JStr "") ∅) []))))
        = [req]
        /\ TokenManager.setToken (JStr "") ∅ !! "bossup_token" = Some ""
        /\ headers req !! "Authorization" = None).
Proof.
  split; eexists; (split; [rewrite request_sends_once; reflexivity |]).
  - split; [reflexivity | vm_compute; discriminate].
  - split; reflexivity.
Qed.

(** C6. After any sequence of store operations, [setToken] and
    [setUserData] among them, one [clearAll()] leaves a store in which both
    keys are gone, [isAuthenticated()] is false and [getUserData()] is
    [null]. *)
Theorem clearAll_after_writes ops (st : gmap string string) :
  let st' := TokenManager.clearAll (run_ops ops st) in
  st' !! "bossup_token" = None
  /\ st' !! "bossup_user" = None
  /\ TokenManager.isAuthenticated st' = false
  /\ TokenManager.getUserData st' = Return JNull.
Proof.
  intros st'. subst st'.
  split; [apply clearAll_token |].
  split; [apply clearAll_user |].
  split.
  - apply isAuthenticated_no_token, clearAll_token.
  - apply getUserData_no_value, clearAll_user.
Qed.

(** C7, amended. [isAuthenticated()] is true if and only if a token that
    is not the empty string is stored. It reads the token key alone, and
    any two tokens that are not empty give the same answer: nothing of
    their contents, validity or expiry is looked at. *)
Theorem isAuthenticated_nonempty_token (st : gmap string string) :
  (TokenManager.isAuthenticated st = true
   <-> exists t, st !! "bossup_token" = Some t /\ t <> "")
  /\ (forall st' : gmap string string,
        st' !! "bossup_token" = st !! "bossup_token" ->
        TokenManager.isAuthenticated st' = TokenManager.isAuthenticated st)
  /\ (forall t1 t2, t1 <> "" -> t2 <> "" ->
        TokenManager.isAuthenticated (TokenManager.setToken (JStr t1) st) = true
        /\ TokenManager.isAuthenticated (TokenManager.setToken (JStr t2) st) = true).
Proof.
  assert (forall s : gmap string string,
            TokenManager.isAuthenticated s = true
            <-> exists t, s !! "bossup_token" = Some t /\ t <> "") as Hiff.
  { intros s. rewrite isAuthenticated_truthy. apply truthy_getItem. }
  split; [apply Hiff | split].
  - intros st' Heq. rewrite !isAuthenticated_truthy.
    unfold TokenManager.getToken, getItem. rewrite Heq. reflexivity.
  - intros t1 t2 H1 H2. split; apply Hiff; eexists;
      (split; [apply setToken_token | assumption]).
Qed.

(** C7 as stated fails: after [setToken('')] a token is stored, and
    [isAuthenticated()] is false. *)
Lemma empty_token_not_authenticated :
  let st : gmap string string := TokenManager.setToken (JStr "") ∅ in
  st !! "bossup_token" = Some ""
  /\ TokenManager.getToken st = JStr ""
  /\ TokenManager.isAuthenticated st = false.
Proof. repeat split. Qed.

(** C8. [clearAll()] twice in a row leaves the store that [clearAll()]
    once leaves. *)
Theorem clearAll_idempotent (st : gmap string string) :
  TokenManager.clearAll (TokenManager.clearAll st) = TokenManager.clearAll st.
Proof.
  apply map_eq. intros k.
  destruct (decide (k = "bossup_token")) as [->|Ht].
  { rewrite !clearAll_token. reflexivity. }
  destruct (decide (k = "bossup_user")) as [->|Hu].
  { rewrite !clearAll_user. reflexivity. }
  rewrite !clearAll_other by assumption. reflexivity.
Qed.




(** C10, amended. [getUserData()] returns [null] exactly when no value is
    stored, when the stored value is the empty string, or when the stored
    value is the JSON text of [null]. It returns the decoded value for
    every stored value that is valid JSON, and it throws a SyntaxError for
    every stored value that is neither empty nor valid JSON, such as the
    one [setUserData(undefined)] writes. *)
Theorem getUserData_cases (st : gmap string string) :
  (st !! "bossup_user" = None -> TokenManager.getUserData st = Return JNull)
  /\ (st !! "bossup_user" = Some "" -> TokenManager.getUserData st = Return JNull)
  /\ (forall s v, st !! "bossup_user" = Some s -> parse s = Some v ->
        TokenManager.getUserData st = Return v)
  /\ (forall s, st !! "bossup_user" = Some s -> s <> "" -> parse s = None ->
        TokenManager.getUserData st = Throw SyntaxError)
  /\ (TokenManager.getUserData st = Return JNull
      <-> st !! "bossup_user" = None
          \/ st !! "bossup_user" = Some ""
          \/ exists s, st !! "bossup_user" = Some s /\ parse s = Some JNull)
  /\ (parse "undefined" = None
      /\ TokenManager.getUserData (TokenManager.setUserData JUndefined st)
         = Throw SyntaxError).
Proof.
  split; [apply getUserData_no_value |].
  split; [intros H; rewrite (getUserData_stored st "" H); reflexivity |].
  split; [|split; [|split]].
  - intros s v H Hv. rewrite (getUserData_stored st s H), Hv.
    destruct s; [discriminate | reflexivity].
  - intros s H Hs Hv. rewrite (getUserData_stored st s H), Hv.
    destruct s; [congruence | reflexivity].
  - split.
    + destruct (st !! "bossup_user") as [s|] eqn:E; [|tauto].
      rewrite (getUserData_stored st s E).
      destruct s as [|c s]; [tauto |].
      destruct (parse (String c s)) as [v|] eqn:Ev; [|discriminate].
      intros [= ->]. right. right. eauto.
    + intros [H|[H|(s & H & Hv)]].
      * apply getUserData_no_value, H.
      * rewrite (getUserData_stored st "" H). reflexivity.
      * rewrite (getUserData_stored st s H), Hv. destruct s; reflexivity.
  - split; [reflexivity |].
    rewrite (getUserData_stored _ "undefined"); [reflexivity |].
    apply setUserData_user.
Qed.

(** C10 as stated fails: with the empty string stored, a value is stored,
    it is not valid JSON, and [getUserData()] returns [null]. *)
Lemma empty_identity_reads_absent :
  let st : gmap string string := {[ "bossup_user" := "" ]} in
  st !! "bossup_user" = Some ""
  /\ parse "" = None
  /\ TokenManager.getUserData st = Return JNull.
Proof. repeat split. Qed.

(** * Further properties of the client *)

(** X1. [logout()] clears the store and sends the page to [/login.html];
    afterwards [isAuthenticated()] is false and [getUserData()] is
    [null]. *)
Theorem logout_ends_session w :
  API.logout w
  = (Return tt,
     world (TokenManager.clearAll (localStorage w))
       (trace w ++ [Navigate "/login.html"]))
  /\ navigations (trace (snd (API.logout w)))
     = navigations (trace w) ++ ["/login.html"]
  /\ TokenManager.isAuthenticated (localStorage (snd (API.logout w))) = false
  /\ TokenManager.getUserData (localStorage (snd (API.logout w))) = Return JNull.
Proof.
  destruct w as [st tr].
  unfold API.logout, storage_write, navigate, emit, mbind, M_bind.
  cbn [localStorage trace snd].
  split; [reflexivity |].
  split; [unfold navigations; rewrite omap_app; reflexivity |].
  split.
  - apply isAuthenticated_no_token, clearAll_token.
  - apply getUserData_no_value, clearAll_user.
Qed.

(** X2. When [fetch] rejects, [request] logs the error under the label
    [API Error:] and throws it again unchanged; the store is left as it
    was and no page navigation happens. *)
Theorem request_transport_failure net endpoint options w e :
  net (outgoing endpoint options (localStorage w)) = Rejects e ->
  API.request net endpoint options w
  = (Throw e,
     world (localStorage w)
       (trace w ++ [Fetch (outgoing endpoint options (localStorage w));
                    ConsoleError "API Error:" e])).
Proof.
  intros Hnet. rewrite request_run. cbv zeta. rewrite Hnet. reflexivity.
Qed.

Lemma request_transport_failure_witness :
  let net := fun _ : Request => Rejects (NetworkFailure "Failed to fetch") in
  net (outgoing "/campaigns" no_options session_store)
  = Rejects (NetworkFailure "Failed to fetch")
  /\ fst (API.request net "/campaigns" no_options (world session_store []))
     = Throw (NetworkFailure "Failed to fetch")
  /\ localStorage
       (snd (API.request net "/campaigns" no_options (world session_store [])))
     = session_store.
Proof.
  cbv zeta. split; [reflexivity |].
  rewrite (request_transport_failure
             (fun _ : Request => Rejects (NetworkFailure "Failed to fetch"))
             "/campaigns" no_options (world session_store [])
             (NetworkFailure "Failed to fetch") eq_refl).
  split; reflexivity.
Defined.

(** X3. A [login] or [signup] answered with 401 returns [null] and keeps
    nothing: the store is cleared and stays unauthenticated. *)
Theorem login_signup_unauthorized net r
    (email password role country fullName : jsval) w :
  (forall req, net req = Responds r) ->
  status r = 401%Z ->
  forall call,
    call = API.login net email password
    \/ call = API.signup net email password role country fullName ->
    fst (call w) = Return JNull
    /\ localStorage (snd (call w)) = TokenManager.clearAll (localStorage w)
    /\ TokenManager.isAuthenticated (localStorage (snd (call w))) = false
    /\ navigations (trace (snd (call w))) = navigations (trace w) ++ ["/login.html"].
Proof.
  intros Hnet Hst call Hcall.
  assert (exists req,
             call w = (Return JNull,
                       world (TokenManager.clearAll (localStorage w))
                         (trace w ++ [Fetch req; Navigate "/login.html"])))
    as [req ->].
  { destruct Hcall as [-> | ->]; unfold API.login, API.signup;
      unfold mbind at 1; unfold M_bind at 1;
      rewrite request_run; cbv zeta; rewrite Hnet; unfold settle;
      rewrite Hst, Z.eqb_refl, <- app_assoc; eexists; reflexivity. }
  cbn [fst snd world localStorage trace].
  split; [reflexivity | split; [reflexivity | split]].
  - apply isAuthenticated_no_token, clearAll_token.
  - unfold navigations. rewrite omap_app. reflexivity.
Qed.

Lemma login_signup_unauthorized_witness :
  (forall req, answers expired req = Responds expired)
  /\ status expired = 401%Z
  /\ fst (API.login (answers expired) (JStr "ada@example.com") (JStr "wrong")
            (world session_store []))
     = Return JNull
  /\ TokenManager.isAuthenticated
       (localStorage
          (snd (API.login (answers expired) (JStr "ada@example.com") (JStr "wrong")
                  (world session_store []))))
     = false.
Proof.
  split; [reflexivity | split; [reflexivity |]].
  destruct (login_signup_unauthorized (answers expired) expired
              (JStr "ada@example.com") (JStr "wrong") JNull JNull JNull
              (world session_store []) (fun _ => eq_refl) eq_refl
              (API.login (answers expired) (JStr "ada@example.com") (JStr "wrong"))
              (or_introl eq_refl))
    as (H1 & _ & H3 & _).
  split; [exact H1 | exact H3].
Defined.

(** * The operations, the query strings and the pages *)

(** ** URLSearchParams: what is written is what is read *)

Section FormEncoding.

Import URLSearchParams.













End FormEncoding.

Section Operations.

Variable net : Request -> FetchOutcome.

(** Rewrite with what is known of the truthiness and of the string form
    of the values in the goal. *)
Ltac settled :=
  repeat match goal with
         | E : truthy ?v = _ |- context [truthy ?v] => rewrite E
         | E : convertible ?v = _ |- context [convertible ?v] => rewrite E
         end.

Lemma get_prop_truthy response k :
  truthy response = true -> get_prop response k = Return (get_field response k).
Proof. destruct response; try discriminate; reflexivity. Qed.

Lemma keep_truthy response w :
  truthy response = true ->
  convertible (get_field response "access_token") = true ->
  keep response w
  = (Return tt,
     world (TokenManager.setUserData
              (JObj [("user_id", get_field response "user_id");
                     ("role", get_field response "role")])
              (TokenManager.setToken (get_field response "access_token")
                 (localStorage w)))
       (trace w)).
Proof.
  intros H Hc. unfold keep. rewrite H.
  unfold TokenManager.setToken_call, lift, storage_write, mbind, M_bind.
  rewrite !(get_prop_truthy _ _ H), Hc.
  cbn [localStorage trace]. reflexivity.
Qed.

Lemma keep_throws response w :
  truthy response = true ->
  convertible (get_field response "access_token") = false ->
  keep response w = (Throw TypeError, w).
Proof.
  intros H Hc. unfold keep. rewrite H.
  unfold TokenManager.setToken_call, lift, throw, mbind, M_bind.
  rewrite !(get_prop_truthy _ _ H), Hc. reflexivity.
Qed.

Lemma keep_falsy v : truthy v = false -> keep v = mret tt.
Proof. intros H. unfold keep. rewrite H. reflexivity. Qed.

(** [keep] writes nothing on the trace. *)
Lemma keep_trace v w : trace (snd (keep v w)) = trace w.
Proof.
  destruct (truthy v) eqn:E.
  - destruct (convertible (get_field v "access_token")) eqn:Hc.
    + rewrite (keep_truthy v w E Hc). reflexivity.
    + rewrite (keep_throws v w E Hc). reflexivity.
  - rewrite (keep_falsy v E). reflexivity.
Qed.

Lemma append_filter_run name filters params w :
  filters <> JNull -> filters <> JUndefined ->
  Endpoints.append_filter name filters params w
  = (let value := get_field filters name in
     if truthy value then
       if convertible value then Return (params ++ [(name, ToString value)])
       else Throw TypeError
     else Return params, w).
Proof.
  intros H1 H2.
  unfold Endpoints.append_filter, URLSearchParams.append, convert, lift, mbind,
    M_bind, mret, M_ret.
  cbv zeta.
  assert (get_prop filters name = Return (get_field filters name)) as ->
    by (destruct filters; try congruence; reflexivity).
  destruct (truthy (get_field filters name)); [|reflexivity].
  destruct (convertible (get_field filters name)); reflexivity.
Qed.

Lemma or_default_object filters :
  filters <> JNull ->
  Endpoints.or_default (JObj []) filters <> JNull
  /\ Endpoints.or_default (JObj []) filters <> JUndefined
  /\ forall k, get_field (Endpoints.or_default (JObj []) filters) k = get_field filters k.
Proof. intros H. destruct filters; repeat split; try congruence; discriminate. Qed.

Lemma appended_kept names filters params :
  appended names filters params = params ++ kept_filters names filters.
Proof.
  revert params. induction names as [|name names IH]; intros params.
  - symmetry. apply app_nil_r.
  - cbn [appended]. cbv zeta. rewrite IH. unfold kept_filters.
    cbn [omap list_omap]. fold (omap (fun name =>
          let value := get_field filters name in
          if truthy value then Some (name, ToString value) else None) names).
    destruct (truthy (get_field filters name)); [|reflexivity].
    rewrite <- app_assoc. reflexivity.
Qed.

(** What the code after [request] in [login] and [signup] does. *)
Lemma persist_after_request op endpoint options w :
  persists op = true ->
  follows op
    ((response ← API.request net endpoint options; keep response;; mret response) w)
    (API.request net endpoint options w).
Proof.
  intros Hp. unfold follows, mbind, M_bind, mret, M_ret.
  destruct (API.request net endpoint options w) as [[v|e] w1]; cbn [fst snd].
  - destruct (truthy v) eqn:Hv.
    + destruct (convertible (get_field v "access_token")) eqn:Hc.
      * rewrite (keep_truthy v w1 Hv Hc). cbn [fst snd world trace localStorage].
        split; [reflexivity | split; [congruence |]].
        split; [intros v' [= <-]; congruence | split; [discriminate |]].
        intros v' _ [= <-] _. rewrite Hc. split; reflexivity.
      * rewrite (keep_throws v w1 Hv Hc). cbn [fst snd].
        split; [reflexivity | split; [congruence |]].
        split; [intros v' [= <-]; congruence | split; [discriminate |]].
        intros v' _ [= <-] _. rewrite Hc. reflexivity.
    + rewrite (keep_falsy v Hv). unfold mret, M_ret. cbn [fst snd].
      split; [reflexivity | split; [congruence |]].
      split; [reflexivity | split; [discriminate |]].
      intros v' _ [= <-]. congruence.
  - split; [reflexivity | split; [congruence |]].
    split; [discriminate | split; [reflexivity | discriminate]].
Qed.

Lemma filter_throws_object names filters :
  filter_throws names filters = false ->
  filters <> JNull
  /\ forallb (fun name => negb (truthy (get_field filters name))
                          || convertible (get_field filters name)) names = true.
Proof.
  intros H. split; [intros ->; discriminate |].
  assert (existsb (fun name => truthy (get_field filters name)
                               && inconvertible (get_field filters name)) names
          = false) as H'.
  { destruct filters; first [exact H | discriminate]. }
  clear H. induction names as [|name names IH]; [reflexivity |].
  cbn [existsb forallb] in *. apply orb_false_iff in H' as [Hn Hr].
  rewrite (IH Hr), andb_true_r. unfold inconvertible in Hn.
  destruct (truthy _), (convertible _); first [reflexivity | discriminate].
Qed.

(** A listing whose filters do not throw asks for its path with the kept
    filters as the query. *)
Lemma listing_request op base names filters :
  listing op = Some (base, names, filters) ->
  filter_throws names filters = false ->
  forall w,
    perform net op w
    = API.request net
        (Endpoints.with_query base
           (URLSearchParams.toString (kept_filters names filters)))
        no_options w.
Proof.
  intros Hl Ht w.
  destruct (filter_throws_object names filters Ht) as [Hf Hc].
  destruct (or_default_object filters Hf) as (H1 & H2 & Hget).
  rewrite <- (app_nil_l (kept_filters names filters)), <- appended_kept.
  destruct op; try discriminate; injection Hl as <- <- <-; cbn [perform];
    unfold Endpoints.getCampaigns, Endpoints.getUsers, Endpoints.getAuditLogs;
    unfold mbind, M_bind; cbv zeta;
    cbn [forallb] in Hc; cbn [appended]; cbv zeta;
    repeat match goal with
           | H : _ && _ = true |- _ => apply andb_true_iff in H as [? H]
           end;
    repeat match goal with
           | H : negb (truthy ?v) || convertible ?v = true |- _ =>
               destruct (truthy v) eqn:?; cbn [negb orb] in H; [| clear H]
           end;
    repeat (rewrite (append_filter_run _ _ _ _ H1 H2); cbv zeta; rewrite !Hget;
            settled; cbv iota beta);
    reflexivity.
Qed.

(** A listing whose filters throw sends nothing. *)
Lemma listing_throws op base names filters w :
  listing op = Some (base, names, filters) ->
  filter_throws names filters = true ->
  perform net op w = (Throw TypeError, w).
Proof.
  intros Hl Ht.
  assert (filters = JNull \/ filters <> JNull) as [->|Hf]
    by (destruct filters; first [left; reflexivity | right; discriminate]).
  { destruct op; try discriminate; injection Hl as <- <- ->; reflexivity. }
  destruct (or_default_object filters Hf) as (H1 & H2 & Hget).
  assert (existsb (fun name => truthy (get_field filters name)
                               && inconvertible (get_field filters name)) names
          = true) as H'.
  { destruct filters; first [exact Ht | congruence]. }
  clear Ht. unfold inconvertible in H'.
  destruct op; try discriminate; injection Hl as <- <- <-; cbn [perform];
    unfold Endpoints.getCampaigns, Endpoints.getUsers, Endpoints.getAuditLogs;
    unfold mbind, M_bind; cbv zeta;
    cbn [existsb] in H';
    repeat (rewrite (append_filter_run _ _ _ _ H1 H2); cbv zeta; rewrite !Hget;
            match goal with
            | |- context [truthy ?v] =>
                destruct (truthy v); cbn [andb orb] in H';
                [destruct (convertible v); cbn [negb orb] in H';
                 [| reflexivity] |]; cbv iota beta
            end);
    discriminate.
Qed.

Lemma throws_early_throw op w :
  throws_early op = true -> perform net op w = (Throw TypeError, w).
Proof.
  intros H.
  destruct op; try discriminate; cbn [throws_early] in H;
    try (eapply listing_throws; [reflexivity | exact H]);
    cbn [perform];
    unfold Endpoints.getCampaign, Endpoints.updateCampaign,
      Endpoints.getTransaction, Endpoints.getAllCampaigns,
      Endpoints.approveCampaign, Endpoints.rejectCampaign,
      Endpoints.updateUserKYC, convert, lift, mbind, M_bind, inconvertible in *;
    cbv zeta.
  all: try (apply negb_true_iff in H; rewrite H; reflexivity).
  (* getAllCampaigns *)
  apply andb_true_iff in H as [Ht Hc]. apply negb_true_iff in Hc.
  match type of Ht with
  | truthy ?s = true =>
      assert (Endpoints.or_default JNull s = s) as ->
        by (destruct s; first [reflexivity | discriminate])
  end.
  rewrite Ht, Hc. reflexivity.
Qed.

(** Every operation that does not throw early is one call of [request]. *)
Lemma perform_request op :
  throws_early op = false ->
  exists endpoint options,
    shaped op options
    /\ forall w, follows op (perform net op w) (API.request net endpoint options w).
Proof.
  intros Hearly.
  assert (forall endpoint options,
             persists op = false ->
             shaped op options ->
             (forall w, perform net op w = API.request net endpoint options w) ->
             exists endpoint options,
               shaped op options
               /\ forall w, follows op (perform net op w)
                              (API.request net endpoint options w)) as Hsame.
  { intros endpoint options Hp Hh Hw. exists endpoint, options. split; [exact Hh |].
    intros w. rewrite Hw. unfold follows.
    repeat split; try reflexivity. intros v Hp'. congruence. }
  destruct op; cbn [perform]; cbn [throws_early] in Hearly;
    try (eapply Hsame; [reflexivity | | intros w; reflexivity];
         (split; [reflexivity | split; [reflexivity | discriminate || reflexivity]])).
  all: try (eexists _, _; split;
            [|intros w; apply persist_after_request; reflexivity];
            split; [reflexivity | split; [reflexivity | discriminate]]).
  all: try (eapply Hsame;
            [reflexivity | | intros w; eapply listing_request;
                             [reflexivity | exact Hearly]];
            split; [reflexivity | split; reflexivity]).
  all: unfold inconvertible in Hearly.
  all: try (apply negb_false_iff in Hearly;
            eapply Hsame;
            [reflexivity | |
             intros w; cbn [perform];
             unfold Endpoints.getCampaign, Endpoints.updateCampaign,
               Endpoints.getTransaction, Endpoints.approveCampaign,
               Endpoints.rejectCampaign, Endpoints.updateUserKYC, convert, lift,
               mbind, M_bind;
             rewrite Hearly; reflexivity];
            split; [reflexivity | split; [reflexivity | discriminate || reflexivity]]).
  (* getAllCampaigns *)
  match type of Hearly with
  | truthy ?s && _ = false =>
      eapply (Hsame ("/admin/campaigns/all"
                     +:+ (if truthy s then "?status=" +:+ ToString s else ""))
                no_options);
        [reflexivity | split; [reflexivity | split; reflexivity] |];
        intros w; cbn [perform];
        unfold Endpoints.getAllCampaigns, convert, lift, mbind, M_bind, mret, M_ret;
        cbv zeta;
        assert (truthy (Endpoints.or_default JNull s) = truthy s) as ->
          by (destruct s; reflexivity);
        destruct (truthy s) eqn:Ht; [|reflexivity];
        assert (Endpoints.or_default JNull s = s) as ->
          by (destruct s; first [reflexivity | discriminate]);
        cbn [andb] in Hearly; apply negb_false_iff in Hearly;
        rewrite Hearly; reflexivity
  end.
Qed.

End Operations.

Section OperationFacts.

Variable net : Request -> FetchOutcome.

Lemma outgoing_own_headers endpoint options (st : gmap string string) :
  opt_headers options = None ->
  url (outgoing endpoint options st) = API_BASE_URL +:+ endpoint
  /\ headers (outgoing endpoint options st) !! "Content-Type"
     = Some "application/json"
  /\ headers (outgoing endpoint options st) !! "Authorization"
     = (if TokenManager.isAuthenticated st
        then Some ("Bearer " +:+ ToString (TokenManager.getToken st))
        else None)
  /\ forall k, k <> "Content-Type" -> k <> "Authorization" ->
       headers (outgoing endpoint options st) !! k = None.
Proof.
  intros Hh. unfold outgoing. cbn [url headers]. rewrite Hh. cbn [default].
  rewrite isAuthenticated_truthy.
  assert (spread {[ "Content-Type" := "application/json" ]} (∅ : gmap string string)
          = {[ "Content-Type" := "application/json" ]}) as ->.
  { unfold spread. apply (left_id_L ∅ (∪)). }
  split; [reflexivity |].
  destruct (truthy (TokenManager.getToken st)).
  - split; [rewrite lookup_insert_ne by discriminate; apply lookup_singleton_eq |].
    split; [apply lookup_insert_eq |].
    intros k H1 H2. rewrite lookup_insert_ne by congruence.
    apply lookup_singleton_ne. congruence.
  - split; [apply lookup_singleton_eq |].
    split; [apply lookup_singleton_ne; discriminate |].
    intros k H1 H2. apply lookup_singleton_ne. congruence.
Qed.

(** The store and the navigations after [request]: as they were, or the
    session ended by a 401. *)
Lemma request_store endpoint options w :
  let out := API.request net endpoint options w in
  (forall e, fst out = Throw e -> unchanged w (snd out))
  /\ (unchanged w (snd out) \/ ended w out).
Proof.
  cbv zeta. rewrite request_run. cbv zeta.
  assert (forall tr, navigations (trace w ++ Fetch (outgoing endpoint options
                                                      (localStorage w)) :: tr)
                     = navigations (trace w) ++ navigations tr) as Hnav.
  { intros tr. unfold navigations. rewrite omap_app. reflexivity. }
  unfold unchanged, ended.
  destruct (net _) as [r|e].
  2: { cbn [fst snd world localStorage trace]. rewrite Hnav.
       cbn. rewrite app_nil_r. split; [intros; split; reflexivity | left; split; reflexivity]. }
  unfold settle.
  destruct (status r =? 401)%Z.
  { cbn [fst snd world localStorage trace]. rewrite <- app_assoc. cbn [app].
    rewrite Hnav. split; [discriminate | right; repeat split]. }
  destruct (parse (body_text r)) as [data|];
    [destruct (ok r) |];
    cbn [fst snd world localStorage trace]; rewrite <- app_assoc; cbn [app];
    rewrite Hnav; cbn; rewrite app_nil_r;
    (split; [intros; split; reflexivity | left; split; reflexivity]).
Qed.

(** An operation against a server that answers [r]. *)
Lemma perform_answered op w r :
  (forall req, net req = Responds r) ->
  throws_early op = false ->
  let out := perform net op w in
  (status r = 401%Z -> ended w out)
  /\ (status r <> 401%Z -> navigations (trace (snd out)) = navigations (trace w))
  /\ (forall v, ok r = true -> parse (body_text r) = Some v ->
        (persists op = false \/ truthy v = false ->
           fst out = Return v /\ localStorage (snd out) = localStorage w)
        /\ (persists op = true -> truthy v = true ->
            convertible (get_field v "access_token") = true ->
            fst out = Return v
            /\ localStorage (snd out)
               = TokenManager.setUserData
                   (JObj [("user_id", get_field v "user_id");
                          ("role", get_field v "role")])
                   (TokenManager.setToken (get_field v "access_token")
                      (localStorage w)))
        /\ (persists op = true -> truthy v = true ->
            convertible (get_field v "access_token") = false ->
            fst out = Throw TypeError /\ localStorage (snd out) = localStorage w))
  /\ (status r <> 401%Z -> ok r = false \/ parse (body_text r) = None ->
      localStorage (snd out) = localStorage w
      /\ fst out = Throw match parse (body_text r) with
                         | None => SyntaxError
                         | Some data => failure data
                         end).
Proof.
  intros Hnet Hearly. cbv zeta.
  destruct (perform_request net op Hearly) as (endpoint & options & _ & Hw).
  destruct (Hw w) as (Htrace & Hsame & Hfalsy & Hthrow & Hkeep).
  assert (forall tr, navigations (trace w ++ Fetch (outgoing endpoint options
                                                      (localStorage w)) :: tr)
                     = navigations (trace w) ++ navigations tr) as Hnav.
  { intros tr. unfold navigations. rewrite omap_app. reflexivity. }
  revert Htrace Hsame Hfalsy Hthrow Hkeep.
  rewrite request_run. cbv zeta. rewrite Hnet. unfold settle.
  destruct (Z.eqb_spec (status r) 401) as [E|E].
  - cbn [fst snd world localStorage trace]. rewrite <- app_assoc. cbn [app].
    intros Htrace _ Hfalsy _ _.
    split; [|split; [contradiction | split; [|contradiction]]].
    + intros _. unfold ended.
      rewrite (Hfalsy JNull eq_refl eq_refl). cbn [fst snd world localStorage trace].
      rewrite Hnav. repeat split.
    + intros v Hok. pose proof (ok_not_401 r Hok) as H. rewrite E in H.
      discriminate.
  - destruct (parse (body_text r)) as [data|] eqn:Hp; [destruct (ok r) eqn:Hok |];
      cbn [fst snd world localStorage trace]; rewrite <- app_assoc; cbn [app];
      intros Htrace Hsame Hfalsy Hthrow Hkeep;
      (split; [contradiction |]);
      (split; [intros _; rewrite Htrace, Hnav; cbn; apply app_nil_r |]).
    + split; [|intros _ [|]; discriminate].
      intros v _ [= <-]. split; [|split].
      * intros [Hp'|Hv];
          [rewrite (Hsame Hp') | rewrite (Hfalsy data eq_refl Hv)];
          split; reflexivity.
      * intros Hp' Hv Hc. specialize (Hkeep data Hp' eq_refl Hv).
        rewrite Hc in Hkeep. exact Hkeep.
      * intros Hp' Hv Hc. specialize (Hkeep data Hp' eq_refl Hv).
        rewrite Hc in Hkeep. rewrite Hkeep. split; reflexivity.
    + split; [discriminate |]. intros _ _.
      rewrite (Hthrow _ eq_refl). split; reflexivity.
    + split; [discriminate |]. intros _ _.
      rewrite (Hthrow _ eq_refl). split; reflexivity.
Qed.

(** What [login] and [signup] have stored when they return a response
    that is truthy. *)
Lemma perform_kept op w v :
  persists op = true ->
  fst (perform net op w) = Return v ->
  truthy v = true ->
  convertible (get_field v "access_token") = true
  /\ localStorage (snd (perform net op w))
     = TokenManager.setUserData
         (JObj [("user_id", get_field v "user_id"); ("role", get_field v "role")])
         (TokenManager.setToken (get_field v "access_token") (localStorage w)).
Proof.
  intros Hp Hret Hv.
  assert (throws_early op = false) as Hearly
    by (destruct op; try discriminate; reflexivity).
  destruct (perform_request net op Hearly) as (endpoint & options & _ & Hw).
  destruct (Hw w) as (_ & _ & Hfalsy & Hthrow & Hkeep).
  destruct (request_store endpoint options w) as [_ Hs].
  destruct (fst (API.request net endpoint options w)) as [v'|e] eqn:Hr;
    [|rewrite (Hthrow e eq_refl), Hr in Hret; discriminate].
  destruct (truthy v') eqn:Hv'.
  2: { rewrite (Hfalsy v' eq_refl Hv'), Hr in Hret. injection Hret as ->.
       congruence. }
  specialize (Hkeep v' Hp eq_refl Hv').
  destruct (convertible (get_field v' "access_token")) eqn:Hc;
    [|rewrite Hkeep in Hret; discriminate].
  destruct Hkeep as [Hk Hst]. rewrite Hk in Hret. injection Hret as ->.
  split; [exact Hc |]. rewrite Hst.
  destruct Hs as [[Hs _]|[Hnone _]];
    [rewrite Hs; reflexivity | rewrite Hr in Hnone; injection Hnone as ->;
                               discriminate].
Qed.

End OperationFacts.

(** X4. Every operation of [API] either throws a TypeError before
    anything is sent, changing nothing, or sends exactly one request, to
    [API_BASE_URL] followed by a path, with [Content-Type: application/json],
    with [Authorization: Bearer <token>] exactly when a token that is not
    empty is stored, and with no other header. It throws early exactly
    when [throws_early] says so: a listing called with [null] for its
    filters or with a truthy filter that has no string form, and an
    operation whose path holds an id, or whose query holds a status, that
    has no string form. *)
Theorem operation_sends_json net op w :
  let st := localStorage w in
  let out := perform net op w in
  (throws_early op = true -> out = (Throw TypeError, w))
  /\ (throws_early op = false ->
      exists req path,
        requests_sent (trace (snd out)) = requests_sent (trace w) ++ [req]
        /\ url req = API_BASE_URL +:+ path
        /\ headers req !! "Content-Type" = Some "application/json"
        /\ headers req !! "Authorization"
           = (if TokenManager.isAuthenticated st
              then Some ("Bearer " +:+ ToString (TokenManager.getToken st))
              else None)
        /\ forall k, k <> "Content-Type" -> k <> "Authorization" ->
             headers req !! k = None).
Proof.
  cbv zeta. split; [apply throws_early_throw |].
  intros Hearly.
  destruct (perform_request net op Hearly) as (endpoint & options & (Hh & _) & Hw).
  destruct (Hw w) as (Htrace & _).
  exists (outgoing endpoint options (localStorage w)), endpoint.
  rewrite Htrace, request_sends_once.
  split; [reflexivity |]. apply outgoing_own_headers, Hh.
Qed.

(** X5. For every operation that gets as far as its request, an answer
    with status 401 makes it return [null], clears the store, leaves
    [isAuthenticated()] false and sends the page to [/login.html]. An
    operation that throws early throws its TypeError and changes
    nothing. *)
Theorem operation_unauthorized net op w r :
  (forall req, net req = Responds r) ->
  status r = 401%Z ->
  let out := perform net op w in
  (throws_early op = true -> out = (Throw TypeError, w))
  /\ (throws_early op = false ->
      fst out = Return JNull
      /\ localStorage (snd out) = TokenManager.clearAll (localStorage w)
      /\ TokenManager.isAuthenticated (localStorage (snd out)) = false
      /\ navigations (trace (snd out)) = navigations (trace w) ++ ["/login.html"]).
Proof.
  intros Hnet Hst. cbv zeta. split; [apply throws_early_throw |].
  intros Hearly.
  destruct (perform_answered net op w r Hnet Hearly) as (H401 & _).
  destruct (H401 Hst) as (H1 & H2 & H3).
  split; [exact H1 | split; [exact H2 | split; [| exact H3]]].
  rewrite H2. apply isAuthenticated_no_token, clearAll_token.
Qed.

Lemma operation_unauthorized_witness :
  (forall req, answers expired req = Responds expired)
  /\ status expired = 401%Z
  /\ throws_early (GetCampaigns (JObj [("status", JStr "LIVE")])) = false
  /\ fst (perform (answers expired) (GetCampaigns (JObj [("status", JStr "LIVE")]))
            (world session_store []))
     = Return JNull
  /\ TokenManager.isAuthenticated
       (localStorage
          (snd (perform (answers expired)
                  (GetCampaigns (JObj [("status", JStr "LIVE")]))
                  (world session_store []))))
     = false.
Proof.
  split; [reflexivity | split; [reflexivity | split; [reflexivity |]]].
  destruct (operation_unauthorized (answers expired)
              (GetCampaigns (JObj [("status", JStr "LIVE")]))
              (world session_store []) expired (fun _ => eq_refl) eq_refl)
    as (_ & H).
  destruct (H eq_refl) as (H1 & _ & H3 & _).
  split; [exact H1 | exact H3].
Defined.

(** X6. What an operation does to the session. One that throws leaves
    the store and the navigations as they were. One that is not [login] or
    [signup], and [login] or [signup] returning a falsy response, leaves
    them as they were or ends the session (result [null], store cleared,
    page sent to [/login.html]). No operation navigates anywhere else. *)
Theorem operation_store_frame net op w :
  let out := perform net op w in
  (forall e, fst out = Throw e -> unchanged w (snd out))
  /\ (persists op = false -> unchanged w (snd out) \/ ended w out)
  /\ (forall v, fst out = Return v -> truthy v = false ->
        unchanged w (snd out) \/ ended w out)
  /\ (navigations (trace (snd out)) = navigations (trace w) \/ ended w out).
Proof.
  cbv zeta. destruct (throws_early op) eqn:Hearly.
  { rewrite (throws_early_throw net op w Hearly). unfold unchanged. cbn [fst snd].
    split; [intros; split; reflexivity |].
    split; [intros; left; split; reflexivity |].
    split; [intros; left; split; reflexivity | left; reflexivity]. }
  destruct (perform_request net op Hearly) as (endpoint & options & _ & Hw).
  destruct (Hw w) as (Htrace & Hsame & Hfalsy & Hthrow & Hkeep).
  destruct (request_store net endpoint options w) as [Hs1 Hs2].
  assert (forall v, fst (perform net op w) = Return v -> truthy v = false ->
            perform net op w = API.request net endpoint options w) as Hback.
  { intros v Hv Hf.
    destruct (fst (API.request net endpoint options w)) as [v'|e] eqn:Hr;
      [|rewrite (Hthrow e eq_refl) in Hv; rewrite Hr in Hv; discriminate].
    destruct (truthy v') eqn:Hv'; [|apply (Hfalsy v' eq_refl Hv')].
    destruct (persists op) eqn:Hp; [|apply (Hsame eq_refl)].
    specialize (Hkeep v' eq_refl eq_refl Hv').
    destruct (convertible (get_field v' "access_token")).
    - destruct Hkeep as [Hk _]. rewrite Hk in Hv. injection Hv as ->. congruence.
    - rewrite Hkeep in Hv. discriminate. }
  assert (forall e, fst (perform net op w) = Throw e ->
            snd (perform net op w) = snd (API.request net endpoint options w))
    as Hback'.
  { intros e He.
    destruct (fst (API.request net endpoint options w)) as [v'|e'] eqn:Hr;
      [|rewrite (Hthrow e' eq_refl); reflexivity].
    destruct (truthy v') eqn:Hv'; [|rewrite (Hfalsy v' eq_refl Hv'); reflexivity].
    destruct (persists op) eqn:Hp; [|rewrite (Hsame eq_refl); reflexivity].
    specialize (Hkeep v' eq_refl eq_refl Hv').
    destruct (convertible (get_field v' "access_token")).
    - destruct Hkeep as [Hk _]. rewrite Hk in He. discriminate.
    - rewrite Hkeep. reflexivity. }
  unfold unchanged, ended in *.
  split; [|split; [|split]].
  - intros e He. rewrite (Hback' e He).
    destruct Hs2 as [Hs2|(Hnull' & _)]; [exact Hs2 |].
    exfalso. rewrite (Hfalsy JNull Hnull' eq_refl), Hnull' in He. discriminate.
  - intros Hp. rewrite (Hsame Hp). exact Hs2.
  - intros v Hv Hf. rewrite (Hback v Hv Hf). exact Hs2.
  - rewrite Htrace.
    destruct Hs2 as [[_ Hn]|(Hnull' & Hst & Hn)]; [left; exact Hn |].
    right. rewrite (Hfalsy JNull Hnull' eq_refl). repeat split; assumption.
Qed.

Section Listings.

Variable net : Request -> FetchOutcome.



End Listings.



(** X8. An operation that throws early sends nothing. The request of
    any other operation carries a body only with a method ([POST] or
    [PUT]); an operation without a payload sends no body; and when the
    payload is built from [null], booleans, strings, arrays and objects,
    the body is a JSON text that parses back to that payload. *)
Theorem operation_body net op w :
  let out := perform net op w in
  (throws_early op = true -> out = (Throw TypeError, w))
  /\ (throws_early op = false ->
      exists req,
        requests_sent (trace (snd out)) = requests_sent (trace w) ++ [req]
        /\ (payload op = None -> body req = None)
        /\ (method req = None -> body req = None)
        /\ (forall v, payload op = Some v -> plain v = true ->
              exists text, body req = Some text /\ parse text = Some v)).
Proof.
  cbv zeta. split; [apply throws_early_throw |].
  intros Hearly.
  destruct (perform_request net op Hearly) as (endpoint & options & (_ & Hb & Hm) & Hw).
  destruct (Hw w) as (Htrace & _).
  exists (outgoing endpoint options (localStorage w)).
  rewrite Htrace, request_sends_once. unfold outgoing. cbn [body method].
  split; [reflexivity | split; [|split]].
  - intros E. rewrite Hb, E. reflexivity.
  - exact Hm.
  - intros v E Hp. rewrite Hb, E. destruct (parse_stringify v Hp) as [-> Hparse].
    eauto.
Qed.

Lemma operation_body_witness :
  let op := Login (JStr "ada@example.com") (JStr "se\cret") in
  throws_early op = false
  /\ exists req text,
       requests_sent (trace (snd (perform (answers ok_empty) op (world ∅ [])))) = [req]
       /\ body req = Some text
       /\ parse text
          = Some (JObj [("email", JStr "ada@example.com"); ("password", JStr "se\cret")]).
Proof.
  cbv zeta. split; [reflexivity |].
  destruct (operation_body (answers ok_empty)
              (Login (JStr "ada@example.com") (JStr "se\cret")) (world ∅ []))
    as (_ & H).
  destruct (H eq_refl) as (req & Hsent & _ & _ & Hbody).
  destruct (Hbody _ eq_refl eq_refl) as (text & Ht & Hparse).
  exists req, text. split; [exact Hsent | split; [exact Ht | exact Hparse]].
Defined.



(** X10. The call [setToken(token)]. It throws a TypeError and changes
    nothing when the token has no string form. Otherwise it returns and
    writes the token only: the identity is as it was, and after
    [removeToken] there is no token and the identity is still as it was.
    For a [printable] token, [getToken] then gives the string form of
    what was set: [localStorage] keeps strings only. So
    [isAuthenticated()] is true after [setToken(null)],
    [setToken(undefined)], [setToken(false)] or [setToken({...})]. *)
Theorem setToken_getToken token w :
  let st := localStorage w in
  let out := TokenManager.setToken_call token w in
  let st' := localStorage (snd out) in
  (convertible token = false -> out = (Throw TypeError, w))
  /\ (convertible token = true ->
      fst out = Return tt
      /\ trace (snd out) = trace w
      /\ is_Some (st' !! "bossup_token")
      /\ (forall k, k <> "bossup_token" -> st' !! k = st !! k)
      /\ TokenManager.getUserData st' = TokenManager.getUserData st
      /\ TokenManager.getToken (TokenManager.removeToken st') = JNull
      /\ TokenManager.isAuthenticated (TokenManager.removeToken st') = false
      /\ TokenManager.getUserData (TokenManager.removeToken st')
         = TokenManager.getUserData st)
  /\ (printable token = true ->
      TokenManager.getToken st' = JStr (ToString token)
      /\ TokenManager.isAuthenticated st' = negb (String.eqb (ToString token) "")
      /\ (token = JNull \/ token = JUndefined \/ (exists b, token = JBool b)
          \/ (exists fields, token = JObj fields) ->
          TokenManager.isAuthenticated st' = true)).
Proof.
  cbv zeta. unfold TokenManager.setToken_call.
  assert (TokenManager.getToken (TokenManager.setToken token (localStorage w))
          = JStr (ToString token)) as Hget.
  { unfold TokenManager.getToken. rewrite getItem_lookup, setToken_token. reflexivity. }
  assert (TokenManager.isAuthenticated (TokenManager.setToken token (localStorage w))
          = negb (String.eqb (ToString token) "")) as Hauth.
  { rewrite isAuthenticated_truthy, Hget. destruct (ToString token); reflexivity. }
  assert (forall s, TokenManager.removeToken s !! "bossup_token" = None) as Hrm.
  { intros s. apply lookup_delete_eq. }
  split; [intros ->; reflexivity | split].
  - intros ->. cbn [storage_write fst snd localStorage trace].
    split; [reflexivity | split; [reflexivity |]].
    split; [rewrite setToken_token; eexists; reflexivity |].
    split; [intros k Hk; unfold TokenManager.setToken, setItem;
            rewrite lookup_insert_ne by congruence; reflexivity |].
    split; [|split; [|split]].
    + unfold TokenManager.getUserData. rewrite !getItem_lookup, setToken_user.
      reflexivity.
    + unfold TokenManager.getToken. rewrite getItem_lookup, Hrm. reflexivity.
    + apply isAuthenticated_no_token, Hrm.
    + unfold TokenManager.getUserData.
      rewrite !getItem_lookup, removeToken_user, setToken_user. reflexivity.
  - intros Hp. rewrite (printable_convertible _ Hp).
    cbn [storage_write fst snd localStorage trace].
    split; [exact Hget | split; [exact Hauth |]].
    rewrite Hauth.
    intros [-> | [-> | [[[] ->] | [fields ->]]]]; reflexivity.
Qed.

(** X11. [setUserData] followed by [getUserData] gives back the data
    when it is built from [null], booleans, strings, arrays and objects;
    after [setUserData(undefined)], [getUserData] throws a SyntaxError.
    [setUserData] leaves the token as it is. *)
Theorem setUserData_getUserData data st :
  let st' := TokenManager.setUserData data st in
  (plain data = true -> TokenManager.getUserData st' = Return data)
  /\ (data = JUndefined -> TokenManager.getUserData st' = Throw SyntaxError)
  /\ TokenManager.getToken st' = TokenManager.getToken st
  /\ TokenManager.isAuthenticated st' = TokenManager.isAuthenticated st.
Proof.
  cbv zeta.
  assert (TokenManager.getToken (TokenManager.setUserData data st)
          = TokenManager.getToken st) as Hget.
  { unfold TokenManager.getToken. rewrite !getItem_lookup, setUserData_token.
    reflexivity. }
  split; [apply getUserData_setUserData | split; [|split]].
  - intros ->. rewrite (getUserData_stored _ "undefined") by apply setUserData_user.
    vm_compute. reflexivity.
  - exact Hget.
  - rewrite !isAuthenticated_truthy, Hget. reflexivity.
Qed.

(** X12. [login] or [signup], then the guard. After a call that returned
    a truthy response with a token that is not empty and the role [R],
    [requireAuth] lets the page load when no roles are asked for or [R] is
    among them, and otherwise sends it to the dashboard of [R], the place
    [redirectToDashboard(response.role)] goes to. *)
Theorem login_then_requireAuth net op w v R allowedRoles :
  persists op = true ->
  fst (perform net op w) = Return v ->
  truthy v = true ->
  ToString (get_field v "access_token") <> "" ->
  plain (get_field v "user_id") = true ->
  get_field v "role" = JStr R ->
  let w' := snd (perform net op w) in
  requireAuth allowedRoles w'
  = match allowedRoles with
    | Some roles =>
        if includes roles (JStr R) then (Return true, w')
        else (Return false,
              world (localStorage w')
                (trace w' ++ [Navigate (dashboard_of (get_field v "role"))]))
    | None => (Return true, w')
    end.
Proof.
  intros Hp Hret Hv Htok Huid Hrole. cbv zeta.
  destruct (perform_kept net op w v Hp Hret Hv) as [_ Hkeep].
  set (w' := snd (perform net op w)) in *.
  assert (TokenManager.isAuthenticated (localStorage w') = true) as Hauth.
  { rewrite Hkeep, isAuthenticated_truthy. apply truthy_getItem.
    exists (ToString (get_field v "access_token")). split; [|exact Htok].
    rewrite setUserData_token. apply setToken_token. }
  assert (TokenManager.getUserData (localStorage w')
          = Return (JObj [("user_id", get_field v "user_id"); ("role", JStr R)]))
    as Hdata.
  { rewrite Hkeep, Hrole. apply getUserData_setUserData.
    cbn. rewrite Huid. reflexivity. }
  destruct w' as [st' tr']. cbn [localStorage trace] in *.
  unfold requireAuth, storage_read, storage_call, navigate, redirectToDashboard,
    emit, mbind, M_bind, mret, M_ret. cbn [localStorage trace].
  rewrite Hauth. cbv beta zeta. cbn [negb localStorage]. rewrite Hdata.
  cbv beta iota. rewrite Hrole.
  change (get_prop_opt (JObj [("user_id", get_field v "user_id"); ("role", JStr R)])
            "role") with (JStr R).
  destruct allowedRoles as [roles|]; [|reflexivity].
  destruct (includes roles (JStr R)); reflexivity.
Qed.

Lemma login_then_requireAuth_witness :
  let r := login_ok "tok-1" "u1" "ADMIN" in
  let op := Login (JStr "ada@example.com") (JStr "secret") in
  let w' := snd (perform (answers r) op (world ∅ [])) in
  persists op = true
  /\ fst (perform (answers r) op (world ∅ []))
     = Return (login_response "tok-1" "u1" "ADMIN")
  /\ requireAuth (Some [JStr "ADMIN"]) w' = (Return true, w')
  /\ fst (requireAuth (Some [JStr "INVESTOR"]) w') = Return false.
Proof.
  cbv zeta. split; [reflexivity | split; [reflexivity |]].
  split.
  - apply (login_then_requireAuth (answers (login_ok "tok-1" "u1" "ADMIN"))
             (Login (JStr "ada@example.com") (JStr "secret")) (world ∅ [])
             (login_response "tok-1" "u1" "ADMIN") "ADMIN" (Some [JStr "ADMIN"]));
      try reflexivity. discriminate.
  - reflexivity.
Defined.

Section Truncation.

Lemma substring_head {A} (text : list A) n :
  substring text 0 n = firstn (Z.to_nat n) text.
Proof.
  unfold substring.
  set (len := Z.of_nat (length text)).
  assert (0 <= len)%Z by lia.
  replace (Z.max 0 (Z.min 0 len)) with 0%Z by lia.
  replace (Z.min 0 (Z.max 0 (Z.min n len))) with 0%Z by lia.
  replace (Z.max 0 (Z.max 0 (Z.min n len)) - 0)%Z with (Z.max 0 (Z.min n len)) by lia.
  change (Z.to_nat 0) with 0%nat. rewrite drop_0.
  destruct (Z.le_gt_cases n len).
  - replace (Z.max 0 (Z.min n len)) with (Z.max 0 n) by lia.
    replace (Z.to_nat (Z.max 0 n)) with (Z.to_nat n) by lia. reflexivity.
  - replace (Z.max 0 (Z.min n len)) with len by lia.
    subst len. rewrite Nat2Z.id, firstn_all.
    symmetry. apply firstn_all2. lia.
Qed.

Lemma truncateText_long text maxLength :
  text <> [] ->
  (maxLength < Z.of_nat (length text))%Z ->
  truncateText text maxLength = firstn (Z.to_nat maxLength) text ++ ellipsis.
Proof.
  intros Hne H. unfold truncateText. destruct text as [|c text]; [congruence |].
  destruct (Z.leb_spec (Z.of_nat (length (c :: text))) maxLength); [lia |].
  rewrite substring_head. reflexivity.
Qed.

Lemma truncateText_short text maxLength :
  (Z.of_nat (length text) <= maxLength)%Z -> truncateText text maxLength = text.
Proof.
  intros H. unfold truncateText. destruct text as [|c text]; [reflexivity |].
  destruct (Z.leb_spec (Z.of_nat (length (c :: text))) maxLength); [reflexivity | lia].
Qed.

End Truncation.

(** X13. [truncateText] on a string, counted in UTF-16 code units: the
    empty text and a text of at most [maxLength] units come back as they
    are; a longer one is cut to its first [maxLength] units (none when
    [maxLength] is negative) followed by ["..."]. The result can be longer
    than the text, by at most two units, exactly when the text is one or
    two units over the limit (or [maxLength] is negative). Truncating twice
    is truncating once. *)
Theorem truncateText_bounds text maxLength :
  let result := truncateText text maxLength in
  let len := Z.of_nat (length text) in
  (text = [] -> result = [])
  /\ (len <= maxLength -> result = text)%Z
  /\ (text <> [] -> maxLength < len ->
      result = firstn (Z.to_nat maxLength) text ++ ellipsis
      /\ Z.of_nat (length result) = Z.max 0 maxLength + 3)%Z
  /\ (Z.of_nat (length result) <= Z.max len (Z.max 0 maxLength + 3))%Z
  /\ ((length text < length result)%nat
      <-> text <> [] /\ (maxLength < len < Z.max 0 maxLength + 3)%Z)
  /\ truncateText result maxLength = result.
Proof.
  cbv zeta.
  destruct text as [|c text0].
  { cbn [truncateText length].
    split; [reflexivity | split; [reflexivity | split; [congruence |]]].
    split; [lia | split; [|reflexivity]].
    split; [lia | intros [H _]; congruence]. }
  set (text := c :: text0).
  assert (text <> []) as Hne by discriminate.
  assert (0 < length text)%nat as Hpos by (subst text; cbn [length]; lia).
  clearbody text. clear c text0.
  split; [congruence |].
  destruct (Z.le_gt_cases (Z.of_nat (length text)) maxLength) as [Hs|Hl].
  - rewrite (truncateText_short _ maxLength Hs).
    split; [reflexivity | split; [lia | split; [lia | split; [lia |]]]].
    apply truncateText_short, Hs.
  - rewrite (truncateText_long _ maxLength Hne Hl).
    assert (length (firstn (Z.to_nat maxLength) text ++ ellipsis)
            = (Z.to_nat maxLength + 3)%nat) as Hlen.
    { rewrite length_app, length_firstn. unfold ellipsis. cbn [length]. lia. }
    split; [lia | split; [split; [reflexivity | lia] | split; [lia | split]]].
    + split; [intros H; split; [exact Hne | lia] | lia].
    + rewrite truncateText_long;
        [| destruct (firstn (Z.to_nat maxLength) text); discriminate | lia].
      rewrite firstn_app, firstn_firstn, length_firstn.
      replace (Z.to_nat maxLength
               - Nat.min (Z.to_nat maxLength) (length text))%nat
        with 0%nat by lia.
      rewrite Nat.min_id. cbn [firstn]. rewrite app_nil_r. reflexivity.
Qed.

(** X14. [updateNavigation] changes neither the store nor the page's
    location and sends nothing. It leaves the bar as it is when the page has
    none or nobody is logged in. Otherwise it writes the links, and the
    Dashboard link goes where [redirectToDashboard] goes for INVESTOR,
    BUSINESS_OWNER and ADMIN; for any other or no role it goes to the
    investor dashboard, where [redirectToDashboard] goes to [/index.html].
    When the stored identity cannot be read it throws and writes
    nothing. *)
Theorem updateNavigation_links navAuth w :
  let st := localStorage w in
  let out := updateNavigation navAuth w in
  snd out = w
  /\ (navAuth = None -> fst out = Return None)
  /\ (TokenManager.isAuthenticated st = false -> fst out = Return navAuth)
  /\ (forall innerHTML userData,
        navAuth = Some innerHTML ->
        TokenManager.isAuthenticated st = true ->
        TokenManager.getUserData st = Return userData ->
        let role := get_prop_opt userData "role" in
        exists target,
          fst out = Return (Some (nav_links target))
          /\ (role = JStr "INVESTOR" \/ role = JStr "BUSINESS_OWNER"
              \/ role = JStr "ADMIN" -> target = dashboard_of role)
          /\ (role <> JStr "INVESTOR" -> role <> JStr "BUSINESS_OWNER" ->
              role <> JStr "ADMIN" ->
              target = "/investor-dashboard.html"
              /\ dashboard_of role = "/index.html"))
  /\ (forall innerHTML e,
        navAuth = Some innerHTML ->
        TokenManager.isAuthenticated st = true ->
        TokenManager.getUserData st = Throw e ->
        fst out = Throw e).
Proof.
  cbv zeta. destruct navAuth as [innerHTML|].
  2: { repeat split; try reflexivity; intros; discriminate. }
  unfold updateNavigation, storage_read, storage_call, mbind, M_bind, mret, M_ret.
  destruct (TokenManager.isAuthenticated (localStorage w)) eqn:Hauth.
  - destruct (TokenManager.getUserData (localStorage w)) as [userData|e] eqn:Hdata;
      cbn [fst snd].
    + split; [reflexivity | split; [discriminate | split; [discriminate | split]]];
        [|intros ? ? _ _ [=]].
      intros _ userData' _ _ [= <-].
      eexists. split; [reflexivity |].
      set (role := get_prop_opt userData "role").
      split.
      * intros [-> | [-> | ->]]; reflexivity.
      * intros H1 H2 H3. destruct role as [| | | |r| |]; try (split; reflexivity).
        unfold strict_equals_string, dashboard_of.
        destruct (String.eqb_spec r "INVESTOR") as [->|_]; [congruence |].
        destruct (String.eqb_spec r "BUSINESS_OWNER") as [->|_]; [congruence |].
        destruct (String.eqb_spec r "ADMIN") as [->|_]; [congruence |].
        split; reflexivity.
    + split; [reflexivity | split; [discriminate | split; [discriminate | split]]].
      * intros ? ? _ _ [=].
      * intros _ e' _ _ [= <-]. reflexivity.
  - cbn [fst snd].
    split; [reflexivity | split; [discriminate | split; [reflexivity | split]]];
      intros; discriminate.
Qed.

(** ** Lengths compared with [0] and [1] *)

Section Lengths.

Lemma drop_zeros_none s r : drop_zeros s = (O, r) -> r = s.
Proof.
  destruct s as [|c s]; [intros [= <-]; reflexivity |].
  cbn [drop_zeros].
  destruct c as [[] [] [] [] [] [] [] []]; try (intros [= <-]; reflexivity).
  destruct (drop_zeros s). discriminate.
Qed.

Lemma string_rev_onto_length s acc :
  String.length (string_rev_onto s acc) = (String.length s + String.length acc)%nat.
Proof.
  revert acc. induction s as [|c s IH]; intros acc; [reflexivity |].
  cbn [string_rev_onto String.length]. rewrite IH. cbn [String.length]. lia.
Qed.

Lemma string_rev_one s c : string_rev s = String c "" -> s = String c "".
Proof.
  intros H. assert (String.length s = 1%nat) as Hl.
  { pose proof (string_rev_onto_length s "") as E. unfold string_rev in H.
    rewrite H in E. cbn [String.length] in E. lia. }
  destruct s as [|a [|b s]]; try discriminate. exact H.
Qed.

Lemma digits_of_N_one n : digits_of_N n = "1" -> n = 1%N.
Proof.
  unfold digits_of_N. intros H.
  pose proof (NilZero.usu (N.to_uint n)) as E. rewrite H in E.
  assert (N.to_uint n <> Decimal.Nil) as Hn.
  { intros Hnil. rewrite Hnil in H. discriminate. }
  specialize (E Hn). injection E as E.
  rewrite <- (DecimalN.Unsigned.of_to n), <- E. reflexivity.
Qed.

Lemma strict_equals_one n :
  strict_equals_number (JNum (Z.of_nat n) 0) 1 = bool_decide (n = 1%nat).
Proof.
  unfold strict_equals_number, same_value_zero.
  replace (Z.of_nat n <? 0)%Z with false by (symmetry; apply Z.ltb_ge; lia).
  cbn [Z.eqb Z.ltb Z.compare Bool.eqb andb orb]. rewrite andb_false_r. cbn [orb].
  destruct (decide (n = 1%nat)) as [->|Hne].
  - reflexivity.
  - rewrite (bool_decide_eq_false_2 (n = 1%nat) Hne).
    apply bool_decide_eq_false_2. intros H. apply Hne.
    unfold num_digits in H.
    destruct (drop_zeros (string_rev (digits_of_N (Z.abs_N (Z.of_nat n)))))
      as [z r] eqn:Hz.
    change (num_digits 1 0) with ("1", 1%Z) in H. unfold num_digits in H.
    injection H as Hsig Hpos. rewrite Hsig in Hpos.
    change (string_rev "1") with "1" in Hsig, Hpos. cbn [String.length] in Hpos.
    assert (z = O) as -> by lia.
    apply drop_zeros_none in Hz. subst r.
    apply string_rev_one in Hsig.
    apply string_rev_one, digits_of_N_one in Hsig. lia.
Qed.

Lemma nonzero_digits_rev_onto s acc :
  nonzero_digits (string_rev_onto s acc) = (nonzero_digits s + nonzero_digits acc)%nat.
Proof.
  revert acc. induction s as [|c s IH]; intros acc; [reflexivity |].
  cbn [string_rev_onto nonzero_digits]. rewrite IH. cbn [nonzero_digits]. lia.
Qed.

Lemma nonzero_digits_drop_zeros s z r :
  drop_zeros s = (z, r) -> nonzero_digits r = nonzero_digits s.
Proof.
  revert z r. induction s as [|c s IH]; intros z r; [intros [= <- <-]; reflexivity |].
  cbn [drop_zeros].
  destruct c as [[] [] [] [] [] [] [] []]; try (intros [= <- <-]; reflexivity).
  destruct (drop_zeros s) as [k r'] eqn:E. intros [= <- <-].
  rewrite (IH k r' eq_refl). reflexivity.
Qed.

Lemma nonzero_digits_uint u :
  nonzero_digits (NilEmpty.string_of_uint u) = O -> Decimal.nzhead u = Decimal.Nil.
Proof.
  induction u; cbn [NilEmpty.string_of_uint nonzero_digits Decimal.nzhead];
    try discriminate; auto.
Qed.

Lemma nonzero_digits_of_N n : n <> 0%N -> nonzero_digits (digits_of_N n) <> O.
Proof.
  intros Hn H. unfold digits_of_N, NilZero.string_of_uint in H.
  assert (N.to_uint n = Decimal.unorm (N.to_uint n)) as Hnorm.
  { rewrite <- DecimalN.Unsigned.to_of, DecimalN.Unsigned.of_to. reflexivity. }
  destruct (N.to_uint n) as [| u | | | | | | | | |] eqn:E; try discriminate.
  apply nonzero_digits_uint in H.
  apply DecimalFacts.unorm_0 in H. rewrite <- Hnorm in H.
  apply Hn. rewrite <- (DecimalN.Unsigned.of_to n), E, H. reflexivity.
Qed.

Lemma strict_equals_zero n :
  strict_equals_number (JNum (Z.of_nat n) 0) 0 = bool_decide (n = 0%nat).
Proof.
  destruct n as [|n]; [reflexivity |].
  rewrite (bool_decide_eq_false_2 (S n = 0%nat)) by discriminate.
  unfold strict_equals_number, same_value_zero.
  replace (Z.of_nat (S n) =? 0)%Z with false by (symmetry; apply Z.eqb_neq; lia).
  cbn [andb orb]. apply andb_false_intro2.
  apply bool_decide_eq_false_2. intros H.
  unfold num_digits in H.
  destruct (drop_zeros (string_rev (digits_of_N (Z.abs_N (Z.of_nat (S n))))))
    as [z r] eqn:Hz.
  change (digits_of_N (Z.abs_N 0)) with "0" in H.
  change (drop_zeros (string_rev "0")) with (1%nat, "") in H.
  injection H as Hsig _.
  apply nonzero_digits_drop_zeros in Hz.
  unfold string_rev in Hz, Hsig. rewrite nonzero_digits_rev_onto in Hz.
  assert (nonzero_digits r = O) as Hr.
  { pose proof (nonzero_digits_rev_onto r "") as E. rewrite Hsig in E.
    cbn [string_rev_onto nonzero_digits] in E. lia. }
  apply (nonzero_digits_of_N (Z.abs_N (Z.of_nat (S n)))); [lia |].
  cbn [nonzero_digits] in Hz. lia.
Qed.

End Lengths.

(** ** The marketplace *)

Ltac page_unfold :=
  unfold querySelector, getElementById, set_innerHTML, set_textContent, set_display,
    set_disabled, update, when_present, in_session, page_lift, page_try_catch,
    page_finally, get_value, get_checked, console_error, emit,
    mbind, PM_bind, M_bind, mret, PM_ret, M_ret;
  cbn [elements session fst snd localStorage trace].

(** Lookups in a document after writes to elements named by literals. *)
Ltac lookups :=
  unfold shown; cbn [fst snd elements session];
  repeat first [rewrite lookup_alter_eq | rewrite lookup_alter_ne by discriminate].

Ltac frame :=
  unfold same_but; intros ? ?; cbn [fst snd elements session];
  rewrite ?lookup_alter_ne
    by (let E := fresh in intros E; rewrite <- E in *; simpl in *; tauto);
  reflexivity.


Section Marketplace.

Variable net : Request -> FetchOutcome.
Variable createCampaignCard : jsval -> completion string.

Lemma getCampaigns_request filters w :
  filter_throws ["status"; "country"; "limit"] filters = false ->
  Endpoints.getCampaigns net filters w
  = API.request net
      (Endpoints.with_query "/campaigns"
         (URLSearchParams.toString
            (kept_filters ["status"; "country"; "limit"] filters)))
      no_options w.
Proof.
  intros Hf.
  apply (listing_request net (GetCampaigns filters) "/campaigns"
           ["status"; "country"; "limit"] filters eq_refl Hf w).
Qed.

(** What [nothing_to_show] decides for an array of campaigns. *)
Lemma nothing_to_show_array data items :
  get_field data "campaigns" = JArr items ->
  nothing_to_show data = bool_decide (items = []).
Proof.
  intros H. unfold nothing_to_show.
  assert (truthy data = true) as -> by (destruct data; try discriminate; reflexivity).
  rewrite H. cbn [negb truthy length_of]. rewrite strict_equals_zero.
  destruct items; reflexivity.
Qed.

Lemma render_shown data :
  nothing_to_show data = false ->
  forall html, render createCampaignCard (get_field data "campaigns") = Return html ->
  exists items cards,
    get_field data "campaigns" = JArr items
    /\ items <> []
    /\ map_cards createCampaignCard items = Return cards
    /\ html = join "" cards.
Proof.
  intros Hshow html Hr. unfold render in Hr.
  destruct (get_field data "campaigns") as [| | | | |items|] eqn:E; try discriminate.
  rewrite (nothing_to_show_array data items E) in Hshow.
  destruct (map_cards createCampaignCard items) as [cards|] eqn:Hc; [|discriminate].
  injection Hr as <-. exists items, cards.
  split; [reflexivity | split; [|split; [exact Hc | reflexivity]]].
  intros ->. discriminate.
Qed.

(** The path [loadCampaigns] asks for. *)
Lemma loadCampaigns_asks filters w :
  filters_throw filters = false ->
  Endpoints.getCampaigns net
    (JObj (spread_fields [("status", JStr "LIVE")] filters)) w
  = API.request net (campaigns_path filters) no_options w.
Proof. apply getCampaigns_request. Qed.

(** [loadCampaigns] with filters that throw: nothing is sent and the grid
    says that the campaigns could not be loaded. *)
Lemma loadCampaigns_throws filters p :
  is_Some (elements p !! "campaigns-grid") ->
  filters_throw (default [] filters) = true ->
  let out := loadCampaigns net createCampaignCard filters p in
  localStorage (session (snd out)) = localStorage (session p)
  /\ requests_sent (trace (session (snd out))) = requests_sent (trace (session p))
  /\ navigations (trace (session (snd out))) = navigations (trace (session p))
  /\ shown (snd out) "campaigns-grid" = Some (Markup failed_to_load).
Proof.
  intros [el Hgrid] Hthrow. cbv zeta. unfold loadCampaigns. page_unfold.
  rewrite Hgrid.
  rewrite (listing_throws net
             (GetCampaigns (JObj (spread_fields [("status", JStr "LIVE")]
                                    (default [] filters))))
             "/campaigns" ["status"; "country"; "limit"] _ (session p) eq_refl Hthrow
           : Endpoints.getCampaigns net _ (session p) = _).
  cbn [fst snd elements session localStorage trace].
  unfold requests_sent, navigations. rewrite !omap_app. cbn [omap list_omap].
  rewrite !app_nil_r.
  split; [reflexivity | split; [reflexivity | split; [reflexivity |]]].
  lookups. rewrite Hgrid. reflexivity.
Qed.

(** [loadCampaigns] on a page with a grid, from the outcome of its
    request. *)
Lemma loadCampaigns_run filters p :
  is_Some (elements p !! "campaigns-grid") ->
  filters_throw (default [] filters) = false ->
  let asked := API.request net (campaigns_path (default [] filters)) no_options
                 (session p) in
  let out := loadCampaigns net createCampaignCard filters p in
  localStorage (session (snd out)) = localStorage (snd asked)
  /\ requests_sent (trace (session (snd out))) = requests_sent (trace (snd asked))
  /\ navigations (trace (session (snd out))) = navigations (trace (snd asked))
  /\ shown (snd out) "campaigns-grid"
     = Some (Markup
               match fst asked with
               | Throw _ => failed_to_load
               | Return data =>
                   if nothing_to_show data then no_campaigns_found
                   else match render createCampaignCard (get_field data "campaigns") with
                        | Return html => html
                        | Throw _ => failed_to_load
                        end
               end).
Proof.
  intros [el Hgrid] Hearly. cbv zeta. unfold loadCampaigns. page_unfold.
  rewrite Hgrid. rewrite (loadCampaigns_asks _ _ Hearly).
  destruct (API.request net _ no_options (session p)) as [[data|e] w];
    cbn [fst snd].
  - destruct (nothing_to_show data) eqn:Hshow.
    + destruct (elements p !! "campaigns-count") as [c|] eqn:Hcount;
        cbn [fst snd elements session];
        (split; [reflexivity | split; [reflexivity | split; [reflexivity |]]]);
        lookups; rewrite Hgrid; reflexivity.
    + destruct (render createCampaignCard (get_field data "campaigns")) as [html|e].
      * destruct (elements p !! "campaigns-count") as [c|] eqn:Hcount;
          cbn [fst snd elements session];
          (split; [reflexivity | split; [reflexivity | split; [reflexivity |]]]);
          lookups; rewrite Hgrid; reflexivity.
      * cbn [fst snd elements session localStorage trace].
        unfold requests_sent, navigations. rewrite !omap_app. cbn [omap list_omap].
        rewrite !app_nil_r.
        split; [reflexivity | split; [reflexivity | split; [reflexivity |]]].
        lookups. rewrite Hgrid. reflexivity.
  - cbn [fst snd elements session localStorage trace].
    unfold requests_sent, navigations. rewrite !omap_app. cbn [omap list_omap].
    rewrite !app_nil_r.
    split; [reflexivity | split; [reflexivity | split; [reflexivity |]]].
    lookups. rewrite Hgrid. reflexivity.
Qed.

End Marketplace.

(** X15. [loadCampaigns] never throws and touches only the grid and the
    counter. On a page without a grid it does nothing. With a grid it ends
    in one of three states: the text of no campaigns with the counter at
    ["0 campaigns"]; the text of a failure with the counter left as it
    was; or the cards of a list that is not empty with the counter at its
    length, ["1 campaign found"] for one and ["n campaigns found"]
    otherwise. *)
Theorem loadCampaigns_settles net createCampaignCard filters p :
  let out := loadCampaigns net createCampaignCard filters p in
  let grid := "campaigns-grid" in
  let count := "campaigns-count" in
  fst out = Return tt
  /\ same_but [grid; count] p (snd out)
  /\ (elements p !! grid = None -> snd out = p)
  /\ (is_Some (elements p !! grid) ->
      (shown (snd out) grid = Some (Markup no_campaigns_found)
       /\ (is_Some (elements p !! count) ->
           shown (snd out) count = Some (Text "0 campaigns")))
      \/ (shown (snd out) grid = Some (Markup failed_to_load)
          /\ elements (snd out) !! count = elements p !! count)
      \/ (exists items cards,
            items <> []
            /\ map_cards createCampaignCard items = Return cards
            /\ shown (snd out) grid = Some (Markup (join "" cards))
            /\ (is_Some (elements p !! count) ->
                shown (snd out) count = Some (Text (campaigns_found (length items)))))).
Proof.
  cbv zeta. unfold loadCampaigns. page_unfold.
  destruct (elements p !! "campaigns-grid") as [el|] eqn:Hgrid.
  2: { split; [reflexivity | split; [intros id _; reflexivity |]].
       split; [reflexivity | intros [? [=]]]. }
  destruct (Endpoints.getCampaigns net _ (session p)) as [[data|e] w].
  - destruct (nothing_to_show data) eqn:Hshow.
    + destruct (elements p !! "campaigns-count") as [c|] eqn:Hcount;
        cbn [fst snd elements session];
        (split; [reflexivity | split; [frame | split; [discriminate |]]]);
        intros _; left; lookups; rewrite ?Hgrid, ?Hcount;
        (split; [reflexivity |]); [reflexivity | intros [? [=]]].
    + destruct (render createCampaignCard (get_field data "campaigns"))
        as [html|e] eqn:Hrender.
      * destruct (render_shown createCampaignCard data Hshow html Hrender)
          as (items & cards & Hitems & Hne & Hcards & ->).
        rewrite Hitems. cbn [length_of ToString]. rewrite strict_equals_one.
        destruct (elements p !! "campaigns-count") as [c|] eqn:Hcount;
          cbn [fst snd elements session];
          (split; [reflexivity | split; [frame | split; [discriminate |]]]);
          intros _; right; right; exists items, cards;
          (split; [exact Hne | split; [exact Hcards |]]);
          lookups; rewrite ?Hgrid, ?Hcount;
          (split; [reflexivity |]); [| intros [? [=]]].
        intros _. unfold campaigns_found. cbn [ToString fmap option_fmap option_map].
        destruct (decide (length items = 1%nat)) as [E|E];
          [rewrite (bool_decide_eq_true_2 _ E) | rewrite (bool_decide_eq_false_2 _ E)];
          reflexivity.
      * cbn [fst snd elements session].
        split; [reflexivity | split; [frame | split; [discriminate |]]].
        intros _; right; left. lookups. rewrite Hgrid. split; reflexivity.
  - cbn [fst snd elements session].
    split; [reflexivity | split; [frame | split; [discriminate |]]].
    intros _; right; left. lookups. rewrite Hgrid. split; reflexivity.
Qed.

(** X16. What the marketplace shows for what the server answers. When
    a filter given to [loadCampaigns] is truthy and has no string form,
    nothing is sent and the text of a failure is shown. Otherwise: a 401
    shows the text of no campaigns, while the store is cleared and the
    page sent to [/login.html]. Any other answer that is not a success, or
    that is not JSON, shows the text of a failure and leaves the store. A
    success whose [campaigns] is a list shows the cards in order, joined
    without a separator; the text of no campaigns when the list is empty;
    and the text of a failure when a card cannot be built. *)
Theorem loadCampaigns_shows net createCampaignCard filters p r :
  (forall req, net req = Responds r) ->
  is_Some (elements p !! "campaigns-grid") ->
  let early := filters_throw (default [] filters) in
  let out := loadCampaigns net createCampaignCard filters p in
  let st := localStorage (session p) in
  let st' := localStorage (session (snd out)) in
  let grid := shown (snd out) "campaigns-grid" in
  (early = true ->
   grid = Some (Markup failed_to_load)
   /\ st' = st
   /\ requests_sent (trace (session (snd out))) = requests_sent (trace (session p))
   /\ navigations (trace (session (snd out))) = navigations (trace (session p)))
  /\ (early = false -> status r = 401%Z ->
      grid = Some (Markup no_campaigns_found)
      /\ st' = TokenManager.clearAll st
      /\ navigations (trace (session (snd out)))
         = navigations (trace (session p)) ++ ["/login.html"])
  /\ (early = false -> status r <> 401%Z ->
      ok r = false \/ parse (body_text r) = None ->
      grid = Some (Markup failed_to_load) /\ st' = st)
  /\ (forall data items,
        early = false ->
        ok r = true ->
        parse (body_text r) = Some data ->
        get_field data "campaigns" = JArr items ->
        st' = st
        /\ grid = Some (Markup match items, map_cards createCampaignCard items with
                               | [], _ => no_campaigns_found
                               | _, Return cards => join "" cards
                               | _, Throw _ => failed_to_load
                               end)).
Proof.
  intros Hnet Hgrid. cbv zeta.
  destruct (filters_throw (default [] filters)) eqn:Hearly.
  { destruct (loadCampaigns_throws net createCampaignCard filters p Hgrid Hearly)
      as (Hst & Hsent & Hnav & Hshown).
    split; [intros _; repeat split; assumption |].
    split; [discriminate | split; [discriminate | intros ? ? [=]]]. }
  split; [discriminate |].
  destruct (loadCampaigns_run net createCampaignCard filters p Hgrid Hearly)
    as (Hst & _ & Hnav & Hshown).
  rewrite Hst, Hnav, Hshown. clear Hst Hnav Hshown.
  rewrite request_run. cbv zeta. rewrite Hnet. unfold settle.
  split; [|split].
  - intros _ E. rewrite E, Z.eqb_refl. cbn [fst snd world localStorage trace].
    split; [reflexivity | split; [reflexivity |]].
    unfold navigations. rewrite !omap_app. cbn [omap list_omap].
    rewrite !app_nil_r. reflexivity.
  - intros _ E Hfail. destruct (Z.eqb_spec (status r) 401) as [|_]; [contradiction |].
    destruct (parse (body_text r)) as [data|] eqn:Hp.
    + destruct Hfail as [Hok|]; [|discriminate]. rewrite Hok.
      cbn [fst snd world localStorage]. split; reflexivity.
    + cbn [fst snd world localStorage]. split; reflexivity.
  - intros data items _ Hok Hp Hitems.
    rewrite (ok_not_401 r Hok), Hp, Hok. cbn [fst snd world localStorage].
    split; [reflexivity |].
    rewrite (nothing_to_show_array data items Hitems), Hitems.
    destruct items as [|campaign items]; [reflexivity |].
    rewrite bool_decide_eq_false_2 by discriminate.
    unfold render. destruct (map_cards createCampaignCard (campaign :: items));
      reflexivity.
Qed.

Lemma loadCampaigns_shows_witness :
  let out := loadCampaigns (answers two_campaigns) title_card None marketplace in
  (forall req, answers two_campaigns req = Responds two_campaigns)
  /\ is_Some (elements marketplace !! "campaigns-grid")
  /\ shown (snd out) "campaigns-grid" = Some (Markup "SolarMill")
  /\ shown (snd out) "campaigns-count" = Some (Text "2 campaigns found")
  /\ shown (snd (loadCampaigns (answers expired) title_card None marketplace))
       "campaigns-grid"
     = Some (Markup no_campaigns_found)
  /\ shown (snd (loadCampaigns (answers two_campaigns) title_card
                   (Some [("country", JObj [("toString", JNull)])]) marketplace))
       "campaigns-grid"
     = Some (Markup failed_to_load).
Proof.
  cbv zeta.
  split; [reflexivity | split; [eexists; reflexivity |]].
  destruct (loadCampaigns_shows (answers two_campaigns) title_card None marketplace
              two_campaigns (fun _ => eq_refl) ltac:(eexists; reflexivity))
    as (_ & _ & _ & Hok).
  destruct (Hok (JObj [("campaigns",
                        JArr [JObj [("title", JStr "Solar")];
                              JObj [("title", JStr "Mill")]])])
              [JObj [("title", JStr "Solar")]; JObj [("title", JStr "Mill")]]
              eq_refl eq_refl eq_refl eq_refl) as [_ Hgrid].
  split; [exact Hgrid | split; [vm_compute; reflexivity |]].
  split.
  - destruct (loadCampaigns_shows (answers expired) title_card None marketplace
                expired (fun _ => eq_refl) ltac:(eexists; reflexivity))
      as (_ & H & _).
    apply (H eq_refl eq_refl).
  - destruct (loadCampaigns_shows (answers two_campaigns) title_card
                (Some [("country", JObj [("toString", JNull)])]) marketplace
                two_campaigns (fun _ => eq_refl) ltac:(eexists; reflexivity))
      as (H & _).
    apply (H eq_refl).
Defined.



(** X18. [loadFeaturedCampaigns] never throws and touches only the
    element [featured-campaigns]; without it nothing is sent. With it,
    exactly one request goes out, a GET of
    [/campaigns?status=LIVE&limit=6], and the element ends with the text
    of no campaigns, the text of a failure, or the cards of a list that is
    not empty. *)
Theorem loadFeaturedCampaigns_settles net createCampaignCard p :
  let out := loadFeaturedCampaigns net createCampaignCard p in
  let featured := "featured-campaigns" in
  fst out = Return tt
  /\ same_but [featured] p (snd out)
  /\ (elements p !! featured = None -> snd out = p)
  /\ (is_Some (elements p !! featured) ->
      (exists req,
          requests_sent (trace (session (snd out)))
          = requests_sent (trace (session p)) ++ [req]
          /\ url req = API_BASE_URL +:+ "/campaigns?status=LIVE&limit=6"
          /\ method req = None
          /\ body req = None)
      /\ (shown (snd out) featured = Some (Markup no_campaigns_yet)
          \/ shown (snd out) featured = Some (Markup failed_to_load_featured)
          \/ exists items cards,
               items <> []
               /\ map_cards createCampaignCard items = Return cards
               /\ shown (snd out) featured = Some (Markup (join "" cards)))).
Proof.
  cbv zeta. unfold loadFeaturedCampaigns. page_unfold.
  destruct (elements p !! "featured-campaigns") as [el|] eqn:Hel.
  2: { split; [reflexivity | split; [intros id _; reflexivity |]].
       split; [reflexivity | intros [? [=]]]. }
  rewrite (getCampaigns_request net) by reflexivity.
  pose proof (request_sends_once net
                (Endpoints.with_query "/campaigns"
                   (URLSearchParams.toString
                      (kept_filters ["status"; "country"; "limit"]
                         (JObj [("status", JStr "LIVE"); ("limit", JNum 6 0)]))))
                no_options (session p)) as Hsent.
  destruct (API.request net _ no_options (session p)) as [[data|e] w];
    cbn [fst snd] in *.
  - destruct (nothing_to_show data) eqn:Hshow.
    + cbn [fst snd elements session].
      split; [reflexivity | split; [frame | split; [discriminate |]]].
      intros _. split.
      * eexists. split; [exact Hsent |]. repeat split.
      * left. lookups. rewrite Hel. reflexivity.
    + destruct (render createCampaignCard (get_field data "campaigns"))
        as [html|e] eqn:Hrender.
      * destruct (render_shown createCampaignCard data Hshow html Hrender)
          as (items & cards & Hitems & Hne & Hcards & ->).
        cbn [fst snd elements session].
        split; [reflexivity | split; [frame | split; [discriminate |]]].
        intros _. split.
        -- eexists. split; [exact Hsent |]. repeat split.
        -- right; right. exists items, cards.
           split; [exact Hne | split; [exact Hcards |]].
           lookups. rewrite Hel. reflexivity.
      * cbn [fst snd elements session localStorage trace].
        split; [reflexivity | split; [frame | split; [discriminate |]]].
        intros _. split.
        -- eexists. rewrite requests_sent_app, Hsent. cbn. rewrite app_nil_r.
           split; [reflexivity |]. repeat split.
        -- right; left. lookups. rewrite Hel. reflexivity.
  - cbn [fst snd elements session localStorage trace].
    split; [reflexivity | split; [frame | split; [discriminate |]]].
    intros _. split.
    + eexists. rewrite requests_sent_app, Hsent. cbn. rewrite app_nil_r.
      split; [reflexivity |]. repeat split.
    + right; left. lookups. rewrite Hel. reflexivity.
Qed.

(** ** The login and signup page *)

Ltac parts :=
  repeat match goal with
         | |- context [part ?a ?b] =>
             let v := eval vm_compute in (part a b) in
             change (part a b) with v
         | H : context [part ?a ?b] |- _ =>
             let v := eval vm_compute in (part a b) in
             change (part a b) with v in H
         end.

(** The elements a page is known to have, or to lack, looked up. *)
Ltac known :=
  repeat (progress
            (parts; cbn [fst snd elements session from_option];
             repeat match goal with
                    | H : elements ?p !! ?k = _ |- context [elements ?p !! ?k] =>
                        rewrite H
                    end)).

Ltac auth_unfold :=
  unfold setLoading, showError, hideError, control_value, optional_trimmed,
    optional_checked, page_throw, typed, display_of, disabled_of, shown;
  page_unfold; known.

Section AuthPage.

Variable net : Request -> FetchOutcome.
Variables syntax_error_message type_error_message : string.

Lemma login_submitted_run p :
  login_form_ready p ->
  let asked := API.login net (JStr (trim (typed p "login-form" "email")))
                 (JStr (typed p "login-form" "password")) (session p) in
  let out := login_submitted net syntax_error_message type_error_message p in
  fst out = Return tt
  /\ session (snd out)
     = match fst asked with
       | Return response =>
           if truthy response
           then world (localStorage (snd asked))
                  (trace (snd asked)
                   ++ [Navigate (dashboard_of (get_field response "role"))])
           else snd asked
       | Throw _ => snd asked
       end
  /\ disabled_of (snd out) "login-btn" = Some false
  /\ (is_Some (elements p !! "login-error") ->
      match fst asked with
      | Return _ => display_of (snd out) "login-error" = Some "none"
      | Throw error =>
          shown (snd out) "login-error"
          = Some (Text (message_or syntax_error_message type_error_message error
                          "Login failed. Please check your credentials."))
          /\ display_of (snd out) "login-error" = Some "block"
      end)
  /\ same_but ["login-btn"; part "login-btn" ".btn-text"; part "login-btn" ".btn-loader";
               "login-error"] p (snd out).
Proof.
  intros ([btn Hbtn] & [email Hemail] & [password Hpassword]). cbv zeta.
  unfold login_submitted. auth_unfold.
  destruct (elements p !! "login-btn .btn-text") as [text|] eqn:Htext;
    destruct (elements p !! "login-btn .btn-loader") as [loader|] eqn:Hloader;
    destruct (elements p !! "login-error") as [error|] eqn:Herror;
    known;
    destruct (API.login net _ _ (session p)) as [[response|e] w];
    cbn [fst snd elements session];
    try (destruct (truthy response) eqn:Htruthy;
         [assert (get_prop response "role" = Return (get_field response "role")) as ->
            by (destruct response; try discriminate; reflexivity) |]);
    unfold redirectToDashboard, navigate, emit;
    cbn [fst snd elements session localStorage trace];
    repeat (progress
              (repeat first [rewrite lookup_alter_eq
                            | rewrite lookup_alter_ne by discriminate];
               cbn [fst snd elements session fmap option_fmap option_map]; known)).
  all: split; [reflexivity | split; [reflexivity | split; [reflexivity | split; [|frame]]]].
  all: first [intros _; first [reflexivity | split; reflexivity] | intros [? [=]]].
Qed.

Lemma login_sends email password w :
  let options :=
    {| opt_method := Some "POST";
       opt_body := stringify (JObj [("email", email); ("password", password)]);
       opt_headers := None |} in
  requests_sent (trace (snd (API.login net email password w)))
  = requests_sent (trace w) ++ [outgoing "/auth/login" options (localStorage w)].
Proof.
  cbv zeta.
  destruct (persist_after_request net (Login email password) "/auth/login"
              {| opt_method := Some "POST";
                 opt_body := stringify (JObj [("email", email); ("password", password)]);
                 opt_headers := None |} w eq_refl) as (Htrace & _).
  change (API.login net email password w)
    with ((response ← API.request net "/auth/login"
                        {| opt_method := Some "POST";
                           opt_body := stringify (JObj [("email", email);
                                                        ("password", password)]);
                           opt_headers := None |};
           keep response;; mret response) w).
  rewrite Htrace. apply request_sends_once.
Qed.

Lemma login_submitted_unready p :
  ~ login_form_ready p ->
  login_submitted net syntax_error_message type_error_message p = (Throw TypeError, p).
Proof.
  intros Hnot. unfold login_submitted, login_form_ready in *. auth_unfold.
  destruct (elements p !! "login-form email") as [email|] eqn:Hemail; known;
    [|reflexivity].
  destruct (elements p !! "login-form password") as [password|] eqn:Hpassword; known;
    [|reflexivity].
  destruct (elements p !! "login-btn") as [btn|] eqn:Hbtn; known; [|reflexivity].
  exfalso. apply Hnot. repeat split; eauto.
Qed.

Lemma signup_sends email password role country fullName w :
  let options :=
    {| opt_method := Some "POST";
       opt_body := stringify (JObj [("email", email); ("password", password);
                                    ("role", role); ("country", country);
                                    ("full_name", Endpoints.or_default JNull fullName)]);
       opt_headers := None |} in
  requests_sent (trace (snd (API.signup net email password role country fullName w)))
  = requests_sent (trace w) ++ [outgoing "/auth/signup" options (localStorage w)].
Proof.
  cbv zeta.
  destruct (persist_after_request net (Signup email password role country fullName)
              "/auth/signup"
              {| opt_method := Some "POST";
                 opt_body := stringify (JObj [("email", email); ("password", password);
                                              ("role", role); ("country", country);
                                              ("full_name",
                                               Endpoints.or_default JNull fullName)]);
                 opt_headers := None |} w eq_refl) as (Htrace & _).
  change (API.signup net email password role country fullName w)
    with ((response ← API.request net "/auth/signup"
                        {| opt_method := Some "POST";
                           opt_body :=
                             stringify (JObj [("email", email); ("password", password);
                                              ("role", role); ("country", country);
                                              ("full_name",
                                               Endpoints.or_default JNull fullName)]);
                           opt_headers := None |};
           keep response;; mret response) w).
  rewrite Htrace. apply request_sends_once.
Qed.

Lemma signup_submitted_run p :
  signup_form_ready p ->
  let password := typed p "signup-form" "password" in
  let asked := API.signup net (JStr (trim (typed p "signup-form" "email")))
                 (JStr password) (JStr (typed p "signup-form" "role"))
                 (JStr (typed p "signup-form" "country")) (full_name_given p)
                 (session p) in
  let out := signup_submitted net syntax_error_message type_error_message p in
  let refusal :=
    if (utf16_length password <? 8)%N then Some "Password must be at least 8 characters"
    else if negb (terms_accepted p) then Some "You must agree to the Terms of Service"
    else None in
  fst out = Return tt
  /\ match refusal with
     | Some text =>
         session (snd out) = session p
         /\ same_but ["signup-error"] p (snd out)
         /\ (is_Some (elements p !! "signup-error") ->
             shown (snd out) "signup-error" = Some (Text text)
             /\ display_of (snd out) "signup-error" = Some "block")
     | None =>
         requests_sent (trace (session (snd out)))
         = requests_sent (trace (snd asked))
         /\ disabled_of (snd out) "signup-btn" = Some false
     end.
Proof.
  intros ([btn Hbtn] & [email Hemail] & [password Hpassword] & [role Hrole]
          & [country Hcountry]).
  cbv zeta. unfold signup_submitted, terms_accepted, full_name_given. auth_unfold.
  destruct (elements p !! "signup-form full_name") as [full_name|] eqn:Hname; known.
  all: destruct (utf16_length (el_value password) <? 8)%N eqn:Hlen.
  all: destruct (elements p !! "signup-error") as [error|] eqn:Herror; known.
  all: try (split; [reflexivity | split; [reflexivity | split; [frame |]]];
            first [intros _; lookups; rewrite Herror; split; reflexivity
                  | intros [? [=]]]).
  all: destruct (elements p !! "signup-form terms") as [terms|] eqn:Hterms; known;
    [destruct (el_checked terms) eqn:Hchecked |]; cbn [negb].
  all: try (split; [reflexivity | split; [reflexivity | split; [frame |]]];
            first [intros _; lookups; rewrite Herror; split; reflexivity
                  | intros [? [=]]]).
  all: destruct (elements p !! "signup-btn .btn-text") as [text|] eqn:Htext;
    destruct (elements p !! "signup-btn .btn-loader") as [loader|] eqn:Hloader;
    known;
    destruct (API.signup net _ _ _ _ _ (session p)) as [[response|e] w];
    cbn [fst snd elements session];
    try (destruct (truthy response) eqn:Htruthy;
         [assert (get_prop response "role" = Return (get_field response "role")) as ->
            by (destruct response; try discriminate; reflexivity) |]);
    unfold redirectToDashboard, navigate, emit;
    cbn [fst snd elements session localStorage trace];
    repeat (progress
              (repeat first [rewrite lookup_alter_eq
                            | rewrite lookup_alter_ne by discriminate];
               cbn [fst snd elements session fmap option_fmap option_map]; known)).
  all: split; [reflexivity | split; [|reflexivity]].
  all: unfold requests_sent; cbn [trace]; rewrite ?omap_app; cbn [omap list_omap];
    rewrite ?app_nil_r; reflexivity.
Qed.

End AuthPage.

(** X19. The login form, submitted, on a page with its button and
    controls and a server that answers [r]. The handler never throws and
    leaves the button enabled. On a 401 the page is sent to
    [/login.html], the store is cleared and no message is shown. On a
    success whose body is a JSON object with an [access_token] that is
    [printable], the page goes to the dashboard of the role in the
    response, with the token stored; with an [access_token] that has no
    string form, [login] throws a TypeError, whose message is shown,
    nothing is stored and the page stays. On any other failure whose body
    has a [detail] string, that string is shown, nothing is stored and the
    page stays. *)
Theorem login_submitted_outcome net syntax_error_message type_error_message p r :
  login_form_ready p ->
  (forall req, net req = Responds r) ->
  let out := login_submitted net syntax_error_message type_error_message p in
  let st := localStorage (session p) in
  let st' := localStorage (session (snd out)) in
  let gone := navigations (trace (session (snd out))) in
  let error_there := is_Some (elements p !! "login-error") in
  fst out = Return tt
  /\ disabled_of (snd out) "login-btn" = Some false
  /\ (status r = 401%Z ->
      gone = navigations (trace (session p)) ++ ["/login.html"]
      /\ st' = TokenManager.clearAll st
      /\ (error_there -> display_of (snd out) "login-error" = Some "none"))
  /\ (forall fields,
        ok r = true -> parse (body_text r) = Some (JObj fields) ->
        let response := JObj fields in
        let access_token := get_field response "access_token" in
        (printable access_token = true ->
         gone = navigations (trace (session p))
                ++ [dashboard_of (get_field response "role")]
         /\ TokenManager.getToken st' = JStr (ToString access_token)
         /\ (error_there -> display_of (snd out) "login-error" = Some "none"))
        /\ (convertible access_token = false ->
            gone = navigations (trace (session p))
            /\ st' = st
            /\ (error_there ->
                shown (snd out) "login-error"
                = Some (Text (message_or syntax_error_message type_error_message
                                TypeError
                                "Login failed. Please check your credentials."))
                /\ display_of (snd out) "login-error" = Some "block")))
  /\ (forall fields detail,
        status r <> 401%Z -> ok r = false ->
        parse (body_text r) = Some (JObj fields) ->
        assoc "detail" fields = Some (JStr detail) -> detail <> "" ->
        gone = navigations (trace (session p))
        /\ st' = st
        /\ (error_there ->
            shown (snd out) "login-error" = Some (Text detail)
            /\ display_of (snd out) "login-error" = Some "block")).
Proof.
  intros Hready Hnet. cbv zeta.
  destruct (login_submitted_run net syntax_error_message type_error_message p Hready)
    as (Hret & Hsession & Hbtn & Herror & _).
  split; [exact Hret | split; [exact Hbtn |]].
  set (email := JStr (trim (typed p "login-form" "email"))) in *.
  set (password := JStr (typed p "login-form" "password")) in *.
  destruct (perform_answered net (Login email password) (session p) r Hnet eq_refl)
    as (H401 & Hnav & Hok & Hfail).
  change (perform net (Login email password) (session p))
    with (API.login net email password (session p)) in *.
  rewrite Hsession.
  split; [|split].
  - intros E. destruct (H401 E) as (Hnull & Hst & Hgone).
    rewrite Hnull in Herror |- *. cbn [truthy]. rewrite Hst, Hgone.
    split; [reflexivity | split; [reflexivity | exact Herror]].
  - intros fields Hok' Hp.
    assert (status r <> 401%Z) as E
      by (intros E; pose proof (ok_not_401 r Hok') as H; rewrite E in H;
          discriminate).
    destruct (Hok (JObj fields) Hok' Hp) as (_ & Hkeep & Hthrow).
    split.
    + intros Hpr.
      destruct (Hkeep eq_refl eq_refl (printable_convertible _ Hpr)) as [Hfst Hst].
      rewrite Hfst in Herror |- *. cbn [truthy world localStorage trace].
      unfold navigations at 1. rewrite omap_app.
      fold (navigations (trace (snd (API.login net email password (session p))))).
      rewrite (Hnav E).
      split; [reflexivity | split; [|exact Herror]].
      rewrite Hst.
      unfold TokenManager.getToken. rewrite getItem_lookup, setUserData_token,
        setToken_token. reflexivity.
    + intros Hc. destruct (Hthrow eq_refl eq_refl Hc) as [Hfst Hst].
      rewrite Hfst in Herror |- *. rewrite Hst, (Hnav E).
      split; [reflexivity | split; [reflexivity | exact Herror]].
  - intros fields detail E Hok' Hp Hdetail Hne.
    destruct (Hfail E (or_introl Hok')) as (Hst & Hfst).
    rewrite Hp in Hfst. unfold failure in Hfst.
    cbn [get_prop get_field] in Hfst. rewrite Hdetail in Hfst.
    cbn [default from_option id] in Hfst.
    assert (truthy (JStr detail) = true) as Ht
      by (destruct detail; [congruence | reflexivity]).
    rewrite Ht in Hfst. cbn [convertible ToString] in Hfst.
    rewrite Hfst in Herror |- *. rewrite Hst, (Hnav E).
    split; [reflexivity | split; [reflexivity |]].
    intros Hthere. destruct (Herror Hthere) as [Hshown Hdisplay].
    split; [|exact Hdisplay].
    rewrite Hshown. unfold message_or, message. rewrite Ht. reflexivity.
Qed.

Lemma login_submitted_outcome_witness :
  let wrong := login_submitted (answers expired) "" "" login_page in
  let refused := login_submitted (answers not_found) "" "" login_page in
  login_form_ready login_page
  /\ (forall req, answers expired req = Responds expired)
  /\ fst wrong = Return tt
  /\ navigations (trace (session (snd wrong))) = ["/login.html"]
  /\ display_of (snd wrong) "login-error" = Some "none"
  /\ shown (snd refused) "login-error" = Some (Text "Campaign not found").
Proof.
  cbv zeta.
  assert (login_form_ready login_page) as Hready
    by (repeat split; eexists; reflexivity).
  split; [exact Hready | split; [reflexivity |]].
  destruct (login_submitted_outcome (answers expired) "" "" login_page expired
              Hready (fun _ => eq_refl)) as (Hret & _ & H401 & _).
  destruct (H401 eq_refl) as (Hgone & _ & Hhidden).
  split; [exact Hret | split; [exact Hgone | split]].
  - apply Hhidden. eexists. reflexivity.
  - destruct (login_submitted_outcome (answers not_found) "" "" login_page not_found
                Hready (fun _ => eq_refl)) as (_ & _ & _ & _ & Hfail).
    apply (Hfail [("detail", JStr "Campaign not found")] "Campaign not found");
      try reflexivity; try discriminate.
    eexists. reflexivity.
Defined.

(** X20. The login form sends exactly one request, a POST to
    [/auth/login] whose body parses to the email with the white space
    around it trimmed and the password as typed. When the button or a
    control is missing the handler throws a TypeError and changes
    nothing. *)
Theorem login_submitted_request net syntax_error_message type_error_message p :
  let out := login_submitted net syntax_error_message type_error_message p in
  (login_form_ready p ->
   exists req text,
     requests_sent (trace (session (snd out)))
     = requests_sent (trace (session p)) ++ [req]
     /\ url req = API_BASE_URL +:+ "/auth/login"
     /\ method req = Some "POST"
     /\ body req = Some text
     /\ parse text
        = Some (JObj [("email", JStr (trim (typed p "login-form" "email")));
                      ("password", JStr (typed p "login-form" "password"))]))
  /\ (~ login_form_ready p -> out = (Throw TypeError, p)).
Proof.
  cbv zeta. split; [|apply login_submitted_unready].
  intros Hready.
  destruct (login_submitted_run net syntax_error_message type_error_message p Hready)
    as (_ & Hsession & _).
  set (email := JStr (trim (typed p "login-form" "email"))) in *.
  set (password := JStr (typed p "login-form" "password")) in *.
  pose proof (login_sends net email password (session p)) as Hsent. cbv zeta in Hsent.
  destruct (parse_stringify (JObj [("email", email); ("password", password)]) eq_refl)
    as [Htext Hparse].
  exists (outgoing "/auth/login"
            {| opt_method := Some "POST";
               opt_body := stringify (JObj [("email", email); ("password", password)]);
               opt_headers := None |} (localStorage (session p))),
    (json_text (JObj [("email", email); ("password", password)])).
  rewrite Hsession.
  split; [|split; [reflexivity | split; [reflexivity | split; [exact Htext | exact Hparse]]]].
  destruct (fst (API.login net email password (session p))) as [response|e];
    [destruct (truthy response) |]; try exact Hsent.
  cbn [world trace]. rewrite requests_sent_app, Hsent. cbn. apply app_nil_r.
Qed.

(** X21. The signup form never throws on a page with its button and
    controls. With a password of fewer than 8 UTF-16 code units, or without
    the terms ticked, nothing is sent, the session is untouched and only
    the message changes: the one about the password first. Otherwise
    exactly one request goes out, a POST to [/auth/signup] whose body
    parses to the trimmed email, the password, the role, the country and
    the trimmed full name, [null] when none is given; the button is
    enabled again afterwards. *)
Theorem signup_submitted_checks net syntax_error_message type_error_message p :
  signup_form_ready p ->
  let out := signup_submitted net syntax_error_message type_error_message p in
  let password := typed p "signup-form" "password" in
  fst out = Return tt
  /\ ((utf16_length password < 8)%N \/ terms_accepted p = false ->
      session (snd out) = session p
      /\ same_but ["signup-error"] p (snd out)
      /\ (is_Some (elements p !! "signup-error") ->
          shown (snd out) "signup-error"
          = Some (Text (if (utf16_length password <? 8)%N
                        then "Password must be at least 8 characters"
                        else "You must agree to the Terms of Service"))
          /\ display_of (snd out) "signup-error" = Some "block"))
  /\ ((8 <= utf16_length password)%N -> terms_accepted p = true ->
      disabled_of (snd out) "signup-btn" = Some false
      /\ exists req text,
           requests_sent (trace (session (snd out)))
           = requests_sent (trace (session p)) ++ [req]
           /\ url req = API_BASE_URL +:+ "/auth/signup"
           /\ method req = Some "POST"
           /\ body req = Some text
           /\ parse text
              = Some (JObj [("email", JStr (trim (typed p "signup-form" "email")));
                            ("password", JStr password);
                            ("role", JStr (typed p "signup-form" "role"));
                            ("country", JStr (typed p "signup-form" "country"));
                            ("full_name", full_name_given p)])).
Proof.
  intros Hready. cbv zeta.
  destruct (signup_submitted_run net syntax_error_message type_error_message p Hready)
    as [Hret Hrun].
  cbv zeta in Hrun. split; [exact Hret |].
  set (password := typed p "signup-form" "password") in *.
  split.
  - intros Hrefused.
    destruct (utf16_length password <? 8)%N eqn:Hlen; [exact Hrun |].
    destruct Hrefused as [Hshort | Hterms]; [apply N.ltb_ge in Hlen; lia |].
    rewrite Hterms in Hrun. exact Hrun.
  - intros Hlong Hterms.
    apply N.ltb_ge in Hlong. rewrite Hlong, Hterms in Hrun. cbn [negb] in Hrun.
    destruct Hrun as [Hsent Hbtn]. split; [exact Hbtn |].
    rewrite Hsent, signup_sends.
    assert (Endpoints.or_default JNull (full_name_given p) = full_name_given p
            /\ plain (full_name_given p) = true) as [Hdefault Hplain].
    { unfold full_name_given.
      destruct (elements p !! part "signup-form" "full_name") as [el|];
        [destruct (truthy (JStr (trim (el_value el)))) |]; split; reflexivity. }
    rewrite Hdefault.
    set (data := JObj [("email", JStr (trim (typed p "signup-form" "email")));
                       ("password", JStr password);
                       ("role", JStr (typed p "signup-form" "role"));
                       ("country", JStr (typed p "signup-form" "country"));
                       ("full_name", full_name_given p)]).
    assert (plain data = true) as Hdata.
    { subst data. cbn. rewrite Hplain. reflexivity. }
    destruct (parse_stringify data Hdata) as [Htext Hparse].
    eexists _, (json_text data).
    split; [reflexivity | split; [reflexivity | split; [reflexivity |]]].
    split; [exact Htext | exact Hparse].
Qed.

Lemma signup_submitted_checks_witness :
  let short := signup_submitted (answers ok_empty) "" "" (signup_page "secret") in
  let long := signup_submitted (answers ok_empty) "" "" (signup_page "long secret") in
  signup_form_ready (signup_page "secret")
  /\ session (snd short) = session (signup_page "secret")
  /\ shown (snd short) "signup-error"
     = Some (Text "Password must be at least 8 characters")
  /\ length (requests_sent (trace (session (snd long)))) = 1%nat.
Proof.
  cbv zeta.
  assert (forall password, signup_form_ready (signup_page password)) as Hready
    by (intros password; repeat split; eexists; reflexivity).
  split; [apply Hready |].
  destruct (signup_submitted_checks (answers ok_empty) "" "" (signup_page "secret")
              (Hready "secret")) as (_ & Hrefused & _).
  destruct (Hrefused (or_introl eq_refl)) as (Hsession & _ & Hshown).
  split; [exact Hsession | split].
  - apply Hshown. eexists. reflexivity.
  - destruct (signup_submitted_checks (answers ok_empty) "" ""
                (signup_page "long secret") (Hready "long secret"))
      as (_ & _ & Hsent).
    destruct (Hsent ltac:(vm_compute; discriminate) eq_refl)
      as (_ & req & text & -> & _).
    reflexivity.
Defined.

(** ** The campaign page *)

(** What holds of an element when it is there. *)
Ltac when_there tac :=
  let H := fresh in
  intros H; first [destruct H as [? H]; discriminate H | clear H; tac].

Lemma strict_equals_string_spec v s :
  strict_equals_string v s = true <-> v = JStr s.
Proof.
  destruct v; cbn [strict_equals_string]; try (split; discriminate).
  rewrite String.eqb_eq. split; [intros -> | intros [= ->]]; reflexivity.
Qed.

(** X22. [setupInvestmentForm] never changes the session and touches
    only the investment form and the login prompt. The form is shown, and
    the handler that starts a payment is given, only to a session that is
    authenticated with the role INVESTOR; otherwise the form is hidden. An
    authenticated user of another role is pointed to
    [business-dashboard.html] when the role is BUSINESS_OWNER and to
    [admin.html] for any other role or none; a visitor gets the login
    prompt. When the stored identity cannot be read it throws and changes
    nothing. *)
Theorem setupInvestmentForm_gate p :
  let out := setupInvestmentForm p in
  let st := localStorage (session p) in
  session (snd out) = session p
  /\ same_but ["investment-form"; "login-prompt"] p (snd out)
  /\ (forall e, fst out = Throw e ->
        TokenManager.isAuthenticated st = true
        /\ TokenManager.getUserData st = Throw e
        /\ snd out = p)
  /\ (forall registered, fst out = Return registered ->
        registered = investor st && bool_decide (is_Some (elements p !! "invest-form"))
        /\ (is_Some (elements p !! "investment-form") ->
            display_of (snd out) "investment-form"
            = Some (if investor st then "block" else "none"))
        /\ (is_Some (elements p !! "login-prompt") ->
            if investor st then display_of (snd out) "login-prompt" = Some "none"
            else if TokenManager.isAuthenticated st
            then display_of (snd out) "login-prompt" = display_of p "login-prompt"
                 /\ forall userData,
                      TokenManager.getUserData st = Return userData ->
                      let role := get_prop_opt userData "role" in
                      (role = JStr "BUSINESS_OWNER" ->
                       shown (snd out) "login-prompt"
                       = Some (Markup (only_investors "business-dashboard.html")))
                      /\ (role <> JStr "BUSINESS_OWNER" ->
                          shown (snd out) "login-prompt"
                          = Some (Markup (only_investors "admin.html")))
            else display_of (snd out) "login-prompt" = Some "block"
                 /\ shown (snd out) "login-prompt" = shown p "login-prompt")).
Proof.
  destruct p as [[st tr] els]. cbv zeta.
  unfold setupInvestmentForm, investor, display_of, storage_read, storage_call.
  page_unfold.
  destruct (TokenManager.isAuthenticated st) eqn:Hauth;
    cbn [andb localStorage trace session elements fst snd].
  - destruct (TokenManager.getUserData st) as [userData|e] eqn:Hdata.
    2: { cbn [fst snd session].
         split; [reflexivity | split; [intros id _; reflexivity |]].
         split; [|discriminate].
         intros e' [= <-]. repeat split. }
    destruct (strict_equals_string (get_prop_opt userData "role") "INVESTOR") eqn:Hrole.
    + destruct (els !! "investment-form") as [a|] eqn:Ha;
        destruct (els !! "login-prompt") as [b|] eqn:Hb;
        destruct (els !! "invest-form") as [c|] eqn:Hc;
        cbn [fst snd elements session].
      all: split; [reflexivity | split; [frame | split; [discriminate |]]].
      all: intros registered [= <-].
      all: split; [reflexivity ||
                   (symmetry; apply bool_decide_eq_false_2; intros [? [=]]) ||
                   (symmetry; apply bool_decide_eq_true_2; eexists; reflexivity) |].
      all: split; when_there ltac:(lookups; rewrite ?Ha, ?Hb; reflexivity).
    + destruct (els !! "investment-form") as [a|] eqn:Ha;
        destruct (els !! "login-prompt") as [b|] eqn:Hb;
        cbn [fst snd elements session].
      all: split; [reflexivity | split; [frame | split; [discriminate |]]].
      all: intros registered [= <-].
      all: split; [reflexivity |].
      all: split; when_there ltac:(lookups; rewrite ?Ha, ?Hb; try reflexivity).
      all: split; [reflexivity |].
      all: intros userData' [= <-]; cbv zeta.
      all: destruct (strict_equals_string (get_prop_opt userData "role")
                       "BUSINESS_OWNER") eqn:Howner.
      all: split; intros Hr; try reflexivity.
      all: first [apply strict_equals_string_spec in Howner; contradiction
                 | apply strict_equals_string_spec in Hr; congruence].
  - destruct (els !! "investment-form") as [a|] eqn:Ha;
      destruct (els !! "login-prompt") as [b|] eqn:Hb;
      cbn [fst snd elements session].
    all: split; [reflexivity | split; [frame | split; [discriminate |]]].
    all: intros registered [= <-].
    all: split; [reflexivity |].
    all: split; when_there ltac:(lookups; rewrite ?Ha, ?Hb; try reflexivity).
    all: split; reflexivity.
Qed.
